(** * Challenge lifecycle engine of the competition bot (src/main.py)

    A shallow embedding of the parts of [CompetitionBot] and of the
    conversation handlers that decide the lifecycle properties: the status
    resolver, the notification gate, the scheduler tick, the statistics
    queries and the score / baseline / challenge mutations.

    Conventions of the embedding:
    - an SQLite cell is a [value]; a fetched row (a Python tuple) is a
      [list value];
    - tables with a primary key are finite maps ([gmap]) on that key, the
      [scores] table (no uniqueness beyond its surrogate id) is a list in
      insertion order;
    - a finite Python float is an exact rational ([Q]); a float that a handler
      converts from text is a [pyfloat], which also has NaN and the
      infinities, and a [REAL] cell is an [option Q], [None] being NULL, as
      which [sqlite3] stores NaN; the properties proved about them concern
      which rows a query selects and the rounding of an average of integers,
      which exact arithmetic decides the same way;
    - strings are byte strings;
    - a function that reads the clock takes the local time [now] (the value of
      [datetime.now()]) and, where a column defaults to [CURRENT_TIMESTAMP],
      the text [ts] of the database clock;
    - a Python exception is a [Raise] result; writes committed before the
      exception stay in the database that is threaded through, statements of a
      transaction that is never committed do not;
    - where SQL leaves the order of equal rows open, a query returns them in
      the order of the scan: by rowid for [challenges], by the grouping key
      after a [GROUP BY]. *)

From Stdlib Require Import ZArith QArith Qabs Qround Lqa String Ascii List Sorted
  Lia.
From stdpp Require Import base option list gmap strings pretty sorting.

Local Open Scope Z_scope.

(** ** Python dates, datetimes and [strptime(_, '%Y-%m-%d')] *)

Module PyTime.

Record date := Date { year : Z; month : Z; day : Z }.

Global Instance date_eq_dec : EqDecision date.
Proof. solve_decision. Defined.

Definition is_leap (y : Z) : bool :=
  (y mod 4 =? 0) && (negb (y mod 100 =? 0) || (y mod 400 =? 0)).

Definition days_in_month (y m : Z) : Z :=
  if m =? 2 then (if is_leap y then 29 else 28)
  else if (m =? 4) || (m =? 6) || (m =? 9) || (m =? 11) then 30
  else 31.

Definition days_before_year (y : Z) : Z :=
  let y := y - 1 in y * 365 + y / 4 - y / 100 + y / 400.

Definition DAYS_BEFORE_MONTH : list Z :=
  [0; 31; 59; 90; 120; 151; 181; 212; 243; 273; 304; 334].

Definition days_before_month (y m : Z) : Z :=
  nth (Z.to_nat (m - 1)) DAYS_BEFORE_MONTH 0
  + (if (2 <? m) && is_leap y then 1 else 0).

(** [date(y, m, d)] raises [ValueError] outside these ranges. *)
Definition valid_date (y m d : Z) : bool :=
  (1 <=? y) && (y <=? 9999) && (1 <=? m) && (m <=? 12)
  && (1 <=? d) && (d <=? days_in_month y m).

Definition make_date (y m d : Z) : option date :=
  if valid_date y m d then Some (Date y m d) else None.

Definition toordinal (d : date) : Z :=
  days_before_year (year d) + days_before_month (year d) (month d) + day d.

(** The ordinal of [date.max], 9999-12-31. *)
Definition max_ordinal : Z := 3652059.

(** A [datetime] as Python stores it; instants and [timedelta]s are counted
    in microseconds, the resolution of [datetime.now()]. *)
Record datetime := DateTime
  { dt_date : date; hour : Z; minute : Z; second : Z; microsecond : Z }.

Definition us_per_second : Z := 1000000.
Definition us_per_day : Z := 86400 * us_per_second.

Definition timedelta (days seconds : Z) : Z :=
  days * us_per_day + seconds * us_per_second.

(** [datetime(y, m, d)] at 00:00:00, as an instant. *)
Definition midnight (d : date) : Z := toordinal d * us_per_day.

(** [datetime.min], 0001-01-01 00:00:00, and [datetime.max], 9999-12-31
    23:59:59.999999. *)
Definition min_instant : Z := us_per_day.
Definition max_instant : Z := (max_ordinal + 1) * us_per_day - 1.

Definition instant (t : datetime) : Z :=
  midnight (dt_date t)
  + ((hour t * 60 + minute t) * 60 + second t) * us_per_second
  + microsecond t.

(** [timedelta.days] and [timedelta.seconds] of a normalised difference. *)
Definition td_days (td : Z) : Z := td / us_per_day.
Definition td_seconds (td : Z) : Z := (td mod us_per_day) / us_per_second.

Definition is_digit (c : ascii) : bool :=
  let n := Z.of_N (N_of_ascii c) in (48 <=? n) && (n <=? 57).

Definition digit (c : ascii) : Z := Z.of_N (N_of_ascii c) - 48.

Definition in_range (lo hi : Z) (c : ascii) : bool :=
  is_digit c && (lo <=? digit c) && (digit c <=? hi).

(** The alternatives of the [%m] directive, [1[0-2]|0[1-9]|[1-9]], in the
    order the regular expression tries them, each with the rest of the
    input. *)
Definition month_alternatives (s : string) : list (Z * string) :=
  match s with
  | String c1 rest1 =>
      (match rest1 with
       | String c2 rest2 =>
           (if Ascii.eqb c1 "1" && in_range 0 2 c2
            then [(10 + digit c2, rest2)] else [])
           ++ (if Ascii.eqb c1 "0" && in_range 1 9 c2
               then [(digit c2, rest2)] else [])
       | EmptyString => []
       end)
      ++ (if in_range 1 9 c1 then [(digit c1, rest1)] else [])
  | EmptyString => []
  end.

(** The alternatives of [%d], [3[01]|[12]\d|0[1-9]|[1-9]| [1-9]]. *)
Definition day_alternatives (s : string) : list (Z * string) :=
  match s with
  | String c1 rest1 =>
      (match rest1 with
       | String c2 rest2 =>
           (if Ascii.eqb c1 "3" && in_range 0 1 c2
            then [(30 + digit c2, rest2)] else [])
           ++ (if in_range 1 2 c1 && is_digit c2
               then [(10 * digit c1 + digit c2, rest2)] else [])
           ++ (if Ascii.eqb c1 "0" && in_range 1 9 c2
               then [(digit c2, rest2)] else [])
       | EmptyString => []
       end)
      ++ (if in_range 1 9 c1 then [(digit c1, rest1)] else [])
      ++ (match rest1 with
          | String c2 rest2 =>
              if Ascii.eqb c1 " " && in_range 1 9 c2
              then [(digit c2, rest2)] else []
          | EmptyString => []
          end)
  | EmptyString => []
  end.

Definition starts_with (c : ascii) (s : string) : bool :=
  match s with String c' _ => Ascii.eqb c' c | EmptyString => false end.

Definition four_digits (y1 y2 y3 y4 : ascii) : option Z :=
  if is_digit y1 && is_digit y2 && is_digit y3 && is_digit y4
  then Some (((digit y1 * 10 + digit y2) * 10 + digit y3) * 10 + digit y4)
  else None.

(** [datetime.strptime(s, '%Y-%m-%d')]: [None] stands for [ValueError]
    (no match, unconverted data, or a date that does not exist).  The month
    alternative taken is the first one followed by a dash; the day
    alternative is the first that matches, and the whole input must then be
    consumed. *)
Definition strptime (s : string) : option date :=
  match s with
  | String y1 (String y2 (String y3 (String y4 (String dash rest)))) =>
      match four_digits y1 y2 y3 y4 with
      | Some y =>
          if Ascii.eqb dash "-" then
            match List.find (fun a => starts_with "-" (snd a))
                    (month_alternatives rest) with
            | Some (m, String _ rest') =>
                match day_alternatives rest' with
                | (d, EmptyString) :: _ => make_date y m d
                | _ => None
                end
            | _ => None
            end
          else None
      | None => None
      end
  | _ => None
  end.

(** [datetime.strptime(s, '%d/%m/%Y')], the format of the administrative
    date inputs. *)
Definition strptime_dmY (s : string) : option date :=
  match List.find (fun a => starts_with "/" (snd a)) (day_alternatives s) with
  | Some (d, String _ rest) =>
      match List.find (fun a => starts_with "/" (snd a))
              (month_alternatives rest) with
      | Some (m, String _ (String y1 (String y2 (String y3 (String y4 EmptyString))))) =>
          match four_digits y1 y2 y3 y4 with
          | Some y => make_date y m d
          | None => None
          end
      | _ => None
      end
  | _ => None
  end.

Definition zero_pad (width : nat) (n : Z) : string :=
  let s := pretty n in
  String.concat "" (repeat "0"%string (width - String.length s)) +:+ s.

(** [date.isoformat()], the text the [sqlite3] adapter stores for a date. *)
Definition isoformat (d : date) : string :=
  zero_pad 4 (year d) +:+ "-" +:+ zero_pad 2 (month d) +:+ "-"
    +:+ zero_pad 2 (day d).

(** [strftime('%Y-%m-%d')]: the C library writes the year of [%Y] without
    padding, so that a year below 1000 has fewer than four digits. *)
Definition strftime_Ymd (d : date) : string :=
  pretty (year d) +:+ "-" +:+ zero_pad 2 (month d) +:+ "-"
    +:+ zero_pad 2 (day d).

End PyTime.

Import PyTime.

(** ** SQLite cells, fetched rows and exceptions *)

Inductive value := VNull | VInt (n : Z) | VText (s : string).

Global Instance value_eq_dec : EqDecision value.
Proof. solve_decision. Defined.

Definition value_encode (v : value) : unit + (Z + string) :=
  match v with
  | VNull => inl ()
  | VInt n => inr (inl n)
  | VText s => inr (inr s)
  end.

Definition value_decode (x : unit + (Z + string)) : value :=
  match x with
  | inl _ => VNull
  | inr (inl n) => VInt n
  | inr (inr s) => VText s
  end.

Global Instance value_countable : Countable value.
Proof. apply (inj_countable' value_encode value_decode). by intros []. Defined.

(** Python's [str(cell)]. *)
Definition py_str (v : value) : string :=
  match v with
  | VNull => "None"
  | VInt n => pretty n
  | VText s => s
  end.

Inductive exn := ValueError | IndexError | KeyError | OverflowError | TypeError.

Inductive result (A : Type) :=
| Ok (a : A)
| Raise (e : exn).
Arguments Ok {A} a.
Arguments Raise {A} e.

Global Instance result_ret : MRet result := fun _ a => Ok a.
Global Instance result_bind : MBind result := fun _ _ f r =>
  match r with
  | Ok a => f a
  | Raise e => Raise e
  end.

Definition of_option {A} (e : exn) (o : option A) : result A :=
  match o with
  | Some a => Ok a
  | None => Raise e
  end.

(** ** The status resolver: [CompetitionBot.get_challenge_status] *)

(** The width test and the tuple unpacking: the 8-column and the 10-column
    pattern both bind the start and end date from positions 3 and 4; any other
    width fails to unpack. *)
Definition unpack_dates (challenge : list value) : result (value * value) :=
  match challenge with
  | [_; _; _; start_date; end_date; _; _; _] => Ok (start_date, end_date)
  | [_; _; _; start_date; end_date; _; _; _; _; _] => Ok (start_date, end_date)
  | _ => Raise ValueError
  end.

Definition plural (n : Z) : string := if n =? 1 then "" else "s".

Definition format_time_remaining (time_diff : Z) : string :=
  if 1 <? td_days time_diff then pretty (td_days time_diff) +:+ " days"
  else if td_days time_diff =? 1 then "1 day"
  else
    let hours := td_seconds time_diff / 3600 in
    let minutes := (td_seconds time_diff mod 3600) / 60 in
    if 0 <? hours then pretty hours +:+ " hour" +:+ plural hours
    else if 0 <? minutes then pretty minutes +:+ " minute" +:+ plural minutes
    else "less than a minute".

Definition start_instant (start_date : date) : Z := midnight start_date.

(** [t + delta] for a datetime [t] and a timedelta: the sum is a datetime
    only between [datetime.min] and [datetime.max], and the addition raises
    [OverflowError] otherwise. *)
Definition datetime_add (t delta : Z) : result Z :=
  if (min_instant <=? t + delta) && (t + delta <=? max_instant)
  then Ok (t + delta)
  else Raise OverflowError.

(** The branches of the resolver, on instants. *)
Definition phase (now start_datetime end_datetime grace_end : Z)
  : string * string :=
  if now <? start_datetime then
    ("upcoming", "Starts in " +:+ format_time_remaining (start_datetime - now))
  else if (start_datetime <=? now) && (now <=? end_datetime) then
    ("active",
     "Active \- " +:+ format_time_remaining (end_datetime - now) +:+ " remaining\!")
  else if (end_datetime <? now) && (now <=? grace_end) then
    ("grace_period",
     "Grace period \- " +:+ format_time_remaining (grace_end - now)
       +:+ " left to submit\!")
  else ("ended", "Challenge has ended").

Definition get_challenge_status (now : datetime) (challenge : option (list value))
  : result (option string * option string) :=
  match challenge with
  | None | Some [] => Ok (None, None)
  | Some challenge =>
      '(start_date, end_date) ← unpack_dates challenge;
      start_date ← of_option ValueError (strptime (py_str start_date));
      end_date ← of_option ValueError (strptime (py_str end_date));
      next_day ← datetime_add (midnight end_date) (timedelta 1 0);
      end_datetime ← datetime_add next_day (- timedelta 0 1);
      grace_end ← datetime_add end_datetime (timedelta 1 0);
      let '(status, message) :=
        phase (instant now) (start_instant start_date) end_datetime grace_end in
      Ok (Some status, Some message)
  end.

(** The instants that the resolver compares [now] with when none of its
    additions overflows: the end of the end date, 23:59:59, and the end of the
    grace period 24 hours later. *)
Definition end_instant (end_date : date) : Z :=
  midnight end_date + timedelta 1 0 - timedelta 0 1.

Definition grace_instant (end_date : date) : Z :=
  end_instant end_date + timedelta 1 0.

(** What the resolver returns for these dates when it returns. *)
Definition resolve (now : datetime) (start_date end_date : date)
  : string * string :=
  phase (instant now) (start_instant start_date) (end_instant end_date)
    (grace_instant end_date).

Definition noon (d : date) : datetime := DateTime d 12 0 0 0.

(** ** The database *)

(** A row of the [challenges] table, by column name (the [id] is the key). *)
Record challenge := Challenge
  { description : value;
    scoring_system : value;
    challenge_type : value;
    type_description : value;
    start_date : value;
    end_date : value;
    status : value;
    created_by : value;
    created_at : value }.

Definition set_status (new_status : value) (c : challenge) : challenge :=
  Challenge (description c) (scoring_system c) (challenge_type c)
    (type_description c) (start_date c) (end_date c) new_status
    (created_by c) (created_at c).

(** The order in which [SELECT *] yields the columns.  [Declared] is the order
    of the [CREATE TABLE] statement of [init_database]; [Migrated] is the order
    of a table created with eight columns to which the two [ALTER TABLE ... ADD
    COLUMN] statements appended [challenge_type] and [type_description]. *)
Inductive column_order := Declared | Migrated.

Definition select_star (o : column_order) (id : Z) (c : challenge) : list value :=
  match o with
  | Declared =>
      [VInt id; description c; scoring_system c; challenge_type c;
       type_description c; start_date c; end_date c; status c;
       created_by c; created_at c]
  | Migrated =>
      [VInt id; description c; scoring_system c; start_date c; end_date c;
       status c; created_by c; created_at c; challenge_type c;
       type_description c]
  end.

Module Score.
Record t := Row
  { user_id : Z; date : PyTime.date; points : Z; challenge_id : Z }.
End Score.

(** A Python float: a finite one is the rational it stands for. *)
Inductive pyfloat := Finite (q : Q) | NaN | Infinity (negative : bool).

(** The [REAL] cell that [sqlite3] stores for a float: NaN becomes NULL.  No
    infinity reaches a write: the handlers refuse it before, see
    [too_large]. *)
Definition sqlite_real (v : pyfloat) : option Q :=
  match v with
  | Finite q => Some q
  | NaN | Infinity _ => None
  end.

(** A row of [baseline_values] without its key; the two [REAL] cells may be
    NULL. *)
Record baseline := Baseline
  { baseline_value : option Q; current_value : option Q; last_updated : string }.

Record user := User { username : value; registered_username : value }.

Record DB := Db
  { corder : column_order;
    challenges : gmap Z challenge;
    challenge_seq : Z;
    scores : list Score.t;
    challenge_notifications : gmap (Z * string) string;
    baseline_values : gmap (Z * Z) baseline;
    users : gmap Z user }.

Definition with_challenges (m : gmap Z challenge) (db : DB) : DB :=
  Db (corder db) m (challenge_seq db) (scores db) (challenge_notifications db)
    (baseline_values db) (users db).

Definition with_scores (l : list Score.t) (db : DB) : DB :=
  Db (corder db) (challenges db) (challenge_seq db) l
    (challenge_notifications db) (baseline_values db) (users db).

Definition with_notifications (n : gmap (Z * string) string) (db : DB) : DB :=
  Db (corder db) (challenges db) (challenge_seq db) (scores db) n
    (baseline_values db) (users db).

Definition with_baselines (b : gmap (Z * Z) baseline) (db : DB) : DB :=
  Db (corder db) (challenges db) (challenge_seq db) (scores db)
    (challenge_notifications db) b (users db).

(** SQLite's order on cells: NULL, then integers, then text bytewise. *)
Definition value_ltb (a b : value) : bool :=
  match a, b with
  | VNull, VNull => false
  | VNull, _ => true
  | VInt _, VNull => false
  | VInt x, VInt y => x <? y
  | VInt _, VText _ => true
  | VText s, VText t => String.ltb s t
  | VText _, _ => false
  end.

Definition current_statuses : list value :=
  [VText "active"; VText "upcoming"; VText "grace_period"].

Definition is_current (c : challenge) : bool :=
  bool_decide (status c ∈ current_statuses).

(** [ORDER BY created_at DESC LIMIT 1]: the row with the greatest [created_at];
    among equal ones the first one of the scan, which goes by rowid: the one
    with the smallest id. *)
Definition keep_latest (best : option (Z * challenge)) (r : Z * challenge)
  : option (Z * challenge) :=
  match best with
  | None => Some r
  | Some b =>
      if value_ltb (created_at (snd b)) (created_at (snd r)) then Some r
      else if value_ltb (created_at (snd r)) (created_at (snd b)) then Some b
      else if fst r <? fst b then Some r else Some b
  end.

Definition latest (rows : list (Z * challenge)) : option (Z * challenge) :=
  foldl keep_latest None rows.

Definition current_row (db : DB) : option (Z * challenge) :=
  latest (List.filter (fun r => is_current (snd r)) (map_to_list (challenges db))).

Definition get_current_challenge (db : DB) : option (list value) :=
  (fun r => select_star (corder db) (fst r) (snd r)) <$> current_row db.

(** [UPDATE challenges SET status = ? WHERE id = ?] *)
Definition update_challenge_status (challenge_id : Z) (new_status : value)
    (db : DB) : DB :=
  with_challenges (alter (set_status new_status) challenge_id (challenges db)) db.

(** ** The notification gate *)

Definition has_notification_been_sent (challenge_id : Z)
    (notification_type : string) (db : DB) : bool :=
  bool_decide (is_Some (challenge_notifications db !! (challenge_id, notification_type))).

(** [INSERT OR REPLACE INTO challenge_notifications (challenge_id,
    notification_type)]: a row with the same key is deleted and the new row
    takes [sent_date] from its default, [CURRENT_TIMESTAMP], here [ts]. *)
Definition mark_notification_sent (ts : string) (challenge_id : Z)
    (notification_type : string) (db : DB) : DB :=
  with_notifications
    (<[(challenge_id, notification_type) := ts]> (challenge_notifications db)) db.

(** ** Statistics: the queries of [get_challenge_stats], of the leaderboard
    commands and of the final announcement *)

Definition Qltb (a b : Q) : bool := negb (Qle_bool b a).

Section OrderBy.
Context {A : Type} (key : A -> Q).

(** [ORDER BY key DESC], stable on the scan order. *)
Fixpoint insert_desc (x : A) (l : list A) : list A :=
  match l with
  | [] => [x]
  | y :: l' => if Qltb (key x) (key y) then y :: insert_desc x l' else x :: l
  end.

Definition order_by_desc (l : list A) : list A := foldr insert_desc [] l.
End OrderBy.

Definition is_null {A} (o : option A) : bool :=
  match o with
  | None => true
  | Some _ => false
  end.

Section OrderByNullable.
Context {A : Type} (key : A -> option Q).

(** [ORDER BY key DESC] and [ORDER BY key ASC] for a key that may be NULL.
    SQLite puts NULL below every number: the rows with a NULL key come last
    in descending and first in ascending order, among themselves in scan
    order. *)
Definition order_by_desc_nullable (l : list A) : list A :=
  order_by_desc (fun x => default 0%Q (key x))
    (List.filter (fun x => negb (is_null (key x))) l)
  ++ List.filter (fun x => is_null (key x)) l.

Definition order_by_asc_nullable (l : list A) : list A :=
  List.filter (fun x => is_null (key x)) l
  ++ order_by_desc (fun x => (- default 0 (key x))%Q)
       (List.filter (fun x => negb (is_null (key x))) l).
End OrderByNullable.

Definition nonempty {A} (l : list A) : option (list A) :=
  match l with
  | [] => None
  | _ => Some l
  end.

Definition Qsum (l : list Q) : Q := foldr Qplus 0%Q l.

(** SQL [AVG]: NULL over no rows. *)
Definition sql_avg (l : list Q) : option Q :=
  match l with
  | [] => None
  | _ => Some (Qsum l / inject_Z (Z.of_nat (length l)))%Q
  end.

(** Python's [round(x)] on a float: nearest integer, ties to even. *)
Definition py_round (q : Q) : Z :=
  let f := Qfloor q in
  let r := (q - inject_Z f)%Q in
  if Qltb r (1 # 2) then f
  else if Qltb (1 # 2) r then f + 1
  else if Z.even f then f else f + 1.

(** *** Points challenges *)

Definition challenge_scores (db : DB) (challenge_id : Z) : list Score.t :=
  List.filter (fun s => Score.challenge_id s =? challenge_id) (scores db).

Definition sum_points (l : list Score.t) : Z :=
  foldr (fun s acc => Score.points s + acc) 0 l.

(** [SELECT user_id, SUM(points) ... GROUP BY user_id] *)
Definition group_by_user (l : list Score.t) : list (Z * Z) :=
  map (fun u => (u, sum_points (List.filter (fun s => Score.user_id s =? u) l)))
    (remove_dups (map Score.user_id l)).

(** The inner query of the average: per-user totals, [HAVING total_points > 0]. *)
Definition positive_totals (db : DB) (challenge_id : Z) : list Z :=
  List.filter (fun t => 0 <? t)
    (map snd (group_by_user (challenge_scores db challenge_id))).

(** [stats['avg_points_per_player']]; [None] when the key is not set. *)
Definition avg_points_per_player_of (db : DB) (challenge_id : Z) : option Z :=
  match sql_avg (map inject_Z (positive_totals db challenge_id)) with
  | Some avg => if Qeq_bool avg 0 then None else Some (py_round avg)
  | None => None
  end.

Definition total_points_of (db : DB) (challenge_id : Z) : option Z :=
  match challenge_scores db challenge_id with
  | [] => None
  | l => if sum_points l =? 0 then None else Some (sum_points l)
  end.

(** The groups of a [GROUP BY s.user_id, ...] come out in the order of the
    grouping key, by ascending user id. *)
Definition by_user_id (groups : list (Z * Z)) : list (Z * Z) :=
  order_by_desc (fun g => inject_Z (- fst g)) groups.

(** [SELECT u.registered_username, SUM(s.points) ... JOIN users ... GROUP BY
    s.user_id, u.registered_username ORDER BY total_points DESC LIMIT n];
    among equal totals the groups stay in the order of the user ids. *)
Definition points_ranking (db : DB) (challenge_id : Z) (n : nat)
  : list (value * Z) :=
  let joined :=
    List.filter (fun s => bool_decide (is_Some (users db !! Score.user_id s)))
      (challenge_scores db challenge_id) in
  let groups :=
    omap (fun g => (fun u => (registered_username u, snd g)) <$> users db !! fst g)
      (by_user_id (group_by_user joined)) in
  take n (order_by_desc (fun r => inject_Z (snd r)) groups).

(** [SELECT COUNT(DISTINCT user_id) FROM scores WHERE challenge_id = ?] *)
Definition count_scorers (db : DB) (challenge_id : Z) : nat :=
  length (remove_dups (map Score.user_id (challenge_scores db challenge_id))).

(** *** Change challenges *)

(** A row of [baseline_values]: the key [(user_id, challenge_id)] and the
    other columns. *)
Definition baseline_row : Type := (Z * Z) * baseline.

(** [((b.current_value - b.baseline_value) / ABS(b.baseline_value)) * 100]:
    NULL when one of the cells is NULL, and when the divisor is 0. *)
Definition percent_change (b : baseline) : option Q :=
  match baseline_value b, current_value b with
  | Some bv, Some cv =>
      if Qeq_bool (Qabs bv) 0 then None
      else Some (((cv - bv) / Qabs bv) * 100)%Q
  | _, _ => None
  end.

(** [FROM baseline_values b WHERE b.challenge_id = ?] *)
Definition challenge_baselines (db : DB) (challenge_id : Z) : list baseline_row :=
  List.filter (fun r => snd (fst r) =? challenge_id)
    (map_to_list (baseline_values db)).

(** [JOIN users u ON b.user_id = u.telegram_id], keeping
    [u.registered_username]. *)
Definition join_users (db : DB) (rows : list baseline_row)
  : list (value * baseline_row) :=
  omap (fun r => (fun u => (registered_username u, r)) <$> users db !! fst (fst r))
    rows.

(** [b.baseline_value != 0]: not true of a NULL baseline. *)
Definition nonzero_baseline (r : baseline_row) : bool :=
  match baseline_value (snd r) with
  | Some bv => negb (Qeq_bool bv 0)
  | None => false
  end.

(** [b.current_value > b.baseline_value] and [b.current_value <
    b.baseline_value]: not true when a cell is NULL. *)
Definition gained (r : baseline_row) : bool :=
  match baseline_value (snd r), current_value (snd r) with
  | Some bv, Some cv => Qltb bv cv
  | _, _ => false
  end.

Definition lost (r : baseline_row) : bool :=
  match baseline_value (snd r), current_value (snd r) with
  | Some bv, Some cv => Qltb cv bv
  | _, _ => false
  end.

Definition pct (jr : value * baseline_row) : option Q :=
  percent_change (snd (snd jr)).

(** [ABS(percent_change)] *)
Definition abs_pct (jr : value * baseline_row) : option Q := Qabs <$> pct jr.

(** The rows a query ranks, before [ORDER BY] and [LIMIT]: the join with the
    [WHERE] clause of the gains, of the losses, and of the rankings by
    absolute change. *)
Definition gains_candidates (db : DB) (challenge_id : Z)
  : list (value * baseline_row) :=
  List.filter (fun jr => nonzero_baseline (snd jr) && gained (snd jr))
    (join_users db (challenge_baselines db challenge_id)).

Definition losses_candidates (db : DB) (challenge_id : Z)
  : list (value * baseline_row) :=
  List.filter (fun jr => nonzero_baseline (snd jr) && lost (snd jr))
    (join_users db (challenge_baselines db challenge_id)).

Definition change_candidates (db : DB) (challenge_id : Z)
  : list (value * baseline_row) :=
  List.filter (fun jr => nonzero_baseline (snd jr))
    (join_users db (challenge_baselines db challenge_id)).

(** Gains: [... AND b.current_value > b.baseline_value ORDER BY percent_change
    DESC LIMIT n] ([n] is 3 in the statistics, 20 in [stats_gain]). *)
Definition gains_query (db : DB) (challenge_id : Z) (n : nat)
  : list (value * baseline_row) :=
  take n (order_by_desc_nullable pct (gains_candidates db challenge_id)).

(** Losses: [... AND b.current_value < b.baseline_value ORDER BY percent_change
    ASC LIMIT n]. *)
Definition losses_query (db : DB) (challenge_id : Z) (n : nat)
  : list (value * baseline_row) :=
  take n (order_by_asc_nullable pct (losses_candidates db challenge_id)).

(** The rows of the [avg_change] query: no join, [b.baseline_value != 0].
    [AVG] skips the rows whose percent change is NULL. *)
Definition avg_change_query (db : DB) (challenge_id : Z) : list baseline_row :=
  List.filter nonzero_baseline (challenge_baselines db challenge_id).

Definition avg_change_of (db : DB) (challenge_id : Z) : option Q :=
  sql_avg (omap (fun r => percent_change (snd r))
             (avg_change_query db challenge_id)).

(** Ranking by absolute change: [... WHERE b.challenge_id = ? AND
    b.baseline_value != 0 ORDER BY ABS(percent_change) DESC LIMIT n]; [n] is 1
    for the biggest change, 20 for [stats_change] and for past challenges, 3
    for the final announcement. *)
Definition change_ranking (db : DB) (challenge_id : Z) (n : nat)
  : list (value * baseline_row) :=
  take n (order_by_desc_nullable abs_pct (change_candidates db challenge_id)).

Definition name_and_change (jr : value * baseline_row) : value * option Q :=
  (fst jr, pct jr).

(** The statistics dictionary; [None] is an absent key.  The entries
    [highest_daily], [highest_weekly] and [most_active_day] of the source are
    independent of the others and are not part of this record. *)
Record stats := Stats
  { avg_points_per_player : option Z;
    total_points : option Z;
    top_gains : option (list (value * option Q));
    top_losses : option (list (value * option Q));
    avg_change : option Q;
    biggest_change : option (value * option Q * option Q * option Q) }.

Definition empty_stats : stats := Stats None None None None None None.

Definition get_challenge_stats (db : DB) (challenge_id : Z) : stats :=
  match challenges db !! challenge_id with
  | None => empty_stats
  | Some c =>
      let change := bool_decide (challenge_type c = VText "change") in
      Stats
        (avg_points_per_player_of db challenge_id)
        (total_points_of db challenge_id)
        (if change
         then nonempty (map name_and_change (gains_query db challenge_id 3))
         else None)
        (if change
         then nonempty (map name_and_change (losses_query db challenge_id 3))
         else None)
        (if change then avg_change_of db challenge_id else None)
        (if change
         then match change_ranking db challenge_id 1 with
              | jr :: _ =>
                  Some (fst jr, baseline_value (snd (snd jr)),
                        current_value (snd (snd jr)), abs_pct jr)
              | [] => None
              end
         else None)
  end.

(** ** The scheduler tick: [CompetitionBot.check_and_send_notifications] *)

Inductive metric := Points (n : Z) | Change (q : Q).

(** What an announcement is built from; the MarkdownV2 rendering is left out. *)
Inductive message :=
| ChallengeStarted (description scoring_system : value) (start_date end_date : date)
| ChallengeEndingSoon (description : value)
| FinalResults (description : value) (top_3 : list (value * metric))
    (st : stats) (total_participants : nat)
| ChallengeComplete (description : value).

(** One call of [send_challenge_notification], labelled with the challenge and
    the lifecycle event on whose behalf it is made. *)
Record outbound := Outbound { about : Z; event_kind : string; body : message }.

Definition py_index (t : list value) (i : nat) : result value :=
  of_option IndexError (t !! i).

(** [challenge[0]]: the [INTEGER PRIMARY KEY] of the fetched row. *)
Definition row_id (challenge : list value) : result Z :=
  v ← py_index challenge 0;
  match v with
  | VInt id => Ok id
  | _ => Raise ValueError
  end.

(** A Python status ([str] or [None]) as the cell it is compared with or bound
    to. *)
Definition status_cell (s : option string) : value :=
  match s with
  | Some s => VText s
  | None => VNull
  end.

(** The loop over the winners of a change challenge: [change >= 0] raises
    [TypeError] when the percent change is NULL. *)
Fixpoint change_winners (top_3 : list (value * option Q))
  : result (list (value * metric)) :=
  match top_3 with
  | [] => Ok []
  | (username, Some change) :: rest =>
      winners ← change_winners rest;
      Ok ((username, Change change) :: winners)
  | (_, None) :: _ => Raise TypeError
  end.

(** Formatting a percent change with [:.2f] raises [TypeError] when it is
    NULL. *)
Definition format_changes (l : list (value * option Q)) : result unit :=
  if forallb (fun e => negb (is_null (snd e))) l then Ok () else Raise TypeError.

(** The statistics block of a change challenge, entered when the statistics
    have gains or losses: it formats the biggest change, the gains and the
    losses. *)
Definition change_stats_block (st : stats) : result unit :=
  if negb (is_null (top_gains st)) || negb (is_null (top_losses st)) then
    _ ← match biggest_change st with
        | Some (_, _, _, None) => Raise TypeError
        | _ => Ok ()
        end;
    _ ← format_changes (default [] (top_gains st));
    format_changes (default [] (top_losses st))
  else Ok ().

(** The final announcement, built before it is sent. *)
Definition final_message (db : DB) (challenge_id : Z) (description : value)
  : result message :=
  let challenge_type :=
    match challenges db !! challenge_id with
    | Some c => challenge_type c
    | None => VText "points"
    end in
  if bool_decide (challenge_type = VText "change") then
    let top_3 := map name_and_change (change_ranking db challenge_id 3) in
    let total_participants := length (challenge_baselines db challenge_id) in
    match top_3 with
    | [] => Ok (ChallengeComplete description)
    | _ =>
        let st := get_challenge_stats db challenge_id in
        winners ← change_winners top_3;
        _ ← change_stats_block st;
        Ok (FinalResults description winners st total_participants)
    end
  else
    let top_3 := map (fun r => (fst r, Points (snd r)))
                   (points_ranking db challenge_id 3) in
    let total_participants := count_scorers db challenge_id in
    match top_3 with
    | [] => Ok (ChallengeComplete description)
    | _ =>
        Ok (FinalResults description top_3 (get_challenge_stats db challenge_id)
              total_participants)
    end.

(** One tick at local time [now], the database clock reading [ts].  The result
    is the database as committed, the announcements sent, and whether the
    tick returned or raised. *)
Definition check_and_send_notifications (now : datetime) (ts : string) (db : DB)
  : DB * list outbound * result unit :=
  match get_current_challenge db with
  | None => (db, [], Ok ())
  | Some challenge =>
      match (challenge_id ← row_id challenge;
             resolved ← get_challenge_status now (Some challenge);
             persisted ← py_index challenge 5;
             Ok (challenge_id, fst resolved, persisted)) with
      | Raise e => (db, [], Raise e)
      | Ok (challenge_id, actual_status, persisted) =>
          let db :=
            if bool_decide (persisted = status_cell actual_status) then db
            else update_challenge_status challenge_id (status_cell actual_status) db in
          if bool_decide (actual_status = Some "active")
             && negb (has_notification_been_sent challenge_id "start" db)
          then
            match (s ← py_index challenge 5;
                   start_date ← of_option ValueError (strptime (py_str s));
                   e ← py_index challenge 6;
                   end_date ← of_option ValueError (strptime (py_str e));
                   description ← py_index challenge 1;
                   scoring ← py_index challenge 2;
                   Ok (ChallengeStarted description scoring start_date end_date)) with
            | Raise e => (db, [], Raise e)
            | Ok m =>
                (mark_notification_sent ts challenge_id "start" db,
                 [Outbound challenge_id "start" m], Ok ())
            end
          else if bool_decide (actual_status = Some "grace_period")
                  && negb (has_notification_been_sent challenge_id "ending" db)
          then
            match py_index challenge 1 with
            | Raise e => (db, [], Raise e)
            | Ok description =>
                (mark_notification_sent ts challenge_id "ending" db,
                 [Outbound challenge_id "ending" (ChallengeEndingSoon description)],
                 Ok ())
            end
          else if bool_decide (actual_status = Some "ended")
                  && negb (has_notification_been_sent challenge_id "final_results" db)
          then
            match (description ← py_index challenge 1;
                   final_message db challenge_id description) with
            | Raise e => (db, [], Raise e)
            | Ok m =>
                (update_challenge_status challenge_id (VText "completed")
                   (mark_notification_sent ts challenge_id "final_results" db),
                 [Outbound challenge_id "final_results" m], Ok ())
            end
          else (db, [], Ok ())
      end
  end.

(** ** The conversation handlers that write

    A handler takes what the session ([context.user_data]) holds as explicit
    arguments; [response] is the message text after [strip().lower()], and a
    numeric input is given by the outcome of [int(...)] or [float(...)]
    ([None] when it raises [ValueError]).  The reply determines the next
    conversation state. *)

Inductive reply :=
| NoActiveChallenge
| CannotAddScores (status_message : option string)
| PointsAdded
| Removed (removed_count : nat)
| PointsUpdated
| ChallengeCreated
| ChallengeUpdated
| DateConversionError
| BaselineSet (v : pyfloat)
| ValueUpdated (percent : pyfloat)
| Cancelled
| PleaseConfirm
| OnlyForChangeChallenges
| NeedBaselineFirst
| Prompt
| Reprompt (text : string)
| SessionExpired.

(** *** Scores *)

Inductive points_step :=
| PointsRejected (text : string)
| PointsSessionExpired
| PointsAccepted (points points_per_day : Z).

Definition add_score_points (input : option Z) (dates : list Z) : points_step :=
  match input with
  | None => PointsRejected "Please enter a valid number \(integers only\):"
  | Some points =>
      if points <=? 0 then
        PointsRejected "Points must be positive\. Please enter a valid number:"
      else if 1000000 <? points then
        PointsRejected "Maximum 1,000,000 total points allowed\. Please enter a lower amount:"
      else
        match dates with
        | [] => PointsSessionExpired
        | _ =>
            let points_per_day := points / Z.of_nat (length dates) in
            if 100000 <? points_per_day then
              PointsRejected "Maximum 100,000 points per day\. Please enter a lower amount:"
            else PointsAccepted points points_per_day
        end
  end.

Definition edit_score_new_points (input : option Z) (dates : list Z) : points_step :=
  match input with
  | None => PointsRejected "Please enter a valid number \(integers only\):"
  | Some new_points =>
      if new_points <? 0 then
        PointsRejected "Points cannot be negative\. Please enter a valid number:"
      else if 1000000 <? new_points then
        PointsRejected "Maximum 1,000,000 total points allowed\. Please enter a lower amount:"
      else
        match dates with
        | [] => PointsSessionExpired
        | _ =>
            let points_per_day := new_points / Z.of_nat (length dates) in
            if 100000 <? points_per_day then
              PointsRejected "Maximum 100,000 points per day\. Please enter a lower amount:"
            else PointsAccepted new_points points_per_day
        end
  end.

(** [datetime(current_year, current_month, day).date()] for each day, in
    order; [None] when one of them raises [ValueError]. *)
Definition dates_of_days (now : datetime) (days : list Z) : option (list date) :=
  mapM (make_date (year (dt_date now)) (month (dt_date now))) days.

Definition insert_scores (user_id : Z) (ds : list date) (points_per_day : Z)
    (challenge_id : Z) (l : list Score.t) : list Score.t :=
  l ++ map (fun d => Score.Row user_id d points_per_day challenge_id) ds.

Definition same_date (a b : date) : bool :=
  (year a =? year b) && (month a =? month b) && (day a =? day b).

(** [DELETE FROM scores WHERE user_id = ? AND date = ? AND challenge_id = ?]
    for each of the dates. *)
Definition matches (user_id : Z) (ds : list date) (challenge_id : Z)
    (s : Score.t) : bool :=
  (Score.user_id s =? user_id) && (Score.challenge_id s =? challenge_id)
  && existsb (same_date (Score.date s)) ds.

Definition delete_scores (user_id : Z) (ds : list date) (challenge_id : Z)
    (l : list Score.t) : list Score.t :=
  List.filter (fun s => negb (matches user_id ds challenge_id s)) l.

Definition status_allows_entry (actual_status : option string) : bool :=
  bool_decide (actual_status ∈ [Some "active"; Some "grace_period"]).

(** An exception inside the [try] block is not an [sqlite3.Error]: it
    propagates, and the connection is closed without a commit, so none of the
    statements of the handler takes effect. *)
Definition add_score_confirm (now : datetime) (response : string) (user_id : Z)
    (dates : list Z) (points_per_day : Z) (db : DB) : DB * result reply :=
  if String.eqb response "y" then
    match get_current_challenge db with
    | None => (db, Ok NoActiveChallenge)
    | Some current_challenge =>
        match get_challenge_status now (Some current_challenge) with
        | Raise e => (db, Raise e)
        | Ok (actual_status, status_message) =>
            if negb (status_allows_entry actual_status) then
              (db, Ok (CannotAddScores status_message))
            else
              match row_id current_challenge with
              | Raise e => (db, Raise e)
              | Ok challenge_id =>
                  match dates_of_days now dates with
                  | None => (db, Raise ValueError)
                  | Some ds =>
                      (with_scores
                         (insert_scores user_id ds points_per_day challenge_id
                            (scores db)) db,
                       Ok PointsAdded)
                  end
              end
        end
    end
  else if String.eqb response "n" then (db, Ok Cancelled)
  else (db, Ok PleaseConfirm).

Definition remove_score_confirm (now : datetime) (response : string)
    (user_id : Z) (dates : list Z) (db : DB) : DB * result reply :=
  if String.eqb response "y" then
    match get_current_challenge db with
    | None => (db, Ok NoActiveChallenge)
    | Some current_challenge =>
        match row_id current_challenge with
        | Raise e => (db, Raise e)
        | Ok challenge_id =>
            match dates_of_days now dates with
            | None => (db, Raise ValueError)
            | Some ds =>
                let kept := delete_scores user_id ds challenge_id (scores db) in
                (with_scores kept db,
                 Ok (Removed (length (scores db) - length kept)))
            end
        end
    end
  else if String.eqb response "n" then (db, Ok Cancelled)
  else (db, Ok PleaseConfirm).

Definition edit_score_confirm (now : datetime) (response : string) (user_id : Z)
    (dates : list Z) (points_per_day : Z) (db : DB) : DB * result reply :=
  if String.eqb response "y" then
    match get_current_challenge db with
    | None => (db, Ok NoActiveChallenge)
    | Some current_challenge =>
        match row_id current_challenge with
        | Raise e => (db, Raise e)
        | Ok challenge_id =>
            match dates_of_days now dates with
            | None => (db, Raise ValueError)
            | Some ds =>
                let kept := delete_scores user_id ds challenge_id (scores db) in
                (with_scores
                   (if 0 <? points_per_day
                    then insert_scores user_id ds points_per_day challenge_id kept
                    else kept) db,
                 Ok PointsUpdated)
            end
        end
    end
  else if String.eqb response "n" then (db, Ok Cancelled)
  else (db, Ok PleaseConfirm).

(** *** Challenges *)

Definition start_challenge_type (choice : string) : option (string * string) :=
  if String.eqb choice "1" then
    Some ("points", "Points-based challenge where users earn points for activities")
  else if String.eqb choice "2" then
    Some ("change", "Change-based challenge tracking percentage improvements")
  else None.

(** [UPDATE challenges SET status = "completed" WHERE status IN ("active",
    "upcoming", "grace_period")] *)
Definition complete_current (c : challenge) : challenge :=
  if is_current c then set_status (VText "completed") c else c.

Definition max_id (m : gmap Z challenge) : Z :=
  map_fold (fun k _ acc => Z.max k acc) 0 m.

(** The id an [AUTOINCREMENT] key gives to the next row. *)
Definition next_id (db : DB) : Z :=
  Z.max (challenge_seq db) (max_id (challenges db)) + 1.

Definition insert_challenge (c : challenge) (db : DB) : DB :=
  let id := next_id db in
  Db (corder db) (<[id := c]> (challenges db)) id (scores db)
    (challenge_notifications db) (baseline_values db) (users db).

Definition start_challenge_confirm (ts : string) (response : string) (user_id : Z)
    (challenge_desc challenge_scoring challenge_type type_description : string)
    (start_date end_date : date) (db : DB) : DB * result reply :=
  if String.eqb response "y" then
    let db := with_challenges (complete_current <$> challenges db) db in
    (insert_challenge
       (Challenge (VText challenge_desc) (VText challenge_scoring)
          (VText challenge_type) (VText type_description)
          (VText (isoformat start_date)) (VText (isoformat end_date))
          (VText "upcoming") (VInt user_id) (VText ts)) db,
     Ok ChallengeCreated)
  else if String.eqb response "n" then (db, Ok Cancelled)
  else (db, Ok PleaseConfirm).

(** [UPDATE challenges SET {column} = ? ...] for the column that
    [field_columns] gives to the field number. *)
Definition set_column (field_num : Z) (v : value) (c : challenge)
  : option challenge :=
  if field_num =? 1 then
    Some (Challenge v (scoring_system c) (challenge_type c) (type_description c)
            (start_date c) (end_date c) (status c) (created_by c) (created_at c))
  else if field_num =? 2 then
    Some (Challenge (description c) v (challenge_type c) (type_description c)
            (start_date c) (end_date c) (status c) (created_by c) (created_at c))
  else if field_num =? 3 then
    Some (Challenge (description c) (scoring_system c) (challenge_type c)
            (type_description c) v (end_date c) (status c) (created_by c)
            (created_at c))
  else if field_num =? 4 then
    Some (Challenge (description c) (scoring_system c) (challenge_type c)
            (type_description c) (start_date c) v (status c) (created_by c)
            (created_at c))
  else if field_num =? 5 then Some (set_status v c)
  else None.

Definition is_field (field_num : Z) : bool :=
  (1 <=? field_num) && (field_num <=? 5).

Definition update_column (field_num : Z) (v : value) (challenge_id : option Z)
    (db : DB) : DB :=
  match challenge_id with
  | Some id =>
      with_challenges
        (alter (fun c => default c (set_column field_num v c)) id (challenges db))
        db
  | None => db
  end.

Definition edit_challenge_confirm (response : string) (challenge_id : option Z)
    (field_num : Z) (new_value : string) (db : DB) : DB * result reply :=
  if String.eqb response "y" then
    if negb (is_field field_num) then (db, Raise KeyError)
    else if (field_num =? 3) || (field_num =? 4) then
      match strptime_dmY new_value with
      | None => (db, Ok DateConversionError)
      | Some date_obj =>
          (update_column field_num (VText (strftime_Ymd date_obj)) challenge_id db,
           Ok ChallengeUpdated)
      end
    else (update_column field_num (VText new_value) challenge_id db,
          Ok ChallengeUpdated)
  else if String.eqb response "n" then (db, Ok Cancelled)
  else (db, Ok PleaseConfirm).

(** *** Baselines of change challenges *)

(** [setbaseline_start]: the reply and, when the conversation goes on, the
    challenge id kept in the session. *)
Definition setbaseline_start (db : DB) : result (reply * option Z) :=
  match get_current_challenge db with
  | None => Ok (NoActiveChallenge, None)
  | Some current_challenge =>
      if (3 <? length current_challenge)%nat
         && negb (bool_decide (current_challenge !! 3%nat = Some (VText "change")))
      then Ok (OnlyForChangeChallenges, None)
      else
        challenge_id ← row_id current_challenge;
        _ ← py_index current_challenge 1;
        _ ← py_index current_challenge 2;
        Ok (Prompt, Some challenge_id)
  end.

Definition falsy_id (challenge_id : option Z) : bool :=
  match challenge_id with
  | None => true
  | Some id => id =? 0
  end.

(** [abs(value) > 1000000]: true of the infinities, false of NaN. *)
Definition too_large (v : pyfloat) : bool :=
  match v with
  | Finite q => Qltb 1000000 (Qabs q)
  | NaN => false
  | Infinity _ => true
  end.

(** [input] is the outcome of [float(value_str)].
    [INSERT OR REPLACE INTO baseline_values (user_id, challenge_id,
    baseline_value, current_value) VALUES (?, ?, value, value)];
    [last_updated] takes its default, [ts]. *)
Definition setbaseline_value (ts : string) (input : option pyfloat) (user_id : Z)
    (baseline_challenge_id : option Z) (db : DB) : DB * result reply :=
  match input with
  | None => (db, Ok (Reprompt "Please enter a valid number \(e\.g\., '75\.5', '8500'\):"))
  | Some v =>
      if too_large v then
        (db, Ok (Reprompt "Value seems too large\. Please enter a reasonable number:"))
      else if falsy_id baseline_challenge_id then (db, Ok SessionExpired)
      else
        match baseline_challenge_id with
        | None => (db, Ok SessionExpired)
        | Some challenge_id =>
            (with_baselines
               (<[(user_id, challenge_id) :=
                    Baseline (sqlite_real v) (sqlite_real v) ts]>
                  (baseline_values db))
               db,
             Ok (BaselineSet v))
        end
  end.

(** [updatevalue_start]: the reply and, when the conversation goes on, the
    challenge id and the baseline kept in the session ([None] for a NULL
    baseline). *)
Definition updatevalue_start (user_id : Z) (db : DB)
  : result (reply * option (Z * option Q)) :=
  match get_current_challenge db with
  | None => Ok (NoActiveChallenge, None)
  | Some current_challenge =>
      if (3 <? length current_challenge)%nat
         && negb (bool_decide (current_challenge !! 3%nat = Some (VText "change")))
      then Ok (OnlyForChangeChallenges, None)
      else
        challenge_id ← row_id current_challenge;
        match baseline_values db !! (user_id, challenge_id) with
        | None => Ok (NeedBaselineFirst, None)
        | Some b => Ok (Prompt, Some (challenge_id, baseline_value b))
        end
  end.

Definition set_current (v : option Q) (ts : string) (b : baseline) : baseline :=
  Baseline (baseline_value b) v ts.

(** [((new_value - baseline_value) / abs(baseline_value)) * 100] on floats,
    for a finite nonzero baseline. *)
Definition float_percent (new_value : pyfloat) (baseline_value : Q) : pyfloat :=
  match new_value with
  | Finite v => Finite (((v - baseline_value) / Qabs baseline_value) * 100)%Q
  | NaN => NaN
  | Infinity negative => Infinity negative
  end.

(** [input] is the outcome of [float(value_str)]; [session_baseline] is what
    the session holds under ['baseline_value'], [None] when it holds nothing
    or [None]. *)
Definition updatevalue_value (ts : string) (input : option pyfloat) (user_id : Z)
    (update_challenge_id : option Z) (session_baseline : option Q) (db : DB)
  : DB * result reply :=
  match input with
  | None => (db, Ok (Reprompt "Please enter a valid number:"))
  | Some new_value =>
      if too_large new_value then
        (db, Ok (Reprompt "Value seems too large\. Please enter a reasonable number:"))
      else
        match update_challenge_id, session_baseline with
        | Some challenge_id, Some baseline_value =>
            if challenge_id =? 0 then (db, Ok SessionExpired)
            else
              let percent_change :=
                if Qeq_bool baseline_value 0 then Finite 0
                else float_percent new_value baseline_value in
              (with_baselines
                 (alter (set_current (sqlite_real new_value) ts)
                    (user_id, challenge_id) (baseline_values db)) db,
               Ok (ValueUpdated percent_change))
        | _, _ => (db, Ok SessionExpired)
        end
  end.

(** ** Vocabulary of the statements *)

(** The status a fetched row resolves to; [None] when the resolver raises. *)
Definition resolved_status (now : datetime) (row : list value) : option string :=
  match get_challenge_status now (Some row) with
  | Ok (actual_status, _) => actual_status
  | Raise _ => None
  end.

(** The four phases as the specification lists them, for a resolver [f] of one
    challenge with the given dates. *)
Definition four_phases (f : datetime -> option string) (sd ed : date) : Prop :=
  forall now,
    (instant now < start_instant sd -> f now = Some "upcoming")
    /\ (start_instant sd <= instant now <= end_instant ed -> f now = Some "active")
    /\ (end_instant ed + us_per_second <= instant now <= grace_instant ed ->
        f now = Some "grace_period")
    /\ (grace_instant ed < instant now -> f now = Some "ended").

(** The variant tags the code writes into [challenge_type]. *)
Definition is_variant_tag (v : value) : Prop :=
  v = VText "points" \/ v = VText "change".

(** At most one challenge has a persisted status among "active", "upcoming"
    and "grace_period". *)
Definition unique_current (m : gmap Z challenge) : Prop :=
  forall i j ci cj,
    m !! i = Some ci -> m !! j = Some cj ->
    is_current ci = true -> is_current cj = true -> i = j.

(** One of the three biggest changes of a change challenge is NULL, that is,
    the current value of one of these participants is NULL. *)
Definition null_winner (db : DB) (cid : Z) (c : challenge) : bool :=
  bool_decide (challenge_type c = VText "change")
  && negb (forallb (fun jr => negb (is_null (pct jr))) (change_ranking db cid 3)).

(** The number of announcements about a challenge and an event kind. *)
Definition sent_for (cid : Z) (kind : string) (out : list outbound) : nat :=
  length (List.filter
            (fun m => (about m =? cid) && String.eqb (event_kind m) kind) out).

(** The database a tick leaves, and what it announced and returned. *)
Definition run (now : datetime) (ts : string) (db : DB) : DB :=
  fst (fst (check_and_send_notifications now ts db)).

Definition announced (now : datetime) (ts : string) (db : DB)
  : list outbound * result unit :=
  let t := check_and_send_notifications now ts db in (snd (fst t), snd t).

(** A run of the scheduler: one tick per element, each with its local time and
    database clock; the announcements of all the ticks, in order. *)
Fixpoint run_ticks (ticks : list (datetime * string)) (db : DB)
  : DB * list outbound :=
  match ticks with
  | [] => (db, [])
  | (now, ts) :: rest =>
      let '(db1, out1, _) := check_and_send_notifications now ts db in
      let '(db2, out2) := run_ticks rest db1 in
      (db2, out1 ++ out2)
  end.

(** The statistic in the words of the specification: the participants of a
    challenge are the users with a measurement in it, the total of a
    participant is the sum of their points, the active players are the
    participants with a positive total, and the average is the mean of the
    totals of the active players. *)
Definition participants (db : DB) (cid : Z) : list Z :=
  remove_dups (map Score.user_id (challenge_scores db cid)).

Definition participant_total (db : DB) (cid : Z) (u : Z) : Z :=
  sum_points (List.filter (fun s => Score.user_id s =? u) (challenge_scores db cid)).

Definition active_players (db : DB) (cid : Z) : list Z :=
  List.filter (fun u => 0 <? participant_total db cid u) (participants db cid).

Definition mean_total (db : DB) (cid : Z) (players : list Z) : Q :=
  (Qsum (map (fun u => inject_Z (participant_total db cid u)) players)
   / inject_Z (Z.of_nat (length players)))%Q.

(** C10 as stated: the statistic is that mean. *)
Definition statistic_is_mean (db : DB) (cid : Z) : Prop :=
  match avg_points_per_player_of db cid, active_players db cid with
  | None, [] => True
  | Some a, (_ :: _) as players => (inject_Z a == mean_total db cid players)%Q
  | _, _ => False
  end.

(** C7 as stated: a total [T] that passes the bounds checks for the dates is
    written as [T / N] points on each of the [N] dates, after the rows that
    were there. *)
Definition distributes (now : datetime) (db : DB) (user_id : Z) (dates : list Z)
    (T : Z) : Prop :=
  forall ppd,
    add_score_points (Some T) dates = PointsAccepted T ppd ->
    exists cid,
      scores (fst (add_score_confirm now "y" user_id dates ppd db))
      = scores db
        ++ map (fun d => Score.Row user_id
                           (Date (year (dt_date now)) (month (dt_date now)) d)
                           (T / Z.of_nat (length dates)) cid) dates.




(** The baseline of a row equals 0, as the comparison of the [WHERE] clauses
    reads it. *)
Definition zero_baseline (r : baseline_row) : Prop :=
  exists b, baseline_value (snd r) = Some b /\ (b == 0)%Q.




(** ** Sample data *)

(** A fetched row in the migrated column order. *)
Definition sample_row (start_date end_date status : string) : list value :=
  [VInt 1; VText "Daily steps"; VText "1 point per 1000 steps";
   VText start_date; VText end_date; VText status; VInt 7;
   VText "2024-12-30 10:00:00"; VText "points"; VNull].

(** A points challenge as [start_challenge_confirm] stores it. *)
Definition sample_challenge (start_date end_date status : string) : challenge :=
  Challenge (VText "Daily steps") (VText "1 point per 1000 steps")
    (VText "points")
    (VText "Points-based challenge where users earn points for activities")
    (VText start_date) (VText end_date) (VText status) (VInt 7)
    (VText "2024-12-30 10:00:00").

Definition empty_db (o : column_order) : DB := Db o ∅ 0 [] ∅ ∅ ∅.

(** The end-to-end scenario: a challenge from 1 to 5 January, 100 points on
    the 3rd, the start already announced. *)
Definition scenario_db : DB :=
  Db Migrated
    {[ 1 := sample_challenge "2025-01-01" "2025-01-05" "active" ]} 1
    [Score.Row 42 (Date 2025 1 3) 100 1]
    {[ (1, "start"%string) := "2025-01-01 06:00:00"%string ]}
    ∅
    {[ 42 := User (VText "alice_tg") (VText "alice") ]}.

(** A completed challenge and an active one. *)
Definition two_challenges : DB :=
  Db Migrated
    (<[1 := sample_challenge "2025-01-01" "2025-01-05" "completed"]>
       {[ 2 := sample_challenge "2025-02-01" "2025-02-28" "active" ]})
    2 [] ∅ ∅ ∅.

(** One active challenge with the given measurements. *)
Definition scores_db (l : list Score.t) : DB :=
  with_scores l
    (with_challenges {[ 1 := sample_challenge "2025-01-01" "2025-01-31" "active" ]}
       (empty_db Migrated)).

(** A change challenge in a freshly created database: one participant went
    from 80 to 76, another has a baseline of 0. *)
Definition change_db : DB :=
  Db Declared
    {[ 1 := Challenge (VText "Weight") (VText "Weight in kg") (VText "change")
              (VText "Change-based challenge tracking percentage improvements")
              (VText "2025-01-01") (VText "2025-01-31") (VText "active")
              (VInt 7) (VText "2024-12-30 10:00:00") ]}
    1 []
    ∅
    (<[(42, 1) := Baseline (Some (80 # 1)) (Some (76 # 1)) "2025-01-10 08:00:00"]>
       {[ (43, 1) := Baseline (Some 0%Q) (Some (5 # 1)) "2025-01-10 09:00:00" ]})
    (<[42 := User (VText "alice_tg") (VText "alice")]>
       {[ 43 := User (VText "bob_tg") (VText "bob") ]}).

(** A change challenge whose grace period is over, in the migrated column
    order: one participant went from 80 to 76, the current value of the other
    is NULL. *)
Definition null_current_db : DB :=
  Db Migrated
    {[ 1 := Challenge (VText "Weight") (VText "Weight in kg") (VText "change")
              (VText "Change-based challenge tracking percentage improvements")
              (VText "2025-01-01") (VText "2025-01-31") (VText "grace_period")
              (VInt 7) (VText "2024-12-30 10:00:00") ]}
    1 []
    {[ (1, "ending"%string) := "2025-02-01 06:00:00"%string ]}
    (<[(42, 1) := Baseline (Some (80 # 1)) (Some (76 # 1)) "2025-01-10 08:00:00"]>
       {[ (43, 1) := Baseline (Some (90 # 1)) None "2025-01-12 09:00:00" ]})
    (<[42 := User (VText "alice_tg") (VText "alice")]>
       {[ 43 := User (VText "bob_tg") (VText "bob") ]}).

(** An active challenge that covers April 2025. *)
Definition april_db : DB :=
  with_challenges {[ 1 := sample_challenge "2025-04-01" "2025-04-30" "active" ]}
    (empty_db Migrated).

(** A challenge created for 10 to 20 January and not yet started, with one
    measurement already stored for its creator. *)
Definition upcoming_db : DB :=
  Db Migrated
    {[ 1 := sample_challenge "2025-01-10" "2025-01-20" "upcoming" ]} 1
    [Score.Row 42 (Date 2025 1 3) 100 1]
    ∅ ∅
    {[ 42 := User (VText "alice_tg") (VText "alice") ]}.

(** ** Text inputs: [str.strip], [int], [in] and [str.split]

    A message text is a string of ASCII characters, one [ascii] each, as the
    prompts of the conversations ask for.  On other characters Python's
    [strip], [int] and [lower] also know the spaces, digits and letters of
    Unicode, and [len] counts characters where [String.length] counts bytes;
    these are outside this model.  A message text of Telegram has at most
    4096 characters, below the length at which [int] refuses a decimal
    string. *)

(** [str.isspace] on the ASCII range: tab to carriage return, the four
    separators 28 to 31, and the space. *)
Definition is_space (c : ascii) : bool :=
  let n := Z.of_N (N_of_ascii c) in
  ((9 <=? n) && (n <=? 13)) || ((28 <=? n) && (n <=? 32)).

Fixpoint lstrip (s : string) : string :=
  match s with
  | String c s' => if is_space c then lstrip s' else s
  | EmptyString => EmptyString
  end.

Fixpoint rstrip (s : string) : string :=
  match s with
  | String c s' =>
      match rstrip s' with
      | EmptyString => if is_space c then EmptyString else String c EmptyString
      | r => String c r
      end
  | EmptyString => EmptyString
  end.

(** [s.strip()] *)
Definition py_strip (s : string) : string := rstrip (lstrip s).

(** The digits of a decimal literal: single underscores are allowed between
    digits only.  [after_digit] tells whether the previous character was a
    digit. *)
Fixpoint decimal (acc : Z) (after_digit : bool) (s : string) : option Z :=
  match s with
  | EmptyString => if after_digit then Some acc else None
  | String c s' =>
      if is_digit c then decimal (acc * 10 + digit c) true s'
      else if Ascii.eqb c "_" && after_digit then decimal acc false s'
      else None
  end.

(** [int(s)]: surrounding whitespace, an optional sign, a decimal literal;
    [None] stands for [ValueError]. *)
Definition py_int (s : string) : option Z :=
  match py_strip s with
  | String "+" r => decimal 0 false r
  | String "-" r => Z.opp <$> decimal 0 false r
  | r => decimal 0 false r
  end.

(** [sep in s] *)
Fixpoint py_in (sep s : string) : bool :=
  String.prefix sep s
  || match s with
     | String _ s' => py_in sep s'
     | EmptyString => false
     end.

(** [s.split(sep)] for a non-empty separator: the occurrences of [sep] are
    found from the left and do not overlap; [skip] counts the characters of
    an occurrence still to be passed over. *)
Fixpoint split_from (sep : string) (skip : nat) (s : string) : list string :=
  match s with
  | EmptyString => [EmptyString]
  | String c s' =>
      match skip with
      | S k => split_from sep k s'
      | O =>
          if String.prefix sep s
          then EmptyString :: split_from sep (String.length sep - 1) s'
          else match split_from sep 0 s' with
               | piece :: pieces => String c piece :: pieces
               | [] => [String c EmptyString]
               end
      end
  end.

Definition py_split (sep s : string) : list string := split_from sep 0 s.

(** [list(range(start, stop))] *)
Definition py_range (start stop : Z) : list Z := seqZ start (stop - start).

(** [CompetitionBot.parse_date_input]: a day or a range of days of the
    month.  Unpacking anything but two pieces raises [ValueError], as [int]
    does on a piece that is no integer; both are caught and give [None]. *)
Definition parse_date_input (date_str : string) : option (list Z) :=
  if py_in "-" date_str then
    match py_split "-" date_str with
    | [first; second] =>
        start ← py_int first;
        stop ← py_int second;
        if (start <? 1) || (31 <? stop) || (stop <? start) then None
        else Some (py_range start (stop + 1))
    | _ => None
    end
  else
    day ← py_int date_str;
    if (day <? 1) || (31 <? day) then None else Some [day].


(** ** [escape_markdown_v2] *)

Definition escape_chars : list ascii :=
  ["_"; "*"; "["; "]"; "("; ")"; "~"; "`"; ">"; "#"; "+"; "-"; "="; "|"; "{";
   "}"; "."; "!"]%char.

(** [text.replace(char, '\\' + char)] for a one-character [char]. *)
Fixpoint replace_char (char : ascii) (text : string) : string :=
  match text with
  | EmptyString => EmptyString
  | String a rest =>
      if Ascii.eqb a char
      then String "\" (String char (replace_char char rest))
      else String a (replace_char char rest)
  end.

(** The argument is a Python string or [None]; a falsy one is returned as it
    is. *)
Definition escape_markdown_v2 (text : option string) : option string :=
  match text with
  | None | Some EmptyString => text
  | Some text =>
      Some (foldl (fun text char => replace_char char text) text escape_chars)
  end.

(** ** [CompetitionBot.get_week_dates]

    Dates are given by their ordinals: [date - timedelta(days=n)] is the date
    whose ordinal is smaller by [n]. *)

(** [date.weekday()]: Monday is 0. *)
Definition weekday (ordinal : Z) : Z := (ordinal + 6) mod 7.

Definition get_week_dates (today : date) (offset : Z) : Z * Z :=
  let days_since_monday := weekday (toordinal today) in
  let monday := toordinal today - (days_since_monday + 7 * offset) in
  let sunday := monday + 6 in
  (monday, sunday).

(** ** The period of a new challenge: [start_challenge_period] *)

(** The order of [date] objects: by year, then month, then day. *)
Definition date_ltb (a b : date) : bool :=
  (year a <? year b)
  || ((year a =? year b)
      && ((month a <? month b)
          || ((month a =? month b) && (day a <? day b)))).

(** The three re-prompts differ in their text only.  [PeriodOverflow] is the
    [OverflowError] of [today + timedelta(days=365)], which the handler does
    not catch. *)
Inductive period_step :=
| PeriodAccepted (start_date end_date : date)
| PeriodRejected
| PeriodOverflow.

(** [start_date > today + timedelta(days=365)] is decided on the ordinals,
    which order dates as [date_ltb] does. *)
Definition start_challenge_period (today : date) (text : string) : period_step :=
  let period := py_strip text in
  if py_in " to " period then
    match py_split " to " period with
    | [start_str; end_str] =>
        match strptime_dmY (py_strip start_str),
              strptime_dmY (py_strip end_str) with
        | Some start_date, Some end_date =>
            if negb (date_ltb start_date end_date) then PeriodRejected
            else if max_ordinal <? toordinal today + 365 then PeriodOverflow
            else if toordinal today + 365 <? toordinal start_date
            then PeriodRejected
            else PeriodAccepted start_date end_date
        | _, _ => PeriodRejected
        end
    | _ => PeriodRejected
    end
  else PeriodRejected.


(** ** Reading the score conversations' dates *)

(** [add_score_date] and [remove_score_date]: the days kept in the session,
    [None] when the handler asks again. *)
Definition add_score_date (text : string) : option (list Z) :=
  match parse_date_input (py_strip text) with
  | None | Some [] => None
  | Some dates => Some dates
  end.

(** [SELECT SUM(points) FROM scores WHERE user_id = ? AND date = ? AND
    challenge_id = ?], a missing sum counting as 0. *)
Definition day_points (user_id : Z) (d : date) (challenge_id : Z)
    (l : list Score.t) : Z :=
  sum_points
    (List.filter
       (fun s => (Score.user_id s =? user_id) && same_date (Score.date s) d
                 && (Score.challenge_id s =? challenge_id)) l).

Definition total_current_points (user_id : Z) (ds : list date)
    (challenge_id : Z) (l : list Score.t) : Z :=
  foldl (fun total d => total + day_points user_id d challenge_id l) 0 ds.

Inductive edit_date_step :=
| EditDateAgain
| EditDateNoChallenge
| EditDatePoints (dates : list Z) (total : Z).

(** [edit_score_date]: the days kept in the session and the points the reply
    shows for them. *)
Definition edit_score_date (now : datetime) (text : string) (user_id : Z)
    (db : DB) : result edit_date_step :=
  match add_score_date text with
  | None => Ok EditDateAgain
  | Some dates =>
      match get_current_challenge db with
      | None => Ok EditDateNoChallenge
      | Some current_challenge =>
          challenge_id ← row_id current_challenge;
          ds ← of_option ValueError (dates_of_days now dates);
          Ok (EditDatePoints dates
                (total_current_points user_id ds challenge_id (scores db)))
      end
  end.

(** ** Users and admins *)

Definition with_users (u : gmap Z user) (db : DB) : DB :=
  Db (corder db) (challenges db) (challenge_seq db) (scores db)
    (challenge_notifications db) (baseline_values db) u.

(** A row of the [admins] table; the key is [user_id]. *)
Record admin := Admin { added_by : Z; added_date : string }.

(** [INSERT OR IGNORE] on a primary key. *)
Definition insert_or_ignore `{Countable K} {A} (k : K) (v : A) (m : gmap K A)
  : gmap K A :=
  match m !! k with
  | Some _ => m
  | None => <[k := v]> m
  end.

(** The first user, in the order of the scan, whose column [col] holds the
    text [name]: [SELECT telegram_id FROM users WHERE col = ?] with
    [fetchone], or as a scalar subquery. *)
Definition find_user (col : user -> value) (name : string) (db : DB) : option Z :=
  fst <$> List.find (fun r => bool_decide (col (snd r) = VText name))
            (map_to_list (users db)).

Definition is_admin (user_id : Z) (db : DB) (admins : gmap Z admin) : bool :=
  match users db !! user_id with
  | Some u =>
      if bool_decide (username u = VText "lucaspuu") then true
      else bool_decide (is_Some (admins !! user_id))
  | None => bool_decide (is_Some (admins !! user_id))
  end.

Definition ensure_fixed_admin (ts : string) (user_id : Z) (name : string)
    (db : DB) (admins : gmap Z admin) : DB * gmap Z admin :=
  if String.eqb name "lucaspuu" then
    (with_users (insert_or_ignore user_id (User (VText name) VNull) (users db)) db,
     insert_or_ignore user_id (Admin user_id ts) admins)
  else (db, admins).

(** What [start] does to the tables; [name] is the Telegram user name, if
    any. *)
Definition start (ts : string) (user_id : Z) (name : option string)
    (db : DB) (admins : gmap Z admin) : DB * gmap Z admin :=
  match name with
  | None | Some EmptyString => (db, admins)
  | Some name => ensure_fixed_admin ts user_id name db admins
  end.

Inductive admin_reply :=
| UserNotFound
| NowAdmin
| AlreadyAdmin
| NoLongerAdmin
| NotFoundAsAdmin
| AdminCancelled
| AdminPleaseConfirm.


Definition remove_admin_confirm (response : string)
    (remove_admin_username : string) (db : DB) (admins : gmap Z admin)
  : gmap Z admin * admin_reply :=
  if String.eqb response "y" then
    match find_user username remove_admin_username db with
    | None => (admins, NotFoundAsAdmin)
    | Some user_id =>
        match admins !! user_id with
        | None => (admins, NotFoundAsAdmin)
        | Some _ => (delete user_id admins, NoLongerAdmin)
        end
    end
  else if String.eqb response "n" then (admins, AdminCancelled)
  else (admins, AdminPleaseConfirm).

(** *** Registration *)

Definition username_char (c : ascii) : bool :=
  let n := Z.of_N (N_of_ascii c) in
  ((97 <=? n) && (n <=? 122)) || ((65 <=? n) && (n <=? 90)) || is_digit c
  || Ascii.eqb c "_" || Ascii.eqb c "." || Ascii.eqb c "-".

(** [re.match(r'^[a-zA-Z0-9_.-]+$', username)]; [$] also matches before a
    newline that ends the string. *)
Fixpoint username_re (s : string) : bool :=
  match s with
  | EmptyString => false
  | String c rest =>
      username_char c
      && (String.eqb rest EmptyString
          || String.eqb rest (String "010" EmptyString)
          || username_re rest)
  end.

Inductive register_reply :=
| RegisterSendText
| RegisterBadLength
| RegisterBadCharacters
| RegisterTaken
| Registered.

(** [name] is the Telegram user name of the sender, [NULL] when there is
    none. *)
Definition register_username (text : string) (user_id : Z) (name : value)
    (db : DB) : DB * register_reply :=
  match text with
  | EmptyString => (db, RegisterSendText)
  | _ =>
      let registered := py_strip text in
      if (String.length registered <? 3)%nat || (20 <? String.length registered)%nat
      then (db, RegisterBadLength)
      else if negb (username_re registered) then (db, RegisterBadCharacters)
      else
        match find_user registered_username registered db with
        | Some _ => (db, RegisterTaken)
        | None =>
            (with_users (<[user_id := User name (VText registered)]> (users db)) db,
             Registered)
        end
  end.

(** ** Administrative removals *)

Inductive entry_reply :=
| EntryNoActiveChallenge
| EntriesRemoved (removed_count : nat)
| NoEntriesFound
| EntryCancelled
| EntryPleaseConfirm.

(** [DELETE FROM scores WHERE challenge_id = ? AND user_id = (SELECT
    telegram_id FROM users WHERE registered_username = ?)]; the subquery is
    [NULL], and nothing is deleted, when no user has the name. *)
Definition entry_of (challenge_id : Z) (user_id : option Z) (s : Score.t) : bool :=
  match user_id with
  | Some u => (Score.challenge_id s =? challenge_id) && (Score.user_id s =? u)
  | None => false
  end.

Definition remove_entry_confirm (response : string)
    (remove_entry_username : string) (db : DB) : DB * result entry_reply :=
  if String.eqb response "y" then
    match get_current_challenge db with
    | None => (db, Ok EntryNoActiveChallenge)
    | Some current_challenge =>
        match row_id current_challenge with
        | Raise e => (db, Raise e)
        | Ok challenge_id =>
            let user_id := find_user registered_username remove_entry_username db in
            let kept :=
              List.filter (fun s => negb (entry_of challenge_id user_id s))
                (scores db) in
            let removed_count := (length (scores db) - length kept)%nat in
            (with_scores kept db,
             Ok (if (0 <? removed_count)%nat then EntriesRemoved removed_count
                 else NoEntriesFound))
        end
    end
  else if String.eqb response "n" then (db, Ok EntryCancelled)
  else (db, Ok EntryPleaseConfirm).

(** The four [DELETE] statements of [remove_challenge_confirm]. *)
Definition delete_challenge (challenge_id : Z) (db : DB) : DB :=
  Db (corder db) (delete challenge_id (challenges db)) (challenge_seq db)
    (List.filter (fun s => negb (Score.challenge_id s =? challenge_id)) (scores db))
    (filter (fun kv => fst (fst kv) <> challenge_id) (challenge_notifications db))
    (filter (fun kv => snd (fst kv) <> challenge_id) (baseline_values db))
    (users db).

Inductive removal_reply :=
| ChallengeRemoved
| RemovalError
| RemovalCancelled
| RemovalPleaseConfirm.

(** [remove_challenge_confirm]: the session holds the id and the fetched row
    of the selected challenge, or neither.  The deletions are committed before
    the reply is built; without a row, or with a description that is no text,
    building it raises, which is caught. *)
Definition remove_challenge_confirm (response : string)
    (remove_challenge : option (Z * list value)) (db : DB) : DB * removal_reply :=
  if String.eqb response "y" then
    match remove_challenge with
    | Some (challenge_id, challenge_data) =>
        (delete_challenge challenge_id db,
         match challenge_data !! 1%nat with
         | Some (VText _) => ChallengeRemoved
         | _ => RemovalError
         end)
    | None => (db, RemovalError)
    end
  else if String.eqb response "n" then (db, RemovalCancelled)
  else (db, RemovalPleaseConfirm).

(** ** The value of an administrative edit: [edit_challenge_value] *)

Definition lower_char (c : ascii) : ascii :=
  let n := N_of_ascii c in
  if ((65 <=? n) && (n <=? 90))%N then ascii_of_N (n + 32) else c.

(** [s.lower()] on ASCII letters. *)
Fixpoint py_lower (s : string) : string :=
  match s with
  | EmptyString => EmptyString
  | String c rest => String (lower_char c) (py_lower rest)
  end.

Definition valid_statuses : list string :=
  ["active"; "upcoming"; "completed"; "cancelled"]%string.

(** [None] when the handler asks again, else the value kept in the session.
    A field number outside 1 to 5 raises [KeyError]. *)
Definition edit_challenge_value (text : string) (field_num : Z)
  : result (option string) :=
  let new_value := py_strip text in
  match new_value with
  | EmptyString => Ok None
  | _ =>
      if (field_num =? 3) || (field_num =? 4) then
        match strptime_dmY new_value with
        | None => Ok None
        | Some _ => Ok (Some new_value)
        end
      else if field_num =? 5 then
        if bool_decide (py_lower new_value ∈ valid_statuses)
        then Ok (Some (py_lower new_value)) else Ok None
      else if is_field field_num then Ok (Some new_value)
      else Raise KeyError
  end.

(** ** Suggestions and votes *)

Module Suggestion.
Record t := Row
  { suggested_by : Z; description : string; scoring_system : string;
    votes : Z; created_at : string }.
End Suggestion.

(** The tables [challenge_suggestions] (with its [AUTOINCREMENT] counter) and
    [votes]. *)
Record Poll := MkPoll
  { challenge_suggestions : gmap Z Suggestion.t;
    suggestion_seq : Z;
    votes : gset (Z * Z) }.

Inductive suggestion_reply :=
| MaxSuggestions
| SuggestionSubmitted
| SuggestionCancelled
| SuggestionPleaseConfirm.

Definition suggestions_of (user_id : Z) (p : Poll) : list (Z * Suggestion.t) :=
  List.filter (fun r => Suggestion.suggested_by (snd r) =? user_id)
    (map_to_list (challenge_suggestions p)).

Definition next_suggestion_id (p : Poll) : Z :=
  Z.max (suggestion_seq p)
    (map_fold (fun k _ acc => Z.max k acc) 0 (challenge_suggestions p)) + 1.

Definition new_challenge_confirm (ts : string) (response : string) (user_id : Z)
    (suggestion_desc suggestion_scoring : string) (p : Poll)
  : Poll * suggestion_reply :=
  if String.eqb response "y" then
    if (3 <=? length (suggestions_of user_id p))%nat then (p, MaxSuggestions)
    else
      let id := next_suggestion_id p in
      (MkPoll
         (<[id := Suggestion.Row user_id suggestion_desc suggestion_scoring 0 ts]>
            (challenge_suggestions p))
         id (votes p),
       SuggestionSubmitted)
  else if String.eqb response "n" then (p, SuggestionCancelled)
  else (p, SuggestionPleaseConfirm).

(** [ORDER BY votes DESC, created_at ASC]: [a] comes after [b]. *)
Definition ranked_after (a b : Z * Suggestion.t) : bool :=
  (Suggestion.votes (snd a) <? Suggestion.votes (snd b))
  || ((Suggestion.votes (snd a) =? Suggestion.votes (snd b))
      && String.ltb (Suggestion.created_at (snd b)) (Suggestion.created_at (snd a))).

Fixpoint insert_ranked (x : Z * Suggestion.t) (l : list (Z * Suggestion.t))
  : list (Z * Suggestion.t) :=
  match l with
  | [] => [x]
  | y :: l' => if ranked_after x y then y :: insert_ranked x l' else x :: l
  end.

(** The ids in the order in which [next_challenge] numbers the suggestions. *)
Definition ranked_suggestions (p : Poll) : list Z :=
  map fst (foldr insert_ranked [] (map_to_list (challenge_suggestions p))).

Inductive vote_reply := InvalidVote | AlreadyVoted | VoteRecorded.

Definition add_vote (s : Suggestion.t) : Suggestion.t :=
  Suggestion.Row (Suggestion.suggested_by s) (Suggestion.description s)
    (Suggestion.scoring_system s) (Suggestion.votes s + 1)
    (Suggestion.created_at s).

Definition handle_challenge_vote (user_id : Z) (vote_num : Z) (p : Poll)
  : Poll * vote_reply :=
  let suggestions := ranked_suggestions p in
  if (vote_num <? 1) || (Z.of_nat (length suggestions) <? vote_num)
  then (p, InvalidVote)
  else
    match suggestions !! Z.to_nat (vote_num - 1) with
    | None => (p, InvalidVote)
    | Some suggestion_id =>
        if bool_decide ((user_id, suggestion_id) ∈ votes p) then (p, AlreadyVoted)
        else
          (MkPoll (alter add_vote suggestion_id (challenge_suggestions p))
             (suggestion_seq p) ({[ (user_id, suggestion_id) ]} ∪ votes p),
           VoteRecorded)
    end.



(** ** Feedback pages *)

Module Feedback.
Record t := Row
  { id : Z; user_id : Z; username : string; feedback_text : string;
    submitted_date : string }.
End Feedback.

(** [show_feedback_page]: [ordered] is the [feedback] table in the order of
    [ORDER BY submitted_date DESC].  The result is the entries displayed and
    whether the conversation stays in the viewing state; [None] when there is
    nothing (more) to show. *)
Definition show_feedback_page (feedback_offset : nat) (ordered : list Feedback.t)
  : option (list Feedback.t * bool) :=
  let results := take 11 (drop feedback_offset ordered) in
  match results with
  | [] => None
  | _ => Some (take 10 results, (10 <? length results)%nat)
  end.

(** The pages seen by an admin who starts with [show_feedback_start] and
    answers "next" as long as the conversation goes on ([show_feedback_next]
    adds 10 to the offset); [fuel] bounds the number of pages. *)
Fixpoint feedback_pages (fuel : nat) (feedback_offset : nat)
    (ordered : list Feedback.t) : list (list Feedback.t) :=
  match fuel with
  | O => []
  | S fuel' =>
      match show_feedback_page feedback_offset ordered with
      | None => []
      | Some (page, has_more) =>
          page :: (if has_more
                   then feedback_pages fuel' (feedback_offset + 10) ordered
                   else [])
      end
  end.

(** ** Vocabulary of the further statements *)

(** The month and day part of [strptime(_, '%Y-%m-%d')], after the year and
    its dash. *)
Definition parse_month_day (rest : string) : option (Z * Z) :=
  match List.find (fun a => starts_with "-" (snd a)) (month_alternatives rest) with
  | Some (m, String _ rest') =>
      match day_alternatives rest' with
      | (d, EmptyString) :: _ => Some (m, d)
      | _ => None
      end
  | _ => None
  end.

Definition month_day_text (m d : Z) : string :=
  zero_pad 2 m +:+ "-" +:+ zero_pad 2 d.

Definition digit_char (k : Z) : ascii := pretty_N_char (Z.to_N k).


(** Escaping in one pass: a backslash before every character of [chars], the
    other characters as they are. *)
Fixpoint escape_each (chars : list ascii) (text : string) : string :=
  match text with
  | EmptyString => EmptyString
  | String a rest =>
      if bool_decide (a ∈ chars)
      then String "\" (String a (escape_each chars rest))
      else String a (escape_each chars rest)
  end.

(** The type tag of no challenge reads as a date; the code only writes
    "points" and "change". *)
Definition plain_types (db : DB) : Prop :=
  map_Forall (fun _ c => strptime (py_str (challenge_type c)) = None)
    (challenges db).

(** No two users hold the same registered name (the [UNIQUE] constraint of
    the column; [NULL]s may repeat). *)
Definition unique_registered (u : gmap Z user) : Prop :=
  forall i j ui uj name,
    u !! i = Some ui -> u !! j = Some uj ->
    registered_username ui = VText name -> registered_username uj = VText name ->
    i = j.

Definition ascii_list (s : string) : list ascii := list_ascii_of_string s.

(** [JOIN users u ON s.user_id = u.telegram_id] on a score row. *)
Definition has_user_row (db : DB) (s : Score.t) : bool :=
  bool_decide (is_Some (users db !! Score.user_id s)).



(** Nobody has more than three suggestions. *)
Definition at_most_three (p : Poll) : Prop :=
  forall user_id, (length (suggestions_of user_id p) <= 3)%nat.

(** No stored measurement has negative points. *)
Definition nonneg_scores (db : DB) : Prop :=
  Forall (fun s => 0 <= Score.points s) (scores db).

(** ** Further sample data *)

(** One suggestion, by user 42, without votes. *)
Definition sample_poll : Poll :=
  MkPoll
    {[ 1 := Suggestion.Row 42 "Cold showers" "1 point per shower" 0
              "2025-01-02 09:00:00" ]}
    1 ∅.

(** * Properties *)

(** Case analysis on the first integer comparison of the goal. *)
Ltac case_cmp :=
  match goal with
  | |- context [?a <? ?b] => destruct (Z.ltb_spec a b)
  | |- context [?a <=? ?b] => destruct (Z.leb_spec a b)
  | |- context [?a =? ?b] => destruct (Z.eqb_spec a b)
  end.

(** ** Checks of the embedding on concrete inputs *)

Example strptime_iso : strptime "2025-01-05" = Some (Date 2025 1 5).
Proof. reflexivity. Qed.

Example strptime_short : strptime "2025-1-5" = Some (Date 2025 1 5).
Proof. reflexivity. Qed.

Example strptime_feb30 : strptime "2025-02-30" = None.
Proof. reflexivity. Qed.

Example strptime_trailing : strptime "2025-01-315" = None.
Proof. reflexivity. Qed.

Example strptime_points : strptime "points" = None.
Proof. reflexivity. Qed.

Example toordinal_2025 : toordinal (Date 2025 1 1) = 739252.
Proof. reflexivity. Qed.

Example strptime_dmY_ex : strptime_dmY "05/01/2025" = Some (Date 2025 1 5).
Proof. reflexivity. Qed.

Example isoformat_ex : isoformat (Date 2025 1 5) = "2025-01-05".
Proof. reflexivity. Qed.

Example status_active :
  get_challenge_status (noon (Date 2025 1 3))
    (Some [VInt 1; VText "d"; VText "s"; VText "2025-01-01"; VText "2025-01-05";
           VText "upcoming"; VInt 7; VText "2024-12-30 10:00:00"])
  = Ok (Some "active", Some "Active \- 2 days remaining\!").
Proof. reflexivity. Qed.

Example status_first_grace_second :
  get_challenge_status (DateTime (Date 2025 1 6) 0 0 0 0)
    (Some (sample_row "2025-01-01" "2025-01-05" "active"))
  = Ok (Some "grace_period", Some "Grace period \- 23 hours left to submit\!").
Proof. reflexivity. Qed.

Example status_after_grace :
  get_challenge_status (DateTime (Date 2025 1 7) 0 0 0 0)
    (Some (sample_row "2025-01-01" "2025-01-05" "grace_period"))
  = Ok (Some "ended", Some "Challenge has ended").
Proof. reflexivity. Qed.

(** The administrative edit accepts any well-formed date: moving the start of
    a running challenge behind its end leaves a row that resolves to
    "upcoming" on the day after the end date. *)
Example edit_can_put_the_start_after_the_end :
  let db' := fst (edit_challenge_confirm "y" (Some 1) 3 "10/01/2025" scenario_db) in
  start_date <$> challenges db' !! 1 = Some (VText "2025-01-10")
  /\ end_date <$> challenges db' !! 1 = Some (VText "2025-01-05")
  /\ resolved_status (noon (Date 2025 1 6)) <$> get_current_challenge db'
     = Some (Some "upcoming").
Proof. by vm_compute. Qed.

(** In a freshly created database the baseline conversation starts for a
    change challenge although the resolver raises on its row. *)
Example baseline_flow_on_declared_order :
  setbaseline_start change_db = Ok (Prompt, Some 1)
  /\ get_challenge_status (noon (Date 2025 1 10)) (get_current_challenge change_db)
     = Raise ValueError.
Proof. by vm_compute. Qed.

Example status_last_second :
  get_challenge_status (DateTime (Date 2025 1 5) 23 59 59 0)
    (Some [VInt 1; VText "d"; VText "s"; VText "2025-01-01"; VText "2025-01-05";
           VText "active"; VInt 7; VText "2024-12-30 10:00:00"])
  = Ok (Some "active", Some "Active \- less than a minute remaining\!").
Proof. reflexivity. Qed.

(** ** Dates as text: [isoformat] and [strptime] *)

Lemma pretty_N_go_digit x s :
  (0 < x < 10)%N -> pretty_N_go x s = String (pretty_N_char x) s.
Proof.
  intros Hx. rewrite pretty_N_go_step by lia.
  rewrite N.div_small, N.mod_small by lia. apply pretty_N_go_0.
Qed.

Lemma pretty_four_digits y :
  1 <= y <= 9999 ->
  zero_pad 4 y
  = String (digit_char (y / 1000))
      (String (digit_char (y / 100 mod 10))
         (String (digit_char (y / 10 mod 10))
            (String (digit_char (y mod 10)) EmptyString))).
Proof.
  intros Hy. unfold zero_pad, digit_char.
  destruct y as [|p|p]; [lia| |lia].
  change (pretty (Z.pos p)) with (pretty (N.pos p)).
  unfold pretty, pretty_N. rewrite decide_False by done.
  set (x := N.pos p).
  assert (Hx : (0 < x < 10000)%N) by lia.
  assert (Hz : Z.pos p = Z.of_N x) by done. rewrite Hz. clearbody x. clear Hz Hy p.
  assert (Hdiv : forall k, 0 < k -> Z.to_N (Z.of_N x / k) = (x / Z.to_N k)%N).
  { intros k Hk. rewrite <- (Z2N.id k) at 1 by lia.
    by rewrite <- N2Z.inj_div, N2Z.id. }
  assert (Hmod : forall a, Z.to_N (Z.of_N a mod 10) = (a mod 10)%N).
  { intros a. change 10 with (Z.of_N 10).
    by rewrite <- N2Z.inj_mod, N2Z.id. }
  assert (Hdm : forall k, 0 < k ->
            Z.to_N (Z.of_N x / k mod 10) = ((x / Z.to_N k) mod 10)%N).
  { intros k Hk. rewrite <- (Z2N.id k) at 1 by lia.
    by rewrite <- N2Z.inj_div, Hmod. }
  rewrite Hdiv, !Hdm, Hmod by lia.
  change (Z.to_N 1000) with 1000%N. change (Z.to_N 100) with 100%N.
  change (Z.to_N 10) with 10%N.
  destruct (decide (x < 10)%N) as [H1|H1].
  { rewrite pretty_N_go_digit by lia. cbn.
    rewrite !(N.div_small x) by lia. rewrite (N.mod_small x 10) by lia. done. }
  rewrite pretty_N_go_step by lia.
  destruct (decide (x < 100)%N) as [H2|H2].
  { rewrite pretty_N_go_digit
      by (split; [apply N.div_str_pos; lia | apply N.Div0.div_lt_upper_bound; lia]).
    cbn. rewrite (N.div_small x 1000), (N.div_small x 100) by lia.
    rewrite (N.mod_small (x / 10) 10)
      by (apply N.Div0.div_lt_upper_bound; lia).
    done. }
  rewrite pretty_N_go_step by (apply N.div_str_pos; lia).
  rewrite N.Div0.div_div. change (10 * 10)%N with 100%N.
  destruct (decide (x < 1000)%N) as [H3|H3].
  { rewrite pretty_N_go_digit
      by (split; [apply N.div_str_pos; lia | apply N.Div0.div_lt_upper_bound; lia]).
    cbn. rewrite (N.div_small x 1000) by lia.
    rewrite (N.mod_small (x / 100) 10)
      by (apply N.Div0.div_lt_upper_bound; lia).
    done. }
  rewrite pretty_N_go_step by (apply N.div_str_pos; lia).
  rewrite N.Div0.div_div. change (100 * 10)%N with 1000%N.
  rewrite pretty_N_go_digit
    by (split; [apply N.div_str_pos; lia | apply N.Div0.div_lt_upper_bound; lia]).
  done.
Qed.

Lemma digit_char_digit k :
  0 <= k < 10 -> is_digit (digit_char k) = true /\ digit (digit_char k) = k.
Proof.
  intros Hk.
  assert (k = 0 \/ k = 1 \/ k = 2 \/ k = 3 \/ k = 4 \/ k = 5 \/ k = 6 \/ k = 7
          \/ k = 8 \/ k = 9) as Hcases by lia.
  repeat destruct Hcases as [->|Hcases]; try subst k; by compute.
Qed.

Lemma four_digits_zero_pad y :
  1 <= y <= 9999 ->
  four_digits (digit_char (y / 1000)) (digit_char (y / 100 mod 10))
    (digit_char (y / 10 mod 10)) (digit_char (y mod 10)) = Some y.
Proof.
  intros Hy. unfold four_digits.
  assert (H3 : 0 <= y / 1000 < 10)
    by (split; [apply Z.div_pos; lia | apply Z.div_lt_upper_bound; lia]).
  pose proof (Z.mod_pos_bound (y / 100) 10 ltac:(lia)) as H2.
  pose proof (Z.mod_pos_bound (y / 10) 10 ltac:(lia)) as H1.
  pose proof (Z.mod_pos_bound y 10 ltac:(lia)) as H0.
  destruct (digit_char_digit _ H3) as [-> ->].
  destruct (digit_char_digit _ H2) as [-> ->].
  destruct (digit_char_digit _ H1) as [-> ->].
  destruct (digit_char_digit _ H0) as [-> ->].
  cbn [andb]. f_equal.
  pose proof (Z.div_mod y 10 ltac:(lia)).
  pose proof (Z.div_mod (y / 10) 10 ltac:(lia)).
  pose proof (Z.div_mod (y / 100) 10 ltac:(lia)).
  assert (y / 100 = y / 10 / 10) by (rewrite Z.div_div by lia; done).
  assert (y / 1000 = y / 100 / 10) by (rewrite Z.div_div by lia; done).
  lia.
Qed.

Lemma strptime_unfold y1 y2 y3 y4 rest :
  strptime (String y1 (String y2 (String y3 (String y4 (String "-" rest)))))
  = match four_digits y1 y2 y3 y4 with
    | Some y =>
        match parse_month_day rest with
        | Some (m, d) => make_date y m d
        | None => None
        end
    | None => None
    end.
Proof.
  unfold strptime, parse_month_day. destruct (four_digits y1 y2 y3 y4); [|done].
  cbn [Ascii.eqb Bool.eqb].
  destruct (List.find _ _) as [[m [|c rest']]|]; try done.
  by destruct (day_alternatives rest') as [|[d [|]] l].
Qed.

Lemma month_day_texts_parse :
  forallb (fun m =>
    forallb (fun d =>
      bool_decide (parse_month_day (month_day_text m d) = Some (m, d)))
      (seqZ 1 31)) (seqZ 1 12) = true.
Proof. by vm_compute. Qed.

Lemma parse_month_day_text m d :
  1 <= m <= 12 -> 1 <= d <= 31 ->
  parse_month_day (month_day_text m d) = Some (m, d).
Proof.
  intros Hm Hd. pose proof month_day_texts_parse as H.
  rewrite forallb_forall in H.
  assert (Hin : In m (seqZ 1 12)) by (apply list_elem_of_In, elem_of_seqZ; lia).
  specialize (H m Hin). rewrite forallb_forall in H.
  assert (Hin' : In d (seqZ 1 31)) by (apply list_elem_of_In, elem_of_seqZ; lia).
  specialize (H d Hin'). by apply bool_decide_eq_true_1 in H.
Qed.

Lemma valid_date_bounds y m d :
  valid_date y m d = true ->
  1 <= y <= 9999 /\ 1 <= m <= 12 /\ 1 <= d <= days_in_month y m /\ d <= 31.
Proof.
  unfold valid_date. rewrite !andb_true_iff, !Z.leb_le.
  intros [[[[[? ?] ?] ?] ?] ?].
  assert (days_in_month y m <= 31).
  { unfold days_in_month. repeat case_match; lia. }
  lia.
Qed.

(** The text that the database adapter stores for a date parses back, with
    [strptime(_, '%Y-%m-%d')], to that date. *)
Lemma strptime_isoformat d :
  valid_date (year d) (month d) (day d) = true ->
  strptime (isoformat d) = Some d.
Proof.
  intros Hv. destruct d as [y m d]. cbn [year month day] in *.
  pose proof (valid_date_bounds _ _ _ Hv) as (Hy & Hm & Hd & Hd').
  unfold isoformat. cbn [year month day].
  rewrite (pretty_four_digits y Hy).
  change (strptime
            (String (digit_char (y / 1000))
               (String (digit_char (y / 100 mod 10))
                  (String (digit_char (y / 10 mod 10))
                     (String (digit_char (y mod 10))
                        (String "-" (month_day_text m d)))))) = Some (Date y m d)).
  rewrite strptime_unfold, (four_digits_zero_pad y Hy).
  rewrite parse_month_day_text by lia.
  unfold make_date. by rewrite Hv.
Qed.



(** ** The order of dates *)

Lemma days_before_year_succ y :
  days_before_year (y + 1)
  = days_before_year y + 365 + (if is_leap y then 1 else 0).
Proof.
  unfold days_before_year, is_leap.
  replace (y + 1 - 1) with y by lia.
  destruct (Z.eqb_spec (y mod 4) 0), (Z.eqb_spec (y mod 100) 0),
    (Z.eqb_spec (y mod 400) 0); cbn [andb orb negb];
    Z.div_mod_to_equations; lia.
Qed.

Lemma days_before_year_mono y1 y2 :
  y1 <= y2 -> days_before_year y1 <= days_before_year y2.
Proof.
  intros H. unfold days_before_year. Z.div_mod_to_equations. lia.
Qed.

Lemma month_cases m :
  1 <= m <= 12 ->
  m = 1 \/ m = 2 \/ m = 3 \/ m = 4 \/ m = 5 \/ m = 6 \/ m = 7 \/ m = 8
  \/ m = 9 \/ m = 10 \/ m = 11 \/ m = 12.
Proof. lia. Qed.

Lemma days_before_month_next y m1 m2 :
  1 <= m1 -> m1 < m2 -> m2 <= 12 ->
  days_before_month y m1 + days_in_month y m1 <= days_before_month y m2.
Proof.
  intros H1 H12 H2.
  destruct (month_cases m1 ltac:(lia)) as
    [->|[->|[->|[->|[->|[->|[->|[->|[->|[->|[->| ->]]]]]]]]]]];
    destruct (month_cases m2 ltac:(lia)) as
      [->|[->|[->|[->|[->|[->|[->|[->|[->|[->|[->| ->]]]]]]]]]]];
    try lia; unfold days_before_month, days_in_month;
    destruct (is_leap y); by vm_compute.
Qed.

Lemma days_before_month_end y m :
  1 <= m <= 12 ->
  0 <= days_before_month y m
  /\ days_before_month y m + days_in_month y m
     <= 365 + (if is_leap y then 1 else 0).
Proof.
  intros Hm.
  destruct (month_cases m Hm) as
    [->|[->|[->|[->|[->|[->|[->|[->|[->|[->|[->| ->]]]]]]]]]]];
    unfold days_before_month, days_in_month; destruct (is_leap y);
    by vm_compute.
Qed.

(** On dates that exist, the order of [date] objects (year, then month, then
    day) is the order of their ordinals. *)
Lemma toordinal_lt a b :
  valid_date (year a) (month a) (day a) = true ->
  valid_date (year b) (month b) (day b) = true ->
  date_ltb a b = true <-> toordinal a < toordinal b.
Proof.
  intros Ha Hb.
  apply valid_date_bounds in Ha as (Hya & Hma & Hda & _).
  apply valid_date_bounds in Hb as (Hyb & Hmb & Hdb & _).
  assert (Hlt : forall a b : date,
            1 <= month a <= 12 -> 1 <= day a <= days_in_month (year a) (month a) ->
            1 <= month b <= 12 -> 1 <= day b <= days_in_month (year b) (month b) ->
            date_ltb a b = true -> toordinal a < toordinal b).
  { clear. intros [y1 m1 d1] [y2 m2 d2]; cbn [year month day].
    intros Hm1 Hd1 Hm2 Hd2. unfold date_ltb, toordinal; cbn [year month day].
    repeat (rewrite orb_true_iff || rewrite andb_true_iff).
    rewrite !Z.ltb_lt, !Z.eqb_eq.
    intros [Hy|[-> [Hm|[-> Hd]]]].
    - pose proof (days_before_month_end y1 m1 Hm1) as [_ H1].
      pose proof (days_before_month_end y2 m2 Hm2) as [H2 _].
      pose proof (days_before_year_succ y1).
      pose proof (days_before_year_mono (y1 + 1) y2 ltac:(lia)). lia.
    - pose proof (days_before_month_next y2 m1 m2 ltac:(lia) Hm ltac:(lia)). lia.
    - lia. }
  split; [by apply Hlt|].
  intros Hord. destruct (date_ltb a b) eqn:Hab; [done|].
  assert (Hba : date_ltb b a = true \/ (year a = year b /\ month a = month b
                                        /\ day a = day b)).
  { revert Hab. unfold date_ltb.
    repeat (rewrite orb_false_iff || rewrite andb_false_iff
            || rewrite orb_true_iff || rewrite andb_true_iff).
    rewrite !Z.ltb_lt, !Z.ltb_ge, !Z.eqb_eq, !Z.eqb_neq.
    lia. }
  destruct Hba as [Hba|(Hy & Hm & Hd)].
  - apply Hlt in Hba; lia.
  - unfold toordinal in Hord. rewrite Hy, Hm, Hd in Hord. lia.
Qed.



Lemma make_date_valid y m d x :
  make_date y m d = Some x ->
  valid_date (year x) (month x) (day x) = true.
Proof.
  unfold make_date. destruct (valid_date y m d) eqn:Hv; [|done].
  by intros [= <-].
Qed.

Lemma strptime_valid s d :
  strptime s = Some d -> valid_date (year d) (month d) (day d) = true.
Proof.
  unfold strptime. intros H.
  repeat (case_match; try done). by eapply make_date_valid.
Qed.

(** A date that exists has an ordinal between those of [date.min] and
    [date.max], and only 9999-12-31 has the last one. *)
Lemma toordinal_bounds d :
  valid_date (year d) (month d) (day d) = true ->
  1 <= toordinal d <= max_ordinal
  /\ (d <> Date 9999 12 31 -> toordinal d < max_ordinal).
Proof.
  intros Hd.
  assert (Hlast : valid_date 9999 12 31 = true) by reflexivity.
  assert (Hfirst : valid_date 1 1 1 = true) by reflexivity.
  pose proof (toordinal_lt d (Date 9999 12 31) Hd Hlast) as Hmax.
  pose proof (toordinal_lt (Date 1 1 1) d Hfirst Hd) as Hmin.
  change (toordinal (Date 9999 12 31)) with max_ordinal in Hmax.
  change (toordinal (Date 1 1 1)) with 1 in Hmin.
  pose proof (valid_date_bounds _ _ _ Hd) as (Hy & Hm & _ & Hday).
  assert (Hd1 : 1 <= day d).
  { by apply valid_date_bounds in Hd as (_ & _ & [? _] & _). }
  destruct d as [y m dd]; cbn [year month day] in *.
  assert (Hcases :
    (y = 9999 /\ m = 12 /\ dd = 31) \/ date_ltb (Date y m dd) (Date 9999 12 31) = true).
  { unfold date_ltb; cbn [year month day].
    repeat (rewrite orb_true_iff || rewrite andb_true_iff).
    rewrite !Z.ltb_lt, !Z.eqb_eq. lia. }
  assert (Hcases' :
    (y = 1 /\ m = 1 /\ dd = 1) \/ date_ltb (Date 1 1 1) (Date y m dd) = true).
  { unfold date_ltb; cbn [year month day].
    repeat (rewrite orb_true_iff || rewrite andb_true_iff).
    rewrite !Z.ltb_lt, !Z.eqb_eq. lia. }
  assert (Hlo : 1 <= toordinal (Date y m dd)).
  { destruct Hcases' as [(-> & -> & ->)|H]; [by vm_compute|].
    apply Hmin in H. lia. }
  split; [split; [done|]|].
  - destruct Hcases as [(-> & -> & ->)|H]; [by vm_compute|].
    apply Hmax in H. lia.
  - intros Hne. destruct Hcases as [(-> & -> & ->)|H]; [done|]. by apply Hmax.
Qed.

(** ** The status resolver *)

Lemma start_instant_eq d : start_instant d = toordinal d * 86400000000.
Proof. reflexivity. Qed.

Lemma end_instant_eq d :
  end_instant d = (toordinal d + 1) * 86400000000 - 1000000.
Proof.
  unfold end_instant, midnight, timedelta, us_per_day, us_per_second. lia.
Qed.

Lemma grace_instant_eq d :
  grace_instant d = (toordinal d + 2) * 86400000000 - 1000000.
Proof.
  unfold grace_instant. rewrite end_instant_eq.
  unfold timedelta, us_per_day, us_per_second. lia.
Qed.

(** The status the resolver gives, by the position of [now]: the branches are
    tried in this order. *)
Lemma resolve_status now sd ed :
  fst (resolve now sd ed) =
    if instant now <? start_instant sd then "upcoming"
    else if instant now <=? end_instant ed then "active"
    else if instant now <=? grace_instant ed then "grace_period"
    else "ended".
Proof.
  unfold resolve, phase.
  destruct (Z.ltb_spec (instant now) (start_instant sd)); [done|].
  destruct (Z.leb_spec (start_instant sd) (instant now)); [|lia].
  destruct (Z.leb_spec (instant now) (end_instant ed)); [done|]. cbn [andb].
  destruct (Z.ltb_spec (end_instant ed) (instant now)); [|lia].
  by destruct (Z.leb_spec (instant now) (grace_instant ed)).
Qed.

(** The three additions of the resolver: they overflow exactly for the end
    date 9999-12-31, whose next day is no datetime. *)
Lemma end_of_day_additions ed :
  1 <= toordinal ed <= max_ordinal ->
  (next_day ← datetime_add (midnight ed) (timedelta 1 0);
   end_datetime ← datetime_add next_day (- timedelta 0 1);
   grace_end ← datetime_add end_datetime (timedelta 1 0);
   Ok (end_datetime, grace_end))
  = if toordinal ed <? max_ordinal
    then Ok (end_instant ed, grace_instant ed)
    else Raise OverflowError.
Proof.
  intros Hed. unfold datetime_add, min_instant, max_instant, grace_instant,
    end_instant, midnight, timedelta, us_per_day, us_per_second, max_ordinal in *.
  destruct (Z.ltb_spec (toordinal ed) 3652059) as [Hlt|Hge].
  - rewrite (proj2 (andb_true_iff _ _)) by (split; [apply Z.leb_le|apply Z.leb_le]; lia).
    cbn [mbind result_bind].
    rewrite (proj2 (andb_true_iff _ _)) by (split; [apply Z.leb_le|apply Z.leb_le]; lia).
    cbn [mbind result_bind].
    rewrite (proj2 (andb_true_iff _ _)) by (split; [apply Z.leb_le|apply Z.leb_le]; lia).
    cbn [mbind result_bind]. do 2 f_equal; lia.
  - rewrite (proj2 (andb_false_iff _ _)); [done|].
    right. apply Z.leb_gt. lia.
Qed.

Lemma get_challenge_status_parsed now row s e sd ed :
  unpack_dates row = Ok (s, e) ->
  strptime (py_str s) = Some sd ->
  strptime (py_str e) = Some ed ->
  get_challenge_status now (Some row)
  = if toordinal ed <? max_ordinal
    then Ok (Some (fst (resolve now sd ed)), Some (snd (resolve now sd ed)))
    else Raise OverflowError.
Proof.
  intros Hrow Hs He. destruct row as [|v row]; [done|].
  unfold get_challenge_status. rewrite Hrow. cbn [mbind result_bind].
  rewrite Hs. cbn [of_option mbind result_bind].
  rewrite He. cbn [of_option mbind result_bind].
  pose proof (toordinal_bounds ed (strptime_valid _ _ He)) as [Hb _].
  pose proof (end_of_day_additions ed Hb) as Hadd. revert Hadd.
  destruct (toordinal ed <? max_ordinal);
    destruct (datetime_add (midnight ed) (timedelta 1 0)) as [t1|x1];
    cbn [mbind result_bind]; try congruence;
    destruct (datetime_add t1 (- timedelta 0 1)) as [t2|x2];
    cbn [mbind result_bind]; try congruence;
    destruct (datetime_add t2 (timedelta 1 0)) as [t3|x3];
    cbn [mbind result_bind]; try congruence.
  intros [= -> ->]. unfold resolve. by destruct (phase _ _ _ _).
Qed.

Lemma get_challenge_status_dates now row s e sd ed :
  unpack_dates row = Ok (s, e) ->
  strptime (py_str s) = Some sd ->
  strptime (py_str e) = Some ed ->
  ed <> Date 9999 12 31 ->
  get_challenge_status now (Some row)
  = Ok (Some (fst (resolve now sd ed)), Some (snd (resolve now sd ed))).
Proof.
  intros Hrow Hs He Hne.
  rewrite (get_challenge_status_parsed now row s e sd ed) by done.
  pose proof (toordinal_bounds ed (strptime_valid _ _ He)) as [_ Hlt].
  by rewrite (proj2 (Z.ltb_lt _ _)) by by apply Hlt.
Qed.

(** For a challenge that ends on 9999-12-31 the resolver raises, whatever
    the time. *)
Lemma get_challenge_status_overflow now row s e sd :
  unpack_dates row = Ok (s, e) ->
  strptime (py_str s) = Some sd ->
  strptime (py_str e) = Some (Date 9999 12 31) ->
  get_challenge_status now (Some row) = Raise OverflowError.
Proof.
  intros Hrow Hs He.
  by rewrite (get_challenge_status_parsed now row s e sd (Date 9999 12 31)).
Qed.

Lemma get_challenge_status_ok now row r :
  get_challenge_status now (Some row) = Ok r ->
  row = [] /\ r = (None, None)
  \/ exists s e sd ed,
       unpack_dates row = Ok (s, e)
       /\ strptime (py_str s) = Some sd /\ strptime (py_str e) = Some ed
       /\ ed <> Date 9999 12 31
       /\ r = (Some (fst (resolve now sd ed)), Some (snd (resolve now sd ed))).
Proof.
  destruct row as [|v row]; [cbn; intros [= <-]; by left|].
  intros H. right.
  destruct (unpack_dates (v :: row)) as [[s e]|] eqn:Hrow;
    [|by unfold get_challenge_status in H; rewrite Hrow in H].
  destruct (strptime (py_str s)) as [sd|] eqn:Hs;
    [|by unfold get_challenge_status in H; rewrite Hrow in H; cbn in H;
         rewrite Hs in H].
  destruct (strptime (py_str e)) as [ed|] eqn:He;
    [|by unfold get_challenge_status in H; rewrite Hrow in H; cbn in H;
         rewrite Hs in H; cbn in H; rewrite He in H].
  rewrite (get_challenge_status_parsed now _ s e sd ed) in H by done.
  exists s, e, sd, ed.
  destruct (Z.ltb_spec (toordinal ed) max_ordinal) as [Hlt|Hge]; [|done].
  injection H as <-. repeat split; try done.
  intros ->. vm_compute in Hlt. discriminate Hlt.
Qed.

(** C1, as stated, fails: for a challenge that ends on 9999-12-31, a period
    that [start_challenge_period] accepts, the resolver adds a day to the end
    date, which is no datetime any more, and raises [OverflowError] instead of
    returning a phase; so it does on the day of the creation, which lies
    before the start and should resolve to "upcoming". *)
Lemma four_phases_counterexample :
  start_challenge_period (Date 2025 6 1) "01/01/2026 to 31/12/9999"
  = PeriodAccepted (Date 2026 1 1) (Date 9999 12 31)
  /\ get_challenge_status (noon (Date 2025 6 1))
       (Some (sample_row "2026-01-01" "9999-12-31" "upcoming"))
     = Raise OverflowError
  /\ ~ four_phases
         (fun now =>
            resolved_status now (sample_row "2026-01-01" "9999-12-31" "upcoming"))
         (Date 2026 1 1) (Date 9999 12 31).
Proof.
  split; [by vm_compute|]. split; [by vm_compute|].
  intros H. destruct (H (noon (Date 2025 6 1))) as (Hup & _).
  assert (Hin : instant (noon (Date 2025 6 1)) < start_instant (Date 2026 1 1))
    by by vm_compute.
  specialize (Hup Hin). vm_compute in Hup. discriminate.
Qed.

(** C1 (amended): for an end date before 9999-12-31 the resolver returns
    "upcoming" for every time strictly before the start of the start date,
    otherwise "active" for every time up to and including 23:59:59 of the end
    date, otherwise "grace_period" for every time up to and including the
    grace instant 24 hours later (fractions of the first second after the end
    instant included), otherwise "ended".  When the start date is not later
    than the day after the end date, in particular whenever it is not after
    the end date, these are the four phases of the claim: "upcoming" before
    the start, "active" from there to the end instant, "grace_period" from
    one second later to the grace instant, "ended" afterwards. *)
Theorem resolver_four_phases row s e sd ed :
  unpack_dates row = Ok (s, e) ->
  strptime (py_str s) = Some sd ->
  strptime (py_str e) = Some ed ->
  ed <> Date 9999 12 31 ->
  (toordinal sd <= toordinal ed + 1 ->
   four_phases (fun now => resolved_status now row) sd ed)
  /\ (forall now,
        resolved_status now row
        = Some (if instant now <? start_instant sd then "upcoming"
                else if instant now <=? end_instant ed then "active"
                else if instant now <=? grace_instant ed then "grace_period"
                else "ended")).
Proof.
  intros Hrow Hs He Hne.
  assert (Hst : forall now, resolved_status now row = Some (fst (resolve now sd ed))).
  { intros now. unfold resolved_status.
    by rewrite (get_challenge_status_dates now row s e sd ed). }
  split.
  - intros Hord now. rewrite Hst, resolve_status.
    rewrite start_instant_eq, end_instant_eq, grace_instant_eq.
    unfold us_per_second.
    repeat split; intros Hnow; repeat case_cmp; done || lia.
  - intros now. by rewrite Hst, resolve_status.
Qed.

Lemma resolver_four_phases_witness :
  four_phases
    (fun now => resolved_status now (sample_row "2025-01-01" "2025-01-05" "active"))
    (Date 2025 1 1) (Date 2025 1 5).
Proof.
  apply (resolver_four_phases
           (sample_row "2025-01-01" "2025-01-05" "active")
           (VText "2025-01-01") (VText "2025-01-05")
           (Date 2025 1 1) (Date 2025 1 5));
    [reflexivity | reflexivity | reflexivity | discriminate
     | vm_compute; discriminate].
Defined.

(** ** The resolver and the column order *)

Lemma get_challenge_status_bad_start now row s e :
  unpack_dates row = Ok (s, e) ->
  strptime (py_str s) = None ->
  get_challenge_status now (Some row) = Raise ValueError.
Proof.
  intros Hrow Hs. destruct row as [|v row]; [done|].
  unfold get_challenge_status. rewrite Hrow. cbn. by rewrite Hs.
Qed.

Lemma unpack_declared id c :
  unpack_dates (select_star Declared id c)
  = Ok (challenge_type c, type_description c).
Proof. reflexivity. Qed.

Lemma unpack_migrated id c :
  unpack_dates (select_star Migrated id c) = Ok (start_date c, end_date c).
Proof. reflexivity. Qed.

Lemma variant_tag_is_no_date v : is_variant_tag v -> strptime (py_str v) = None.
Proof. by intros [-> | ->]. Qed.

(** C3: on a row in the column order of the table-creation statement the
    10-column unpacking binds [challenge_type] and [type_description] as start
    and end date, and the resolver raises [ValueError] at every time; it
    returns normally only on the migrated order, and there only when the
    start and end date parse and the end date is before 9999-12-31, in which
    case it resolves by those dates. *)
Theorem declared_order_raises now id c :
  is_variant_tag (challenge_type c) ->
  unpack_dates (select_star Declared id c)
  = Ok (challenge_type c, type_description c)
  /\ get_challenge_status now (Some (select_star Declared id c)) = Raise ValueError
  /\ (forall o r,
        get_challenge_status now (Some (select_star o id c)) = Ok r ->
        o = Migrated
        /\ is_Some (strptime (py_str (start_date c)))
        /\ is_Some (strptime (py_str (end_date c))))
  /\ (forall sd ed,
        strptime (py_str (start_date c)) = Some sd ->
        strptime (py_str (end_date c)) = Some ed ->
        ed <> Date 9999 12 31 ->
        get_challenge_status now (Some (select_star Migrated id c))
        = Ok (Some (fst (resolve now sd ed)), Some (snd (resolve now sd ed)))).
Proof.
  intros Hty.
  assert (Hraise :
    get_challenge_status now (Some (select_star Declared id c)) = Raise ValueError).
  { eapply get_challenge_status_bad_start; [apply unpack_declared|].
    by apply variant_tag_is_no_date. }
  split; [reflexivity|]. split; [done|]. split.
  - intros [] r Hok; [congruence|].
    apply get_challenge_status_ok in Hok
      as [[? _]|(s & e & sd & ed & Hrow & Hs & He & _)]; [done|].
    rewrite unpack_migrated in Hrow. injection Hrow as <- <-.
    by rewrite Hs, He.
  - intros sd ed Hs He Hne.
    by apply (get_challenge_status_dates now _ (start_date c) (end_date c)).
Qed.

Lemma declared_order_raises_witness :
  get_challenge_status (noon (Date 2025 1 3))
    (Some (select_star Declared 1
             (sample_challenge "2025-01-01" "2025-01-05" "active")))
  = Raise ValueError.
Proof.
  apply (declared_order_raises (noon (Date 2025 1 3)) 1
           (sample_challenge "2025-01-01" "2025-01-05" "active")).
  left. reflexivity.
Defined.

(** ** The notification gate *)

(** C6, as stated, fails: a second [mark_notification_sent] for the same key at
    a later clock reading replaces the row, and its [sent_date] changes. *)
Lemma mark_twice_changes_sent_date :
  let db1 := mark_notification_sent "2025-01-06 08:00:00" 1 "ending"
               (empty_db Migrated) in
  let db2 := mark_notification_sent "2025-01-06 14:00:00" 1 "ending" db1 in
  challenge_notifications db1 !! (1, "ending"%string) = Some "2025-01-06 08:00:00"%string
  /\ challenge_notifications db2 !! (1, "ending"%string) = Some "2025-01-06 14:00:00"%string
  /\ challenge_notifications db2 !! (1, "ending"%string)
     <> challenge_notifications db1 !! (1, "ending"%string).
Proof. cbn. rewrite !lookup_insert_eq. by repeat split. Qed.

(** C6 (amended): [mark_notification_sent] is an insert-or-replace on the
    composite key (challenge, event kind).  After a call the key is marked with
    the clock reading of that call, no other key and no other table changes; a
    repeated call leaves the set of marked keys as the first call left it, and
    changes nothing at all when the clock reading is the same, but it rewrites
    [sent_date] to the reading of the latest call. *)
Theorem mark_notification_sent_upsert ts ts' cid kind db :
  let db1 := mark_notification_sent ts cid kind db in
  let db2 := mark_notification_sent ts' cid kind db1 in
  has_notification_been_sent cid kind db1 = true
  /\ challenge_notifications db1 !! (cid, kind) = Some ts
  /\ (forall k, k <> (cid, kind) ->
        challenge_notifications db1 !! k = challenge_notifications db !! k)
  /\ (challenges db1, scores db1, baseline_values db1, users db1)
     = (challenges db, scores db, baseline_values db, users db)
  /\ dom (challenge_notifications db2) = dom (challenge_notifications db1)
  /\ challenge_notifications db2 !! (cid, kind) = Some ts'
  /\ (ts' = ts -> db2 = db1).
Proof.
  cbn. unfold has_notification_been_sent. cbn.
  rewrite !lookup_insert_eq, insert_insert_eq. repeat split.
  - intros k Hk. by rewrite lookup_insert_ne.
  - rewrite !dom_insert_L. set_solver.
  - intros ->. unfold mark_notification_sent, with_notifications. cbn.
    by rewrite insert_insert_eq.
Qed.

Lemma mark_notification_sent_upsert_witness :
  mark_notification_sent "t" 1 "start"
    (mark_notification_sent "t" 1 "start" (empty_db Migrated))
  = mark_notification_sent "t" 1 "start" (empty_db Migrated).
Proof.
  apply (mark_notification_sent_upsert "t" "t" 1 "start" (empty_db Migrated)).
  reflexivity.
Defined.

(** ** Baselines *)

(** C5, as stated, fails: a second set-baseline for the same participant and
    challenge replaces the stored baseline. *)
Lemma second_baseline_replaces_first :
  let db1 := fst (setbaseline_value "2025-01-02 09:00:00" (Some (Finite (70 # 1)))
                    42 (Some 1) (empty_db Migrated)) in
  let db2 := fst (setbaseline_value "2025-01-03 09:00:00" (Some (Finite (80 # 1)))
                    42 (Some 1) db1) in
  baseline_value <$> baseline_values db1 !! (42, 1) = Some (Some (70 # 1))
  /\ baseline_value <$> baseline_values db2 !! (42, 1) = Some (Some (80 # 1))
  /\ baseline_value <$> baseline_values db2 !! (42, 1)
     <> baseline_value <$> baseline_values db1 !! (42, 1).
Proof. by vm_compute. Qed.

(** C5 (amended): set-baseline is an insert-or-replace with the last write
    winning.  Every accepted call, that is every call whose text converts to
    a float that passes the bounds check, with a challenge id in the session,
    stores the submitted value both as [baseline_value] and as
    [current_value] of the row of that participant and challenge, whether or
    not a row existed, and leaves the other rows and tables as they were.  A
    number is stored as it is; the bounds check also lets NaN through, for
    which both cells become NULL. *)
Theorem setbaseline_last_write_wins ts v user_id cid db :
  too_large v = false ->
  cid <> 0 ->
  let db' := fst (setbaseline_value ts (Some v) user_id (Some cid) db) in
  snd (setbaseline_value ts (Some v) user_id (Some cid) db) = Ok (BaselineSet v)
  /\ baseline_values db' !! (user_id, cid)
     = Some (Baseline (sqlite_real v) (sqlite_real v) ts)
  /\ match v with
     | Finite q => sqlite_real v = Some q /\ (Qabs q <= 1000000)%Q
     | NaN => sqlite_real v = None
     | Infinity _ => False
     end
  /\ (forall k, k <> (user_id, cid) ->
        baseline_values db' !! k = baseline_values db !! k)
  /\ (challenges db', scores db', users db', challenge_notifications db')
     = (challenges db, scores db, users db, challenge_notifications db).
Proof.
  intros Hv Hcid. unfold setbaseline_value. rewrite Hv. cbn.
  destruct (Z.eqb_spec cid 0); [done|]. cbn. rewrite lookup_insert_eq.
  split; [done|]. split; [done|]. split; [|split; [|done]].
  - destruct v as [q| |neg]; [|done|done]. split; [done|].
    unfold too_large, Qltb in Hv. apply negb_false_iff in Hv.
    by apply Qle_bool_iff.
  - intros k Hk. by rewrite lookup_insert_ne.
Qed.

Lemma setbaseline_last_write_wins_witness :
  baseline_values
    (fst (setbaseline_value "t2" (Some (Finite (80 # 1))) 42 (Some 1)
            (fst (setbaseline_value "t1" (Some (Finite (70 # 1))) 42 (Some 1)
                    (empty_db Migrated)))))
    !! (42, 1)
  = Some (Baseline (Some (80 # 1)) (Some (80 # 1)) "t2").
Proof.
  apply (setbaseline_last_write_wins "t2" (Finite (80 # 1)) 42 1);
    [reflexivity | lia].
Defined.

(** The bounds check lets NaN through: the conversation ends with the
    baseline stored as NULL. *)
Example setbaseline_nan :
  setbaseline_value "t1" (Some NaN) 42 (Some 1) (empty_db Migrated)
  = (with_baselines {[ (42, 1) := Baseline None None "t1" ]} (empty_db Migrated),
     Ok (BaselineSet NaN)).
Proof. reflexivity. Qed.

(** ** The current challenge *)

Lemma latest_from best rows r :
  foldl keep_latest best rows = Some r ->
  best = Some r \/ r ∈ rows.
Proof.
  revert best. induction rows as [|x rows IH]; intros best; cbn; [by left|].
  intros H. apply IH in H as [H|H]; [|right; by right].
  destruct best as [b|]; cbn in H.
  - repeat case_match; injection H as <-; (by left) || (right; by left).
  - injection H as <-. right. by left.
Qed.

Lemma latest_is_Some best rows :
  is_Some best ->
  is_Some (foldl keep_latest best rows).
Proof.
  revert best. induction rows as [|x rows IH]; intros best [b ->]; cbn; [done|].
  apply IH. cbn. by repeat case_match.
Qed.

Lemma current_row_Some db id c :
  current_row db = Some (id, c) ->
  challenges db !! id = Some c /\ is_current c = true.
Proof.
  intros H. apply latest_from in H as [H|H]; [done|].
  apply list_elem_of_In, filter_In in H as [H Hc].
  by apply list_elem_of_In, elem_of_map_to_list in H.
Qed.

Lemma current_row_None db :
  current_row db = None <->
  forall id c, challenges db !! id = Some c -> is_current c = false.
Proof.
  unfold current_row. split.
  - intros H id c Hc. destruct (is_current c) eqn:Hcur; [|done].
    assert (Hin : In (id, c) (List.filter (fun r => is_current (snd r))
                                (map_to_list (challenges db)))).
    { apply filter_In. split; [|done].
      by apply list_elem_of_In, elem_of_map_to_list. }
    destruct (List.filter _ _) as [|x l]; [done|].
    unfold latest in H. cbn in H.
    by destruct (latest_is_Some (Some x) l) as [? Hl]; [|rewrite Hl in H].
  - intros H.
    assert (Hnil : List.filter (fun r => is_current (snd r))
                     (map_to_list (challenges db)) = []); [|by rewrite Hnil].
    destruct (List.filter _ _) as [|[id c] l] eqn:Hl; [done|].
    assert (Hin : In (id, c) ((id, c) :: l)) by by left.
    rewrite <- Hl in Hin. apply filter_In in Hin as [Hin Hc].
    apply list_elem_of_In, elem_of_map_to_list in Hin.
    cbn in Hc. by rewrite (H id c Hin) in Hc.
Qed.

Lemma get_current_challenge_eq db :
  get_current_challenge db
  = (fun r => select_star (corder db) (fst r) (snd r)) <$> current_row db.
Proof. reflexivity. Qed.

Lemma row_id_select_star o id c : row_id (select_star o id c) = Ok id.
Proof. by destruct o. Qed.

Lemma py_index_select_star o id c i :
  (i < 10)%nat -> exists v, py_index (select_star o id c) i = Ok v.
Proof.
  intros Hi. destruct o; do 10 (destruct i as [|i]; [by eexists|]); lia.
Qed.

Lemma unique_current_alter f id c m :
  m !! id = Some c -> is_current c = true ->
  unique_current m -> unique_current (alter f id m).
Proof.
  intros Hid Hc Hm i j ci cj Hi Hj Hci Hcj.
  destruct (decide (i = id)) as [->|Hne1], (decide (j = id)) as [->|Hne2];
    [done| | |].
  - rewrite lookup_alter_ne in Hj by done. symmetry. by eapply Hm.
  - rewrite lookup_alter_ne in Hi by done. by eapply Hm.
  - rewrite lookup_alter_ne in Hi, Hj by done. by eapply Hm.
Qed.

(** ** The scheduler tick *)

(** What a tick does, read off its branches: it touches only the row of the
    current challenge and the notification table, and it sends at most one
    announcement, for an event of the current challenge that was not marked
    and that it marks. *)
Lemma tick_spec now ts db db' out r :
  check_and_send_notifications now ts db = (db', out, r) ->
  (corder db', challenge_seq db', scores db', baseline_values db', users db')
  = (corder db, challenge_seq db, scores db, baseline_values db, users db)
  /\ match current_row db with
     | None => db' = db /\ out = [] /\ r = Ok ()
     | Some (cid, c) =>
         (exists f, challenges db' = alter f cid (challenges db))
         /\ (out = [] /\ challenge_notifications db' = challenge_notifications db
             \/ exists kind m,
                  out = [Outbound cid kind m]
                  /\ challenge_notifications db !! (cid, kind) = None
                  /\ challenge_notifications db'
                     = <[(cid, kind) := ts]> (challenge_notifications db)
                  /\ r = Ok ()
                  /\ (kind = "final_results"%string ->
                      status <$> challenges db' !! cid = Some (VText "completed")))
     end.
Proof.
  unfold check_and_send_notifications. rewrite get_current_challenge_eq.
  destruct (current_row db) as [[cid c]|] eqn:Hcur; cbn [fmap option_fmap option_map fst snd];
    [|intros [= <- <- <-]; by split].
  apply current_row_Some in Hcur as [Hc Hcurrent].
  rewrite row_id_select_star. cbn [mbind result_bind].
  set (row := select_star (corder db) cid c).
  assert (Hid : forall m : gmap Z challenge, m = alter (fun x => x) cid m).
  { intros m. symmetry. by apply alter_id. }
  destruct (get_challenge_status now (Some row)) as [[st msg]|e];
    [|intros [= <- <- <-]; split; [done|]; split; [by eexists|by left]].
  destruct (py_index_select_star (corder db) cid c 5) as [v5 Hv5]; [lia|].
  destruct (py_index_select_star (corder db) cid c 6) as [v6 Hv6]; [lia|].
  destruct (py_index_select_star (corder db) cid c 1) as [v1 Hv1]; [lia|].
  destruct (py_index_select_star (corder db) cid c 2) as [v2 Hv2]; [lia|].
  fold row in Hv5, Hv6, Hv1, Hv2. rewrite Hv5, Hv1.
  cbn [mbind result_bind fst snd]. cbv beta iota zeta.
  match goal with
  | |- context [has_notification_been_sent cid "start" ?d] => set (db1 := d)
  end.
  assert (Hdb1 : (corder db1, challenge_seq db1, scores db1, baseline_values db1,
                  users db1, challenge_notifications db1)
                 = (corder db, challenge_seq db, scores db, baseline_values db,
                    users db, challenge_notifications db)
                 /\ exists f, challenges db1 = alter f cid (challenges db)).
  { subst db1. case_bool_decide; split; try done; by eexists. }
  clearbody db1. destruct Hdb1 as [Hsame [f Hf]].
  injection Hsame as Ho Hseq Hsc Hb Hu Hn.
  assert (Hunmarked : forall kind,
            has_notification_been_sent cid kind db1 = false ->
            challenge_notifications db !! (cid, kind) = None).
  { intros kind H. unfold has_notification_been_sent in H. rewrite Hn in H.
    apply bool_decide_eq_false_1 in H. by apply eq_None_not_Some. }
  destruct (bool_decide (st = Some "active"%string)
            && negb (has_notification_been_sent cid "start" db1)) eqn:Hstart.
  { apply andb_true_iff in Hstart as [_ Hun%negb_true_iff].
    rewrite Hv6, Hv2. cbn [mbind result_bind].
    destruct (strptime (py_str v5)); cbn;
      [|intros [= <- <- <-]; split; [by rewrite Ho, Hseq, Hsc, Hb, Hu|];
        split; [by eexists|by left]].
    destruct (strptime (py_str v6)); cbn;
      [|intros [= <- <- <-]; split; [by rewrite Ho, Hseq, Hsc, Hb, Hu|];
        split; [by eexists|by left]].
    intros [= <- <- <-]. cbn. split; [by rewrite Ho, Hseq, Hsc, Hb, Hu|].
    split; [by eexists|]. right. eexists _, _. rewrite Hn.
    repeat split; try done. by apply Hunmarked. }
  destruct (bool_decide (st = Some "grace_period"%string)
            && negb (has_notification_been_sent cid "ending" db1)) eqn:Hending.
  { apply andb_true_iff in Hending as [_ Hun%negb_true_iff].
    intros [= <- <- <-]. cbn. split; [by rewrite Ho, Hseq, Hsc, Hb, Hu|].
    split; [by eexists|]. right. eexists _, _. rewrite Hn.
    repeat split; try done. by apply Hunmarked. }
  destruct (bool_decide (st = Some "ended"%string)
            && negb (has_notification_been_sent cid "final_results" db1)) eqn:Hfinal.
  { apply andb_true_iff in Hfinal as [_ Hun%negb_true_iff].
    destruct (final_message db1 cid v1) as [m|e];
      [|intros [= <- <- <-]; split; [by rewrite Ho, Hseq, Hsc, Hb, Hu|];
        split; [by eexists|by left]].
    intros [= <- <- <-]. cbn. split; [by rewrite Ho, Hseq, Hsc, Hb, Hu|].
    rewrite Hf, alter_alter_eq. split; [by eexists|].
    right. eexists _, _. rewrite Hn.
    repeat split; try done; [by apply Hunmarked|].
    intros _. by rewrite lookup_alter_eq, Hc. }
  intros [= <- <- <-]. split; [by rewrite Ho, Hseq, Hsc, Hb, Hu|].
  split; [by eexists|by left].
Qed.

Lemma completed_is_not_current c :
  status c = VText "completed" -> is_current c = false.
Proof. unfold is_current. by intros ->. Qed.

(** The announcements of a tick: none, or one for an unmarked event of the
    current challenge, which the tick marks. *)
Lemma tick_sends now ts db db' out r :
  check_and_send_notifications now ts db = (db', out, r) ->
  out = []
  \/ exists m c,
       out = [m]
       /\ current_row db = Some (about m, c)
       /\ challenge_notifications db !! (about m, event_kind m) = None
       /\ challenge_notifications db' !! (about m, event_kind m) = Some ts
       /\ r = Ok ()
       /\ (event_kind m = "final_results"%string ->
           status <$> challenges db' !! about m = Some (VText "completed")).
Proof.
  intros H. apply tick_spec in H as [_ H].
  destruct (current_row db) as [[cid c]|]; [|left; apply H].
  destruct H as [_ [[-> _]|(kind & m & -> & Hnone & Hn & -> & Hfinal)]];
    [by left|].
  right. exists (Outbound cid kind m), c. cbn.
  rewrite Hn, lookup_insert_eq. by repeat split.
Qed.

(** C4: two ticks in succession at the same time send at most one announcement
    per challenge and event kind.  An announcement is sent only for an event
    whose marker is absent, and the marker is present once the tick is over;
    after the final results the challenge is persisted as "completed", and the
    next tick sends nothing about it and leaves its row alone; when no other
    challenge was current, the next tick changes and sends nothing. *)
Theorem scheduler_tick_twice now ts db :
  let '(db1, out1, r1) := check_and_send_notifications now ts db in
  let '(db2, out2, r2) := check_and_send_notifications now ts db1 in
  (forall cid kind, (sent_for cid kind (out1 ++ out2) <= 1)%nat)
  /\ (forall m, m ∈ out1 ->
        challenge_notifications db !! (about m, event_kind m) = None
        /\ challenge_notifications db1 !! (about m, event_kind m) = Some ts)
  /\ (forall m, m ∈ out2 ->
        challenge_notifications db1 !! (about m, event_kind m) = None
        /\ challenge_notifications db2 !! (about m, event_kind m) = Some ts)
  /\ (forall m, m ∈ out1 -> event_kind m = "final_results"%string ->
        status <$> challenges db1 !! about m = Some (VText "completed")
        /\ (forall m', m' ∈ out2 -> about m' <> about m)
        /\ challenges db2 !! about m = challenges db1 !! about m
        /\ (unique_current (challenges db) ->
            (db2, out2, r2) = (db1, [], Ok ()))).
Proof.
  destruct (check_and_send_notifications now ts db) as [[db1 out1] r1] eqn:H1.
  destruct (check_and_send_notifications now ts db1) as [[db2 out2] r2] eqn:H2.
  pose proof (tick_sends _ _ _ _ _ _ H1) as S1.
  pose proof (tick_sends _ _ _ _ _ _ H2) as S2.
  split; [|split; [|split]].
  - intros cid kind.
    destruct S1 as [->|(m1 & c1 & -> & _ & _ & Hm1 & _)];
      destruct S2 as [->|(m2 & c2 & -> & _ & Hm2 & _)];
      unfold sent_for; cbn; repeat case_match; cbn; try lia.
    repeat match goal with
           | H : _ && _ = true |- _ => apply andb_true_iff in H as [? ?]
           | H : (_ =? _) = true |- _ => apply Z.eqb_eq in H
           | H : String.eqb _ _ = true |- _ => apply String.eqb_eq in H
           end.
    congruence.
  - intros m Hm. destruct S1 as [->|(m1 & c1 & -> & _ & ? & ? & _)];
      [by apply elem_of_nil in Hm|].
    by apply list_elem_of_singleton in Hm as ->.
  - intros m Hm. destruct S2 as [->|(m2 & c2 & -> & _ & ? & ? & _)];
      [by apply elem_of_nil in Hm|].
    by apply list_elem_of_singleton in Hm as ->.
  - intros m Hm Hkind.
    destruct S1 as [->|(m1 & c1 & -> & Hcur1 & _ & _ & _ & Hfinal)];
      [by apply elem_of_nil in Hm|].
    apply list_elem_of_singleton in Hm as ->. specialize (Hfinal Hkind).
    assert (Hnot : forall c, current_row db1 <> Some (about m1, c)).
    { intros c Hc. apply current_row_Some in Hc as [Hc Hcurrent].
      rewrite Hc in Hfinal. injection Hfinal as Hst.
      by rewrite (completed_is_not_current c Hst) in Hcurrent. }
    pose proof (tick_spec _ _ _ _ _ _ H1) as [_ T1].
    pose proof (tick_spec _ _ _ _ _ _ H2) as [_ T2].
    rewrite Hcur1 in T1. destruct T1 as [[f Hf] _].
    split; [done|]. split; [|split].
    + intros m' Hm'.
      destruct S2 as [->|(m2 & c2 & -> & Hcur2 & _)];
        [by apply elem_of_nil in Hm'|].
      apply list_elem_of_singleton in Hm' as ->. intros Heq.
      rewrite Heq in Hcur2. by apply Hnot in Hcur2.
    + destruct (current_row db1) as [[cid2 c2]|] eqn:Hcur2.
      * destruct T2 as [[g ->] _]. apply lookup_alter_ne.
        intros ->. by apply (Hnot c2).
      * by destruct T2 as [-> _].
    + intros Huniq.
      assert (Hnone : current_row db1 = None).
      { apply current_row_None. intros id c Hc.
        destruct (decide (id = about m1)) as [->|Hne].
        - rewrite Hc in Hfinal. injection Hfinal as Hst.
          by apply completed_is_not_current.
        - rewrite Hf, lookup_alter_ne in Hc by done.
          destruct (is_current c) eqn:Hcurrent; [|done].
          apply current_row_Some in Hcur1 as [Hc1 Hcurrent1].
          by destruct Hne; apply (Huniq id (about m1) c c1). }
      rewrite Hnone in T2. by destruct T2 as (-> & -> & ->).
Qed.

Lemma sent_for_app cid kind out1 out2 :
  sent_for cid kind (out1 ++ out2)
  = (sent_for cid kind out1 + sent_for cid kind out2)%nat.
Proof. unfold sent_for. by rewrite List.filter_app, length_app. Qed.

Lemma sent_for_none cid kind out :
  (forall m, m ∈ out -> (about m, event_kind m) <> (cid, kind)) ->
  sent_for cid kind out = 0%nat.
Proof.
  unfold sent_for. induction out as [|m out IH]; intros H; [done|]. cbn.
  destruct ((about m =? cid) && String.eqb (event_kind m) kind) eqn:Hm.
  - apply andb_true_iff in Hm as [Ha%Z.eqb_eq Hk%String.eqb_eq].
    destruct (H m); [by left|]. by rewrite Ha, Hk.
  - apply IH. intros m' Hm'. apply H. by right.
Qed.

Lemma sent_for_singleton cid kind m : (sent_for cid kind [m] <= 1)%nat.
Proof.
  unfold sent_for. cbn.
  destruct ((about m =? cid) && String.eqb (event_kind m) kind); cbn; lia.
Qed.

(** X24: over any run of ticks, at any times, at most one announcement is sent
    per challenge and event kind: markers are only added, every announcement
    is for a key without marker, and its marker is there afterwards. *)
Lemma ticks_send_at_most_once ticks : forall db,
  let '(db', out) := run_ticks ticks db in
  (forall m, m ∈ out ->
     challenge_notifications db !! (about m, event_kind m) = None)
  /\ (forall k, is_Some (challenge_notifications db !! k) ->
                is_Some (challenge_notifications db' !! k))
  /\ (forall cid kind, (sent_for cid kind out <= 1)%nat).
Proof.
  induction ticks as [|[now ts] rest IH]; intros db; cbn.
  - repeat split; [by intros m Hm%elem_of_nil | done | intros; cbn; lia].
  - destruct (check_and_send_notifications now ts db) as [[db1 out1] r1] eqn:H1.
    specialize (IH db1).
    destruct (run_ticks rest db1) as [db2 out2]. destruct IH as (Hnew & Hkeep & Hone).
    pose proof (tick_spec _ _ _ _ _ _ H1) as [_ T1].
    assert (Hcases :
      out1 = [] /\ challenge_notifications db1 = challenge_notifications db
      \/ exists m, out1 = [m]
                   /\ challenge_notifications db !! (about m, event_kind m) = None
                   /\ challenge_notifications db1
                      = <[(about m, event_kind m) := ts]> (challenge_notifications db)).
    { destruct (current_row db) as [[cid c]|].
      - destruct T1 as [_ [[-> ->]|(kind & m & -> & Hnone & -> & _)]];
          [by left|right]. by exists (Outbound cid kind m).
      - destruct T1 as (-> & -> & _). by left. }
    destruct Hcases as [[-> Hn]|(m1 & -> & Hnone & Hn)]; rewrite Hn in *.
    + by repeat split.
    + assert (Hfresh : forall m, m ∈ out2 ->
                (about m, event_kind m) <> (about m1, event_kind m1)).
      { intros m Hm Heq. specialize (Hnew m Hm).
        by rewrite Heq, lookup_insert_eq in Hnew. }
      split; [|split].
      * intros m [->|Hm]%elem_of_cons; [done|].
        specialize (Hnew m Hm). specialize (Hfresh m Hm).
        by rewrite lookup_insert_ne in Hnew.
      * intros k Hk. apply Hkeep.
        destruct (decide ((about m1, event_kind m1) = k)) as [<-|Hne];
          [by rewrite lookup_insert_eq | by rewrite lookup_insert_ne].
      * intros cid kind.
        rewrite (sent_for_app cid kind [m1] out2).
        destruct (decide ((about m1, event_kind m1) = (cid, kind))) as [Heq|Hne].
        -- rewrite (sent_for_none cid kind out2).
           ++ pose proof (sent_for_singleton cid kind m1). lia.
           ++ intros m Hm. rewrite <- Heq. by apply Hfresh.
        -- rewrite (sent_for_none cid kind [m1]).
           ++ apply Hone.
           ++ by intros m ->%list_elem_of_singleton.
Qed.

(** On a row in the declared column order the tick raises as soon as it
    resolves the status: nothing is written and nothing is sent. *)
Lemma tick_raises_on_declared_order now ts db id c :
  corder db = Declared ->
  current_row db = Some (id, c) ->
  is_variant_tag (challenge_type c) ->
  check_and_send_notifications now ts db = (db, [], Raise ValueError).
Proof.
  intros Ho Hcur Hty. unfold check_and_send_notifications.
  rewrite get_current_challenge_eq, Hcur, Ho.
  cbn [fmap option_fmap option_map fst snd].
  rewrite row_id_select_star. cbn [mbind result_bind].
  assert (Hraise : get_challenge_status now (Some (select_star Declared id c))
                   = Raise ValueError); [|by rewrite Hraise].
  eapply get_challenge_status_bad_start; [reflexivity|].
  by destruct Hty as [-> | ->].
Qed.

Example scenario_grace_tick :
  announced (noon (Date 2025 1 6)) "2025-01-06 10:00:00" scenario_db
  = ([Outbound 1 "ending" (ChallengeEndingSoon (VText "Daily steps"))], Ok ()).
Proof. by vm_compute. Qed.

Example scenario_grace_tick_again :
  announced (noon (Date 2025 1 6)) "2025-01-06 10:00:00"
    (run (noon (Date 2025 1 6)) "2025-01-06 10:00:00" scenario_db)
  = ([], Ok ()).
Proof. by vm_compute. Qed.

Example scenario_final_tick :
  let db1 := run (noon (Date 2025 1 6)) "2025-01-06 10:00:00" scenario_db in
  let db2 := run (noon (Date 2025 1 7)) "2025-01-07 10:00:00" db1 in
  announced (noon (Date 2025 1 7)) "2025-01-07 10:00:00" db1
  = ([Outbound 1 "final_results"
        (FinalResults (VText "Daily steps") [(VText "alice", Points 100)]
           (Stats (Some 100) (Some 100) None None None None) 1)], Ok ())
  /\ status <$> challenges db2 !! 1 = Some (VText "completed")
  /\ check_and_send_notifications (noon (Date 2025 1 7)) "2025-01-07 10:00:00" db2
     = (db2, [], Ok ()).
Proof. by vm_compute. Qed.

(** The "start" branch parses [challenge[5]] and [challenge[6]] as dates; in
    the migrated order these are the status and the creator, so the tick
    raises after having persisted the resolved status. *)
Example scenario_start_tick :
  let db0 := with_challenges
               {[ 1 := sample_challenge "2025-01-01" "2025-01-05" "upcoming" ]}
               (with_notifications ∅ scenario_db) in
  announced (noon (Date 2025 1 3)) "2025-01-03 10:00:00" db0
  = ([], Raise ValueError)
  /\ status <$> challenges (run (noon (Date 2025 1 3)) "2025-01-03 10:00:00" db0) !! 1
     = Some (VText "active").
Proof. by vm_compute. Qed.

(** ** Uniqueness of the current challenge *)

Lemma complete_current_not_current c : is_current (complete_current c) = false.
Proof.
  unfold complete_current. destruct (is_current c) eqn:Hc; [|done].
  by apply completed_is_not_current.
Qed.

Lemma unique_current_singleton id c : unique_current {[ id := c ]}.
Proof.
  intros i j ci cj Hi Hj _ _.
  apply lookup_singleton_Some in Hi as [<- _].
  by apply lookup_singleton_Some in Hj as [<- _].
Qed.

Lemma max_id_ge (m : gmap Z challenge) k c : m !! k = Some c -> k <= max_id m.
Proof.
  unfold max_id. revert k c.
  apply (map_fold_weak_ind
           (fun r (m : gmap Z challenge) => forall k c, m !! k = Some c -> k <= r)).
  - intros k c Hk. by rewrite lookup_empty in Hk.
  - intros i x m' r _ IH k c Hk.
    apply lookup_insert_Some in Hk as [[<- _]|[_ Hk]]; [lia|].
    specialize (IH k c Hk). lia.
Qed.

Lemma next_id_fresh db : challenges db !! next_id db = None.
Proof.
  destruct (challenges db !! next_id db) as [c|] eqn:Hc; [|done].
  apply max_id_ge in Hc. unfold next_id in Hc. lia.
Qed.

(** C9, as stated, fails: the administrative status edit writes a challenge
    status and does not preserve the uniqueness.  With one completed and one
    active challenge, setting the completed one to "active" leaves two current
    challenges. *)
Lemma status_edit_breaks_uniqueness :
  unique_current (challenges two_challenges)
  /\ snd (edit_challenge_confirm "y" (Some 1) 5 "active" two_challenges)
     = Ok ChallengeUpdated
  /\ ~ unique_current
         (challenges
            (fst (edit_challenge_confirm "y" (Some 1) 5 "active" two_challenges))).
Proof.
  split; [|split; [reflexivity|]].
  - intros i j ci cj Hi Hj Hci Hcj. cbn in Hi, Hj.
    apply lookup_insert_Some in Hi as [[<- <-]|[_ Hi]]; [done|].
    apply lookup_insert_Some in Hj as [[<- <-]|[_ Hj]]; [done|].
    apply lookup_singleton_Some in Hi as [<- _].
    by apply lookup_singleton_Some in Hj as [<- _].
  - intros H.
    by specialize (H 1 2
                     (sample_challenge "2025-01-01" "2025-01-05" "active")
                     (sample_challenge "2025-02-01" "2025-02-28" "active")
                     eq_refl eq_refl eq_refl eq_refl).
Qed.

(** C9 (amended): creating a challenge first completes every challenge whose
    persisted status is "active", "upcoming" or "grace_period" and then inserts
    the new one as "upcoming", so that afterwards the new challenge is the only
    current one; the scheduler tick and [update_challenge_status] on the
    current challenge preserve that at most one challenge is current.  (The
    administrative edit of the status field gives no such guarantee.) *)
Theorem creation_and_ticks_keep_one_current db :
  (forall ts user_id desc scoring ty tdesc sd ed,
     let db' := fst (start_challenge_confirm ts "y" user_id desc scoring ty
                       tdesc sd ed db) in
     let new_id := challenge_seq db' in
     unique_current (challenges db')
     /\ challenges db !! new_id = None
     /\ status <$> challenges db' !! new_id = Some (VText "upcoming")
     /\ (forall id c, id <> new_id -> challenges db' !! id = Some c ->
                      is_current c = false)
     /\ (forall id c, id <> new_id -> challenges db !! id = Some c ->
                      challenges db' !! id = Some (complete_current c)))
  /\ (unique_current (challenges db) ->
      (forall now ts, unique_current (challenges (run now ts db)))
      /\ (forall id c new_status,
            challenges db !! id = Some c -> is_current c = true ->
            unique_current
              (challenges (update_challenge_status id new_status db)))).
Proof.
  split.
  - intros ts user_id desc scoring ty tdesc sd ed. cbn.
    set (new_id := next_id _).
    assert (Hold : forall id c,
              id <> new_id ->
              (<[new_id := Challenge (VText desc) (VText scoring) (VText ty)
                                (VText tdesc) (VText (isoformat sd))
                                (VText (isoformat ed)) (VText "upcoming")
                                (VInt user_id) (VText ts)]>
                 (complete_current <$> challenges db)) !! id = Some c ->
              is_current c = false).
    { intros id c Hne Hc. rewrite lookup_insert_ne, lookup_fmap in Hc by done.
      destruct (challenges db !! id); [|done]. injection Hc as <-.
      apply complete_current_not_current. }
    split; [|split; [|split; [|split]]].
    + intros i j ci cj Hi Hj Hci Hcj.
      destruct (decide (i = new_id)) as [->|Hi'],
               (decide (j = new_id)) as [->|Hj']; [done| | |].
      * by rewrite (Hold j cj Hj' Hj) in Hcj.
      * by rewrite (Hold i ci Hi' Hi) in Hci.
      * by rewrite (Hold i ci Hi' Hi) in Hci.
    + pose proof (next_id_fresh
                    (with_challenges (complete_current <$> challenges db) db))
        as Hfresh.
      cbn in Hfresh. fold new_id in Hfresh. rewrite lookup_fmap in Hfresh.
      by destruct (challenges db !! new_id).
    + by rewrite lookup_insert_eq.
    + done.
    + intros id c Hne Hc. by rewrite lookup_insert_ne, lookup_fmap, Hc.
  - intros Huniq. split.
    + intros now ts. unfold run.
      destruct (check_and_send_notifications now ts db) as [[db' out] r] eqn:H.
      apply tick_spec in H as [_ H]. cbn.
      destruct (current_row db) as [[cid c]|] eqn:Hcur; [|by destruct H as [-> _]].
      destruct H as [[f ->] _]. apply current_row_Some in Hcur as [Hc Hcurrent].
      by eapply unique_current_alter.
    + intros id c new_status Hc Hcurrent. cbn. by eapply unique_current_alter.
Qed.

Lemma creation_and_ticks_keep_one_current_witness :
  unique_current
    (challenges (run (noon (Date 2025 1 6)) "2025-01-06 10:00:00" scenario_db)).
Proof.
  apply (creation_and_ticks_keep_one_current scenario_db).
  apply unique_current_singleton.
Defined.

Example creation_completes_the_current_challenge :
  let db' := fst (start_challenge_confirm "2025-01-04 08:00:00" "y" 7
                    "Push-ups in February" "1 point per push-up" "points"
                    "Points-based challenge where users earn points for activities"
                    (Date 2025 2 1) (Date 2025 2 28) scenario_db) in
  status <$> challenges db' !! 1 = Some (VText "completed")
  /\ status <$> challenges db' !! 2 = Some (VText "upcoming")
  /\ start_date <$> challenges db' !! 2 = Some (VText "2025-02-01")
  /\ get_current_challenge db'
     = Some [VInt 2; VText "Push-ups in February"; VText "1 point per push-up";
             VText "2025-02-01"; VText "2025-02-28"; VText "upcoming"; VInt 7;
             VText "2025-01-04 08:00:00"; VText "points";
             VText "Points-based challenge where users earn points for activities"].
Proof. by vm_compute. Qed.

(** ** The average per active player *)

(** C10, as stated, fails: with totals 1 and 2 the mean is 3/2 and the
    statistic is 2, because the code rounds the average. *)
Lemma average_is_rounded :
  let db := scores_db [Score.Row 10 (Date 2025 1 2) 1 1;
                       Score.Row 11 (Date 2025 1 2) 2 1] in
  avg_points_per_player_of db 1 = Some 2
  /\ (mean_total db 1 (active_players db 1) == 3 # 2)%Q
  /\ ~ statistic_is_mean db 1.
Proof. by vm_compute. Qed.

Lemma filter_map_comm {A B} (f : A -> B) (p : B -> bool) (l : list A) :
  List.filter p (map f l) = map f (List.filter (fun x => p (f x)) l).
Proof.
  induction l as [|x l IH]; cbn; [done|].
  destruct (p (f x)); cbn; by rewrite IH.
Qed.

Lemma positive_totals_eq db cid :
  positive_totals db cid
  = map (participant_total db cid) (active_players db cid).
Proof.
  unfold positive_totals, group_by_user, active_players, participants.
  rewrite map_map. cbn. apply (filter_map_comm (participant_total db cid)).
Qed.

Lemma inject_Z_positive t : 0 < t -> (0 < inject_Z t)%Q.
Proof. unfold Qlt. cbn. lia. Qed.

Lemma Qsum_positive (l : list Z) :
  l <> [] -> Forall (fun t => 0 < t) l -> (0 < Qsum (map inject_Z l))%Q.
Proof.
  intros Hne Hall. induction Hall as [|t l Ht Hall IH]; [done|]. cbn.
  assert (H0 : (0 < inject_Z t)%Q) by by apply inject_Z_positive.
  destruct l as [|t' l].
  - cbn. by rewrite Qplus_0_r.
  - assert (IH' : (0 < Qsum (map inject_Z (t' :: l)))%Q) by by apply IH.
    exact (Qplus_lt_le_compat 0 _ 0 _ H0 (Qlt_le_weak _ _ IH')).
Qed.

Lemma mean_of_positive_is_not_zero (l : list Z) :
  l <> [] -> Forall (fun t => 0 < t) l ->
  Qeq_bool (Qsum (map inject_Z l) / inject_Z (Z.of_nat (length (map inject_Z l)))) 0
  = false.
Proof.
  intros Hne Hall. apply not_true_is_false. intros H%Qeq_bool_iff.
  pose proof (Qsum_positive l Hne Hall) as Hsum.
  assert (Hlen : (0 < inject_Z (Z.of_nat (length (map inject_Z l))))%Q).
  { apply inject_Z_positive. rewrite length_map. destruct l; [done|cbn; lia]. }
  assert (Hpos : (0 < Qsum (map inject_Z l)
                      / inject_Z (Z.of_nat (length (map inject_Z l))))%Q).
  { apply Qlt_shift_div_l; [done|]. by rewrite Qmult_0_l. }
  rewrite H in Hpos. by apply Qlt_irrefl in Hpos.
Qed.

(** [round] gives a nearest integer. *)
Lemma py_round_nearest q :
  (inject_Z (py_round q) - (1 # 2) <= q)%Q
  /\ (q <= inject_Z (py_round q) + (1 # 2))%Q.
Proof.
  unfold py_round, Qltb.
  pose proof (Qfloor_le q) as Hlo. pose proof (Qlt_floor q) as Hhi.
  set (f := Qfloor q) in *.
  assert (Hf1 : inject_Z (f + 1) = (inject_Z f + 1)%Q) by apply inject_Z_plus.
  rewrite Hf1 in Hhi.
  destruct (Qle_bool (1 # 2) (q - inject_Z f)) eqn:H1; cbn [negb].
  - apply Qle_bool_iff in H1.
    destruct (Qle_bool (q - inject_Z f) (1 # 2)) eqn:H2; cbn [negb].
    + apply Qle_bool_iff in H2.
      destruct (Z.even f); [|rewrite Hf1]; split; lra.
    + rewrite Hf1. split; lra.
  - assert (H1' : ~ (1 # 2 <= q - inject_Z f)%Q)
      by (intros H%Qle_bool_iff; by rewrite H in H1).
    split; lra.
Qed.

Lemma active_players_spec db cid u :
  u ∈ active_players db cid
  <-> u ∈ participants db cid /\ 0 < participant_total db cid u.
Proof.
  unfold active_players. rewrite !list_elem_of_In, filter_In.
  by rewrite Z.ltb_lt.
Qed.

(** C10 (amended): the average-points-per-active-player statistic is the mean
    of the per-participant point totals over the participants whose total is
    strictly positive, rounded to a nearest integer (ties to the even one);
    participants whose total is zero or negative count neither in the sum nor
    in the number of players, and the statistic is absent when no participant
    has a positive total. *)
Theorem avg_points_per_player_rounded_mean db cid :
  avg_points_per_player_of db cid
  = match active_players db cid with
    | [] => None
    | players => Some (py_round (mean_total db cid players))
    end
  /\ (forall u, u ∈ active_players db cid
               <-> u ∈ participants db cid /\ 0 < participant_total db cid u)
  /\ (forall a, avg_points_per_player_of db cid = Some a ->
        let mean := mean_total db cid (active_players db cid) in
        (inject_Z a - (1 # 2) <= mean)%Q /\ (mean <= inject_Z a + (1 # 2))%Q).
Proof.
  assert (Heq : avg_points_per_player_of db cid
                = match active_players db cid with
                  | [] => None
                  | players => Some (py_round (mean_total db cid players))
                  end).
  { unfold avg_points_per_player_of. rewrite positive_totals_eq.
    assert (Hpos : Forall (fun t => 0 < t)
                     (map (participant_total db cid) (active_players db cid))).
    { apply Forall_map, Forall_forall. intros u Hu.
      by apply active_players_spec in Hu as [_ Hu]. }
    destruct (active_players db cid) as [|u players]; [done|].
    unfold sql_avg. cbn [map].
    pose proof (mean_of_positive_is_not_zero
                  (map (participant_total db cid) (u :: players))) as Hnz.
    cbn [map] in Hnz. rewrite Hnz by done.
    unfold mean_total. cbn [map length]. by rewrite map_map, !length_map. }
  split; [done|]. split; [apply active_players_spec|].
  intros a Ha. rewrite Heq in Ha.
  destruct (active_players db cid) as [|u players]; [done|].
  injection Ha as <-. apply py_round_nearest.
Qed.

(** The example of the specification: totals 100, 0 and -5 average to 100. *)
Example average_excludes_zero_and_negative :
  avg_points_per_player_of
    (scores_db [Score.Row 10 (Date 2025 1 2) 100 1;
                Score.Row 11 (Date 2025 1 2) 0 1;
                Score.Row 12 (Date 2025 1 2) 5 1;
                Score.Row 12 (Date 2025 1 3) (-10) 1]) 1
  = Some 100.
Proof. by vm_compute. Qed.

(** ** Distribution of a submitted total over the dates *)

Lemma sum_points_inserted user_id ds points_per_day cid :
  sum_points (map (fun d => Score.Row user_id d points_per_day cid) ds)
  = Z.of_nat (length ds) * points_per_day.
Proof. induction ds as [|d ds IH]; cbn [map sum_points foldr length]; [lia|].
  fold (sum_points (map (fun d => Score.Row user_id d points_per_day cid) ds)).
  rewrite IH. cbn [Score.points]. lia.
Qed.

Lemma dates_of_days_Some now days ds :
  dates_of_days now days = Some ds ->
  ds = map (Date (year (dt_date now)) (month (dt_date now))) days.
Proof.
  intros H. apply mapM_Some_1 in H.
  induction H as [|x d l k Hxd _ IH]; [done|]. cbn. f_equal; [|done].
  unfold make_date in Hxd. destruct (valid_date _ _ x); [|done].
  by injection Hxd.
Qed.

Lemma add_score_points_accepted T dates ppd :
  add_score_points (Some T) dates = PointsAccepted T ppd ->
  0 < T <= 1000000 /\ dates <> []
  /\ ppd = T / Z.of_nat (length dates) /\ ppd <= 100000.
Proof.
  unfold add_score_points. repeat case_cmp; try done;
    (destruct dates as [|d dates]; [done|]); try done.
  intros [= <-]. repeat split; done || lia.
Qed.

Lemma sum_points_app l1 l2 : sum_points (l1 ++ l2) = sum_points l1 + sum_points l2.
Proof.
  induction l1 as [|s l1 IH]; [done|]. cbn [app sum_points foldr].
  fold (sum_points (l1 ++ l2)). fold (sum_points l1). lia.
Qed.

Lemma sum_points_cons s l : sum_points (s :: l) = Score.points s + sum_points l.
Proof. done. Qed.

(** C7, as stated, fails: a submission that passes the bounds checks is not
    written when the challenge does not accept entries at the time of the
    confirmation, here before its start; nor when one of the days does not
    exist in the current month, here the 31st in April, where the handler
    raises and the rows of the earlier days are not committed. *)
Lemma add_score_not_always_written :
  (add_score_points (Some 50) [3] = PointsAccepted 50 50
   /\ add_score_confirm (noon (Date 2025 1 7)) "y" 42 [3] 50 upcoming_db
      = (upcoming_db, Ok (CannotAddScores (Some "Starts in 2 days")))
   /\ ~ distributes (noon (Date 2025 1 7)) upcoming_db 42 [3] 50)
  /\ (add_score_points (Some 10) [30; 31] = PointsAccepted 10 5
      /\ add_score_confirm (noon (Date 2025 4 10)) "y" 42 [30; 31] 5 april_db
         = (april_db, Raise ValueError)
      /\ ~ distributes (noon (Date 2025 4 10)) april_db 42 [30; 31] 10).
Proof.
  split; (split; [by vm_compute|]; split; [by vm_compute|]).
  - intros H. destruct (H 50 eq_refl) as [cid Hw]. vm_compute in Hw.
    discriminate Hw.
  - intros H. destruct (H 5 eq_refl) as [cid Hw]. vm_compute in Hw.
    discriminate Hw.
Qed.

(** C7 (amended): a total [T] submitted over [N] dates that passes the bounds
    checks is distributed as [T / N] points per day (floor division).  When
    the confirmation is made while the current challenge resolves to "active"
    or "grace_period" and every day exists in the current month, the
    operation appends exactly one row of [T / N] points for each of the [N]
    dates, in order, to the scores and changes nothing else; the sum written
    is [N * (T / N)], which falls short of [T] by the remainder [T mod N].  In
    every other case a confirmation leaves the database as it was. *)
Theorem add_score_distribution now db user_id dates T ppd :
  add_score_points (Some T) dates = PointsAccepted T ppd ->
  let N := Z.of_nat (length dates) in
  let db' := fst (add_score_confirm now "y" user_id dates ppd db) in
  let accepting :=
    exists st msg,
      get_challenge_status now (get_current_challenge db) = Ok (Some st, msg)
      /\ (st = "active"%string \/ st = "grace_period"%string) in
  (ppd = T / N /\ 0 < N /\ N * (T / N) = T - T mod N /\ N * (T / N) <= T)
  /\ (accepting -> is_Some (dates_of_days now dates) ->
      exists cid,
        row_id <$> get_current_challenge db = Some (Ok cid)
        /\ snd (add_score_confirm now "y" user_id dates ppd db) = Ok PointsAdded
        /\ scores db'
           = scores db
             ++ map (fun d => Score.Row user_id
                                (Date (year (dt_date now)) (month (dt_date now)) d)
                                (T / N) cid) dates
        /\ length (scores db') = (length (scores db) + length dates)%nat
        /\ sum_points (scores db') = sum_points (scores db) + N * (T / N)
        /\ (challenges db', baseline_values db', users db',
            challenge_notifications db')
           = (challenges db, baseline_values db, users db,
              challenge_notifications db))
  /\ (~ (accepting /\ is_Some (dates_of_days now dates)) -> db' = db).
Proof.
  intros Hacc N db' accepting.
  apply add_score_points_accepted in Hacc as (HT & Hne & -> & _).
  assert (HN : 0 < N) by (subst N; destruct dates; [done|cbn; lia]).
  split; [|split].
  - fold N. pose proof (Z.div_mod T N). pose proof (Z.mod_pos_bound T N).
    repeat split; lia.
  - intros (st & msg & Hst & Hphase) [ds Hds].
    rewrite get_current_challenge_eq in Hst.
    destruct (current_row db) as [[cid c]|] eqn:Hcur; [|done].
    cbn [fmap option_fmap option_map fst snd] in Hst.
    assert (Hrun : add_score_confirm now "y" user_id dates (T / N) db
                   = (with_scores
                        (insert_scores user_id ds (T / N) cid (scores db)) db,
                      Ok PointsAdded)).
    { unfold add_score_confirm. cbn [String.eqb Ascii.eqb Bool.eqb].
      rewrite get_current_challenge_eq, Hcur.
      cbn [fmap option_fmap option_map fst snd]. rewrite Hst.
      assert (Hallow : status_allows_entry (Some st) = true).
      { by destruct Hphase as [-> | ->]. }
      rewrite Hallow. cbn [negb]. by rewrite row_id_select_star, Hds. }
    exists cid. subst db'. fold N. rewrite Hrun. cbn [fst snd with_scores scores].
    unfold insert_scores. rewrite (dates_of_days_Some _ _ _ Hds), map_map.
    rewrite get_current_challenge_eq, Hcur.
    cbn [fmap option_fmap option_map fst snd]. rewrite row_id_select_star.
    repeat split.
    + by rewrite length_app, length_map.
    + rewrite sum_points_app. f_equal.
      rewrite <- (map_map (Date (year (dt_date now)) (month (dt_date now)))
                    (fun d => Score.Row user_id d (T / N) cid)).
      by rewrite sum_points_inserted, length_map.
  - intros Hnot. subst db'. fold N. unfold add_score_confirm.
    cbn [String.eqb Ascii.eqb Bool.eqb].
    destruct (get_current_challenge db) as [row|] eqn:Hrow; [|done].
    destruct (get_challenge_status now (Some row)) as [[st msg]|e] eqn:Hst;
      [|done].
    destruct (status_allows_entry st) eqn:Hallow; [|done]. cbn [negb].
    destruct (row_id row) as [cid|e]; [|done].
    destruct (dates_of_days now dates) as [ds|] eqn:Hds; [|done].
    destruct Hnot. split; [|by eexists].
    unfold status_allows_entry in Hallow.
    apply bool_decide_eq_true_1 in Hallow.
    apply elem_of_cons in Hallow as [->|Hallow].
    + exists "active"%string, msg. split; [done|by left].
    + apply list_elem_of_singleton in Hallow as ->.
      exists "grace_period"%string, msg. split; [done|by right].
Qed.

Lemma add_score_distribution_witness :
  exists cid,
    scores (fst (add_score_confirm (noon (Date 2025 1 4)) "y" 42 [1; 2; 3] 3
                   scenario_db))
    = scores scenario_db
      ++ [Score.Row 42 (Date 2025 1 1) 3 cid;
          Score.Row 42 (Date 2025 1 2) 3 cid;
          Score.Row 42 (Date 2025 1 3) 3 cid].
Proof.
  destruct (add_score_distribution (noon (Date 2025 1 4)) scenario_db 42
              [1; 2; 3] 10 3) as (_ & H & _); [reflexivity|].
  destruct H as (cid & _ & _ & H & _).
  - exists "active"%string, (Some "Active \- 1 day remaining\!"%string).
    split; [reflexivity|by left].
  - by eexists.
  - exists cid. exact H.
Defined.

(** The example of the specification: 10 points over 3 dates. *)
Example ten_over_three :
  add_score_points (Some 10) [1; 2; 3] = PointsAccepted 10 3
  /\ sum_points
       (scores (fst (add_score_confirm (noon (Date 2025 1 4)) "y" 43 [1; 2; 3] 3
                       scenario_db)))
     = 100 + 9.
Proof. by vm_compute. Qed.

(** ** Percent change and the zero baseline *)

Lemma elem_of_filter_bool {A} (f : A -> bool) (l : list A) x :
  x ∈ List.filter f l <-> x ∈ l /\ f x = true.
Proof. by rewrite !list_elem_of_In, filter_In. Qed.

Lemma elem_of_insert_desc {A} (key : A -> Q) (x y : A) l :
  y ∈ insert_desc key x l <-> y = x \/ y ∈ l.
Proof.
  induction l as [|z l IH]; cbn.
  - rewrite list_elem_of_singleton, elem_of_nil. tauto.
  - destruct (Qltb (key x) (key z)); rewrite !elem_of_cons; [rewrite IH|];
      tauto.
Qed.

Lemma elem_of_order_by_desc {A} (key : A -> Q) (l : list A) x :
  x ∈ order_by_desc key l <-> x ∈ l.
Proof.
  induction l as [|y l IH]; cbn; [done|].
  rewrite elem_of_insert_desc, elem_of_cons. unfold order_by_desc in IH.
  by rewrite IH.
Qed.

(** [order_by_desc] reorders its input, and in descending order of the key. *)
Lemma insert_desc_perm {A} (key : A -> Q) x l : insert_desc key x l ≡ₚ x :: l.
Proof.
  induction l as [|y l IH]; cbn; [done|].
  destruct (Qltb (key x) (key y)); [|done].
  rewrite IH. apply Permutation_swap.
Qed.

Lemma order_by_desc_perm {A} (key : A -> Q) l : order_by_desc key l ≡ₚ l.
Proof.
  induction l as [|x l IH]; cbn; [done|].
  rewrite insert_desc_perm. by f_equiv.
Qed.

Lemma insert_desc_sorted {A} (key : A -> Q) x l :
  Sorted (fun a b => (key b <= key a)%Q) l ->
  Sorted (fun a b => (key b <= key a)%Q) (insert_desc key x l).
Proof.
  induction 1 as [|y l Hl IH Hhd]; cbn; [by repeat constructor|].
  unfold Qltb. destruct (Qle_bool (key y) (key x)) eqn:Hle; cbn [negb].
  - constructor; [by constructor|]. constructor. by apply Qle_bool_iff.
  - assert (Hlt : (key x < key y)%Q).
    { apply Qnot_le_lt. intros H%Qle_bool_iff. by rewrite H in Hle. }
    constructor; [done|].
    destruct Hhd as [|z l Hz]; cbn.
    + constructor. by apply Qlt_le_weak.
    + destruct (Qltb (key x) (key z)); constructor;
        [done | by apply Qlt_le_weak].
Qed.

Lemma order_by_desc_sorted {A} (key : A -> Q) l :
  Sorted (fun a b => (key b <= key a)%Q) (order_by_desc key l).
Proof.
  induction l as [|x l IH]; cbn; [constructor|]. by apply insert_desc_sorted.
Qed.

Example py_round_ties :
  map py_round [1 # 2; 3 # 2; 5 # 2; 7 # 2; -5 # 2; 9 # 4; 11 # 4]
  = [0; 2; 2; 4; -2; 2; 3].
Proof. reflexivity. Qed.

(** A limited, ordered query only returns rows of its candidates. *)
Lemma elem_of_limit_order {A} (key : A -> Q) (l : list A) n x :
  x ∈ take n (order_by_desc key l) -> x ∈ l.
Proof.
  intros H. apply elem_of_take in H as (i & H & _).
  apply elem_of_order_by_desc with key. by eapply list_elem_of_lookup_2.
Qed.


(** *** Ordered queries with a limit *)

Lemma StronglySorted_weaken {A} (R R' : A -> A -> Prop) l :
  (forall a b, R a b -> R' a b) -> StronglySorted R l -> StronglySorted R' l.
Proof.
  intros H. induction 1 as [|x l Hl IH Hx]; constructor; [done|].
  eapply Forall_impl; [done|]. intros y Hy. by apply H.
Qed.

Lemma order_by_desc_StronglySorted {A} (key : A -> Q) l :
  StronglySorted (fun a b => (key b <= key a)%Q) (order_by_desc key l).
Proof.
  apply Sorted.Sorted_StronglySorted; [|apply order_by_desc_sorted].
  intros x y z Hxy Hyz. by eapply Qle_trans.
Qed.

(** The first [n] rows of an ordered query: at most [n], in descending order
    of the key, and a candidate that is left out has a key not above any of
    theirs, the list being full. *)
Lemma limit_order_spec {A} (key : A -> Q) (l : list A) n :
  (length (take n (order_by_desc key l)) <= n)%nat
  /\ StronglySorted (fun a b => (key b <= key a)%Q) (take n (order_by_desc key l))
  /\ forall x, x ∈ l ->
       x ∈ take n (order_by_desc key l)
       \/ (length (take n (order_by_desc key l)) = n
           /\ forall y, y ∈ take n (order_by_desc key l) -> (key x <= key y)%Q).
Proof.
  pose proof (order_by_desc_StronglySorted key l) as Hs.
  rewrite <- (take_drop n (order_by_desc key l)) in Hs.
  split; [rewrite length_take; lia|].
  split; [by apply StronglySorted_app_1_l in Hs|].
  intros x Hx. apply (elem_of_order_by_desc key) in Hx.
  rewrite <- (take_drop n (order_by_desc key l)) in Hx.
  apply elem_of_app in Hx as [Hx|Hx]; [by left|right]. split.
  - rewrite length_take. destruct (decide (n <= length (order_by_desc key l))%nat);
      [lia|].
    rewrite drop_ge in Hx by lia. by apply elem_of_nil in Hx.
  - intros y Hy. by apply (StronglySorted_app_1_elem_of _ _ _ _ _ Hs).
Qed.




Lemma elem_of_order_by_desc_nullable {A} (key : A -> option Q) l x :
  x ∈ order_by_desc_nullable key l <-> x ∈ l.
Proof.
  unfold order_by_desc_nullable.
  rewrite elem_of_app, elem_of_order_by_desc, !elem_of_filter_bool.
  destruct (is_null (key x)); cbn; tauto.
Qed.

Lemma elem_of_order_by_asc_nullable {A} (key : A -> option Q) l x :
  x ∈ order_by_asc_nullable key l <-> x ∈ l.
Proof.
  unfold order_by_asc_nullable.
  rewrite elem_of_app, elem_of_order_by_desc, !elem_of_filter_bool.
  destruct (is_null (key x)); cbn; tauto.
Qed.



(** *** Percent changes *)

Lemma Qltb_lt a b : Qltb a b = true <-> (a < b)%Q.
Proof.
  unfold Qltb. rewrite negb_true_iff. split.
  - intros H. apply Qnot_le_lt. intros Hle%Qle_bool_iff. by rewrite Hle in H.
  - intros H. apply not_true_iff_false. intros Hle%Qle_bool_iff.
    by apply Qlt_not_le in H.
Qed.

Lemma Qabs_positive b : ~ (b == 0)%Q -> (0 < Qabs b)%Q.
Proof.
  intros Hb. destruct (Qlt_le_dec 0 b) as [H|H].
  - rewrite Qabs_pos; [done|]. by apply Qlt_le_weak.
  - rewrite Qabs_neg by done.
    destruct (Qlt_le_dec b 0) as [H'|H']; [lra|].
    destruct Hb. by apply Qle_antisym.
Qed.

Lemma Qeq_bool_Qabs b : Qeq_bool (Qabs b) 0 = Qeq_bool b 0.
Proof.
  destruct (Qeq_bool b 0) eqn:Hb.
  - apply Qeq_bool_iff in Hb. apply Qeq_bool_iff. by rewrite Hb.
  - apply not_true_iff_false. intros H%Qeq_bool_iff.
    apply not_true_iff_false in Hb. apply Hb, Qeq_bool_iff.
    destruct (Qeq_dec b 0) as [|Hne]; [done|].
    apply Qabs_positive in Hne. rewrite H in Hne. by apply Qlt_irrefl in Hne.
Qed.


Lemma nonzero_baseline_true r :
  nonzero_baseline r = true
  <-> exists b, baseline_value (snd r) = Some b /\ ~ (b == 0)%Q.
Proof.
  unfold nonzero_baseline. destruct (baseline_value (snd r)) as [b|].
  - rewrite negb_true_iff, <- not_true_iff_false, Qeq_bool_iff. split.
    + intros H. by exists b.
    + by intros (b' & [= <-] & H).
  - split; [done|]. by intros (b & ? & _).
Qed.

Lemma nonzero_baseline_iff r :
  nonzero_baseline r = true <-> is_Some (baseline_value (snd r)) /\ ~ zero_baseline r.
Proof.
  rewrite nonzero_baseline_true. unfold zero_baseline. split.
  - intros (b & Hb & Hne). split; [by eexists|].
    intros (b' & Hb' & H0). rewrite Hb in Hb'. by injection Hb' as <-.
  - intros [[b Hb] Hz]. exists b. split; [done|]. intros H0. apply Hz. by exists b.
Qed.

Lemma percent_change_value bl b c :
  baseline_value bl = Some b -> current_value bl = Some c -> ~ (b == 0)%Q ->
  percent_change bl = Some (((c - b) / Qabs b) * 100)%Q.
Proof.
  intros Hb Hc Hne. unfold percent_change. rewrite Hb, Hc, Qeq_bool_Qabs.
  destruct (Qeq_bool b 0) eqn:H0; [|done]. by apply Qeq_bool_iff in H0.
Qed.

(** The percent change of a row is NULL exactly when a cell is NULL or the
    baseline is 0. *)
Lemma percent_change_is_Some bl :
  is_Some (percent_change bl)
  <-> exists b c, baseline_value bl = Some b /\ current_value bl = Some c
                  /\ ~ (b == 0)%Q.
Proof.
  split.
  - unfold percent_change. intros [q H].
    destruct (baseline_value bl) as [b|]; [|done].
    destruct (current_value bl) as [c|]; [|done].
    rewrite Qeq_bool_Qabs in H. destruct (Qeq_bool b 0) eqn:H0; [done|].
    exists b, c. repeat split. intros Hz%Qeq_bool_iff. by rewrite Hz in H0.
  - intros (b & c & Hb & Hc & Hne). rewrite (percent_change_value bl b c) by done.
    by eexists.
Qed.



(** A gain has a positive and a loss a negative percent change. *)
Lemma percent_change_sign r :
  nonzero_baseline r = true ->
  (gained r = true -> exists q, percent_change (snd r) = Some q /\ (0 < q)%Q)
  /\ (lost r = true -> exists q, percent_change (snd r) = Some q /\ (q < 0)%Q).
Proof.
  intros (b & Hb & Hne)%nonzero_baseline_true.
  pose proof (Qabs_positive b Hne) as Hpos.
  assert (Hinv : (0 < / Qabs b)%Q) by by apply Qinv_lt_0_compat.
  split; intros H.
  - unfold gained in H. rewrite Hb in H.
    destruct (current_value (snd r)) as [c|] eqn:Hc; [|done].
    apply Qltb_lt in H. eexists. split; [by apply percent_change_value|].
    unfold Qdiv.
    assert (H1 : (0 < (c - b) * / Qabs b)%Q)
      by (apply Qmult_lt_0_compat; [lra|done]).
    lra.
  - unfold lost in H. rewrite Hb in H.
    destruct (current_value (snd r)) as [c|] eqn:Hc; [|done].
    apply Qltb_lt in H. eexists. split; [by apply percent_change_value|].
    unfold Qdiv.
    assert (H1 : (0 < (b - c) * / Qabs b)%Q)
      by (apply Qmult_lt_0_compat; [lra|done]).
    lra.
Qed.

(** *** The queries *)

Lemma elem_of_gains_query db cid n jr :
  jr ∈ gains_query db cid n -> jr ∈ gains_candidates db cid.
Proof.
  intros H. apply elem_of_take in H as (i & H & _).
  apply (elem_of_order_by_desc_nullable pct). by eapply list_elem_of_lookup_2.
Qed.

Lemma elem_of_losses_query db cid n jr :
  jr ∈ losses_query db cid n -> jr ∈ losses_candidates db cid.
Proof.
  intros H. apply elem_of_take in H as (i & H & _).
  apply (elem_of_order_by_asc_nullable pct). by eapply list_elem_of_lookup_2.
Qed.













Example change_statistics :
  get_challenge_stats change_db 1
  = Stats None None None
      (Some [(VText "alice", Some ((-4 # 80) * 100)%Q)])
      (Some (((-4 # 80) * 100 + 0) / 1)%Q)
      (Some (VText "alice", Some (80 # 1), Some (76 # 1),
             Some (Qabs ((-4 # 80) * 100)))%Q).
Proof. by vm_compute. Qed.



(** When the only participant with a baseline has a NULL current value, the
    biggest change of the statistics is returned with a NULL change. *)
Example biggest_change_can_be_null :
  let db := with_baselines
              {[ (43, 1) := Baseline (Some (90 # 1)) None "2025-01-12 09:00:00" ]}
              null_current_db in
  exists v b, biggest_change (get_challenge_stats db 1) = Some (v, b, None, None).
Proof. by repeat eexists. Qed.


(** ** The status check of the mutations *)

(** X25: [add_score_confirm] writes only when the current challenge resolves,
    at the time of the call, to "active" or "grace_period". *)
Lemma add_score_confirm_checks_status now response user_id dates ppd db :
  fst (add_score_confirm now response user_id dates ppd db) <> db ->
  exists row st msg,
    get_current_challenge db = Some row
    /\ get_challenge_status now (Some row) = Ok (Some st, msg)
    /\ (st = "active"%string \/ st = "grace_period"%string).
Proof.
  unfold add_score_confirm.
  destruct (String.eqb response "y"); [|by destruct (String.eqb response "n")].
  destruct (get_current_challenge db) as [row|] eqn:Hrow; [|done].
  destruct (get_challenge_status now (Some row)) as [[st msg]|e] eqn:Hres;
    [|done].
  destruct (status_allows_entry st) eqn:Hst; [|done]. cbn [negb].
  intros _. unfold status_allows_entry in Hst.
  apply bool_decide_eq_true_1 in Hst.
  apply elem_of_cons in Hst as [->|Hst].
  - exists row, "active"%string, msg. split; [done|]. split; [done|]. by left.
  - apply list_elem_of_singleton in Hst as ->.
    exists row, "grace_period"%string, msg. split; [done|]. split; [done|].
    by right.
Qed.

(** [edit_score_confirm] and [remove_score_confirm] do not consult the
    resolver: with a persisted current challenge and days that exist in the
    current month they write, whatever the challenge resolves to. *)
Lemma edit_score_confirm_writes now user_id dates ppd db cid c ds :
  current_row db = Some (cid, c) ->
  dates_of_days now dates = Some ds ->
  edit_score_confirm now "y" user_id dates ppd db
  = (with_scores
       (if 0 <? ppd
        then insert_scores user_id ds ppd cid
               (delete_scores user_id ds cid (scores db))
        else delete_scores user_id ds cid (scores db)) db,
     Ok PointsUpdated).
Proof.
  intros Hcur Hds. unfold edit_score_confirm. cbn [String.eqb Ascii.eqb Bool.eqb].
  rewrite get_current_challenge_eq, Hcur. cbn [fmap option_fmap option_map fst snd].
  by rewrite row_id_select_star, Hds.
Qed.

Lemma remove_score_confirm_writes now user_id dates db cid c ds :
  current_row db = Some (cid, c) ->
  dates_of_days now dates = Some ds ->
  fst (remove_score_confirm now "y" user_id dates db)
  = with_scores (delete_scores user_id ds cid (scores db)) db.
Proof.
  intros Hcur Hds. unfold remove_score_confirm. cbn [String.eqb Ascii.eqb Bool.eqb].
  rewrite get_current_challenge_eq, Hcur. cbn [fmap option_fmap option_map fst snd].
  by rewrite row_id_select_star, Hds.
Qed.

(** C2 does not hold of the code: on 7 January the challenge of [upcoming_db]
    resolves to "upcoming"; adding a score is rejected and writes nothing, but
    editing and removing scores go through, and so do setting a baseline and
    updating the current value with the challenge id of the session. *)
Theorem mutations_before_the_start :
  let now := noon (Date 2025 1 7) in
  resolved_status now <$> get_current_challenge upcoming_db
  = Some (Some "upcoming")
  /\ add_score_confirm now "y" 42 [3] 50 upcoming_db
     = (upcoming_db, Ok (CannotAddScores (Some "Starts in 2 days")))
  /\ edit_score_confirm now "y" 42 [3] 50 upcoming_db
     = (with_scores [Score.Row 42 (Date 2025 1 3) 50 1] upcoming_db,
        Ok PointsUpdated)
  /\ remove_score_confirm now "y" 42 [3] upcoming_db
     = (with_scores [] upcoming_db, Ok (Removed 1))
  /\ (let '(db', r) := setbaseline_value "2025-01-07 10:00:00"
                         (Some (Finite (70 # 1))) 42 (Some 1) upcoming_db in
      r = Ok (BaselineSet (Finite (70 # 1)))
      /\ baseline_values db' !! (42, 1)
         = Some (Baseline (Some (70 # 1)) (Some (70 # 1)) "2025-01-07 10:00:00")
      /\ (current_value
            <$> baseline_values
                  (fst (updatevalue_value "2025-01-07 11:00:00"
                          (Some (Finite (65 # 1))) 42
                          (Some 1) (Some (70 # 1)) db')) !! (42, 1))
         = Some (Some (65 # 1))).
Proof. by vm_compute. Qed.

(** * Further properties *)

(** ** Creating a challenge: from the period to the resolver *)

Lemma strptime_dmY_valid s d :
  strptime_dmY s = Some d -> valid_date (year d) (month d) (day d) = true.
Proof.
  unfold strptime_dmY. intros H.
  repeat (case_match; try done). by eapply make_date_valid.
Qed.

(** X1: [start_challenge_period] accepts a text only when it splits at a
    single " to " into two dates that exist and parse as day/month/year, with
    the start date strictly before the end date and at most 365 days after
    today; so the active phase of what it accepts lasts at least two days. *)
Theorem start_challenge_period_accepted today text sd ed :
  start_challenge_period today text = PeriodAccepted sd ed ->
  (exists start_str end_str,
     py_split " to " (py_strip text) = [start_str; end_str]
     /\ strptime_dmY (py_strip start_str) = Some sd
     /\ strptime_dmY (py_strip end_str) = Some ed)
  /\ valid_date (year sd) (month sd) (day sd) = true
  /\ valid_date (year ed) (month ed) (day ed) = true
  /\ toordinal sd < toordinal ed
  /\ toordinal sd <= toordinal today + 365
  /\ end_instant ed - start_instant sd >= timedelta 2 0 - timedelta 0 1.
Proof.
  unfold start_challenge_period.
  destruct (py_in " to " (py_strip text)); [|done].
  destruct (py_split " to " (py_strip text)) as [|a [|b [|c l]]]; try done.
  destruct (strptime_dmY (py_strip a)) as [sd'|] eqn:Ha; [|done].
  destruct (strptime_dmY (py_strip b)) as [ed'|] eqn:Hb; [|done].
  destruct (date_ltb sd' ed') eqn:Hlt; [|done]. cbn [negb].
  destruct (Z.ltb_spec max_ordinal (toordinal today + 365)); [done|].
  destruct (Z.ltb_spec (toordinal today + 365) (toordinal sd')); [done|].
  intros [= <- <-].
  pose proof (strptime_dmY_valid _ _ Ha) as Hva.
  pose proof (strptime_dmY_valid _ _ Hb) as Hvb.
  apply (toordinal_lt _ _ Hva Hvb) in Hlt.
  split; [by exists a, b|]. repeat split; try done.
  rewrite start_instant_eq, end_instant_eq. unfold timedelta, us_per_day,
    us_per_second. lia.
Qed.

Lemma start_challenge_period_accepted_witness :
  toordinal (Date 2025 2 1) < toordinal (Date 2025 2 28).
Proof.
  apply (start_challenge_period_accepted (Date 2025 1 1)
           "01/02/2025 to 28/02/2025" (Date 2025 2 1) (Date 2025 2 28)).
  reflexivity.
Defined.

Lemma current_row_after_creation ts user_id desc scoring ty tdesc sd ed db :
  let db' := fst (start_challenge_confirm ts "y" user_id desc scoring ty tdesc
                    sd ed db) in
  current_row db'
  = Some (challenge_seq db',
          Challenge (VText desc) (VText scoring) (VText ty) (VText tdesc)
            (VText (isoformat sd)) (VText (isoformat ed)) (VText "upcoming")
            (VInt user_id) (VText ts)).
Proof.
  intros db'. set (nc := Challenge _ _ _ _ _ _ _ _ _). set (new_id := challenge_seq db').
  assert (Hch : challenges db'
                = <[new_id := nc]> (complete_current <$> challenges db))
    by reflexivity.
  assert (Hnew : challenges db' !! new_id = Some nc)
    by (rewrite Hch; apply lookup_insert_eq).
  destruct (current_row db') as [[id c]|] eqn:Hcur.
  - apply current_row_Some in Hcur as [Hc Hcurrent].
    destruct (decide (id = new_id)) as [->|Hne];
      [by rewrite Hnew in Hc; injection Hc as <-|].
    rewrite Hch, lookup_insert_ne, lookup_fmap in Hc by done.
    destruct (challenges db !! id) as [c0|]; [|done]. injection Hc as <-.
    by rewrite complete_current_not_current in Hcurrent.
  - by pose proof (proj1 (current_row_None db') Hcur new_id nc Hnew).
Qed.

Lemma four_phases_by_dates row s e sd ed :
  unpack_dates row = Ok (s, e) ->
  strptime (py_str s) = Some sd ->
  strptime (py_str e) = Some ed ->
  ed <> Date 9999 12 31 ->
  toordinal sd <= toordinal ed + 1 ->
  four_phases (fun now => resolved_status now row) sd ed.
Proof.
  intros Hrow Hs He Hne Hord now. unfold resolved_status.
  rewrite (get_challenge_status_dates now row s e sd ed) by done.
  rewrite resolve_status, start_instant_eq, end_instant_eq, grace_instant_eq.
  unfold us_per_second.
  repeat split; intros Hnow; repeat case_cmp; done || lia.
Qed.

(** X2: a challenge created through the conversation, in a database whose
    [challenges] table is in the migrated column order, is the current
    challenge afterwards, and the status resolver reads back the dates that
    [start_challenge_period] accepted.  For an end date before 9999-12-31 it
    never raises on the new row, and it splits time into the four phases by
    these dates.  For the end date 9999-12-31, which the period step accepts
    as any other, it raises [OverflowError] at every time. *)
Theorem created_challenge_resolves today text ts user_id desc scoring ty tdesc
    sd ed db :
  start_challenge_period today text = PeriodAccepted sd ed ->
  corder db = Migrated ->
  let db' := fst (start_challenge_confirm ts "y" user_id desc scoring ty tdesc
                    sd ed db) in
  exists row,
    get_current_challenge db' = Some row
    /\ row_id row = Ok (challenge_seq db')
    /\ (ed <> Date 9999 12 31 ->
        (forall now,
           get_challenge_status now (Some row)
           = Ok (Some (fst (resolve now sd ed)), Some (snd (resolve now sd ed))))
        /\ four_phases (fun now => resolved_status now row) sd ed)
    /\ (ed = Date 9999 12 31 ->
        forall now, get_challenge_status now (Some row) = Raise OverflowError).
Proof.
  intros Hacc Ho db'.
  apply start_challenge_period_accepted in Hacc as (_ & Hvs & Hve & Hlt & _).
  pose proof (current_row_after_creation ts user_id desc scoring ty tdesc sd ed db)
    as Hcur.
  fold db' in Hcur. rewrite get_current_challenge_eq, Hcur.
  cbn [fmap option_fmap option_map fst snd].
  assert (Hodb : corder db' = Migrated) by done. rewrite Hodb.
  eexists. split; [done|]. split; [done|].
  pose proof (strptime_isoformat sd Hvs) as Hs.
  pose proof (strptime_isoformat ed Hve) as He.
  split.
  - intros Hne. split.
    + intros now.
      by apply (get_challenge_status_dates now _ (VText (isoformat sd))
                  (VText (isoformat ed))).
    + apply (four_phases_by_dates _ (VText (isoformat sd)) (VText (isoformat ed)));
        try done. lia.
  - intros -> now.
    by apply (get_challenge_status_overflow now _ (VText (isoformat sd))
                (VText (isoformat (Date 9999 12 31))) sd).
Qed.

Lemma created_challenge_resolves_witness :
  exists row,
    get_current_challenge
      (fst (start_challenge_confirm "2025-01-04 08:00:00" "y" 7
              "Push-ups in February" "1 point per push-up" "points"
              "Points-based challenge where users earn points for activities"
              (Date 2025 2 1) (Date 2025 2 28) scenario_db)) = Some row
    /\ resolved_status (noon (Date 2025 2 3)) row = Some "active"%string.
Proof.
  destruct (created_challenge_resolves (Date 2025 1 4) "01/02/2025 to 28/02/2025"
              "2025-01-04 08:00:00" 7 "Push-ups in February"
              "1 point per push-up" "points"
              "Points-based challenge where users earn points for activities"
              (Date 2025 2 1) (Date 2025 2 28) scenario_db)
    as (row & Hrow & _ & Hst & _); [reflexivity | reflexivity |].
  exists row. split; [exact Hrow|].
  destruct Hst as [Hst _]; [discriminate|].
  unfold resolved_status. rewrite (Hst (noon (Date 2025 2 3))). reflexivity.
Defined.

(** The last date that Python has is accepted as an end date, and the new
    challenge then cannot be resolved. *)
Example challenge_until_the_last_day :
  let db' := fst (start_challenge_confirm "2025-06-01 08:00:00" "y" 7
                    "Forever" "1 point per day" "points" "Points-based"
                    (Date 2026 1 1) (Date 9999 12 31) (empty_db Migrated)) in
  start_challenge_period (Date 2025 6 1) "01/01/2026 to 31/12/9999"
  = PeriodAccepted (Date 2026 1 1) (Date 9999 12 31)
  /\ get_challenge_status (noon (Date 2025 6 1)) (get_current_challenge db')
     = Raise OverflowError
  /\ check_and_send_notifications (noon (Date 2025 6 1)) "2025-06-01 09:00:00" db'
     = (db', [], Raise OverflowError).
Proof. by vm_compute. Qed.


(** ** The days of a score entry *)

Lemma parse_date_input_Some date_str days :
  parse_date_input date_str = Some days ->
  exists first last,
    1 <= first <= last /\ last <= 31 /\ days = seqZ first (last - first + 1).
Proof.
  intros H. unfold parse_date_input in H. destruct (py_in "-" date_str).
  - destruct (py_split "-" date_str) as [|a [|b [|c l]]]; try done.
    destruct (py_int a) as [start|]; [|done].
    destruct (py_int b) as [stop|]; [|done]. cbn in H.
    destruct (Z.ltb_spec start 1); [done|].
    destruct (Z.ltb_spec 31 stop); [done|].
    destruct (Z.ltb_spec stop start); [done|]. cbn in H.
    injection H as <-. exists start, stop. repeat split; try lia.
    unfold py_range. f_equal. lia.
  - destruct (py_int date_str) as [day|]; [|done]. cbn in H.
    destruct (Z.ltb_spec day 1); [done|].
    destruct (Z.ltb_spec 31 day); [done|]. cbn in H.
    injection H as <-. exists day, day. repeat split; try lia.
    by replace (day - day + 1) with 1 by lia.
Qed.

(** X3: whatever the text, [parse_date_input] returns either nothing or the
    days [first], [first + 1], ..., [last] of a range with
    [1 <= first <= last <= 31]: the list is never empty, has at most 31 days,
    all between 1 and 31, in increasing order without repetition. *)
Theorem parse_date_input_range date_str days :
  parse_date_input date_str = Some days ->
  exists first last,
    1 <= first <= last /\ last <= 31
    /\ days = seqZ first (last - first + 1)
    /\ days <> []
    /\ (length days <= 31)%nat
    /\ Forall (fun d => 1 <= d <= 31) days
    /\ NoDup days.
Proof.
  intros (first & last & Hf & Hl & ->)%parse_date_input_Some.
  exists first, last. repeat split; try lia.
  - intros Hnil. apply (f_equal length) in Hnil.
    rewrite length_seqZ in Hnil. cbn in Hnil. lia.
  - rewrite length_seqZ. lia.
  - apply Forall_forall. intros d Hd%elem_of_seqZ. lia.
  - apply NoDup_seqZ.
Qed.

Lemma parse_date_input_range_witness :
  exists first last,
    1 <= first <= last /\ last <= 31 /\ [6; 7; 8; 9; 10] = seqZ first (last - first + 1).
Proof.
  destruct (parse_date_input_range "6-10" [6; 7; 8; 9; 10])
    as (first & last & H1 & H2 & H3 & _); [reflexivity|].
  exists first, last. split; [exact H1|]. split; [exact H2|exact H3].
Defined.

Lemma canonical_day_texts :
  forallb (fun a =>
    bool_decide (parse_date_input (pretty a) = Some [a])
    && forallb (fun b =>
         negb (a <=? b)
         || bool_decide (parse_date_input (pretty a +:+ "-" +:+ pretty b)
                         = Some (seqZ a (b - a + 1))))
         (seqZ 1 31)) (seqZ 1 31) = true.
Proof. by vm_compute. Qed.

(** X4: [parse_date_input] accepts the two formats that the prompt of the
    score conversations gives: the decimal text of a day from 1 to 31 yields
    that day, and two such texts joined by a dash, the first not greater than
    the second, yield every day from the first to the second. *)
Theorem parse_date_input_canonical a b :
  1 <= a -> a <= b -> b <= 31 ->
  parse_date_input (pretty a) = Some [a]
  /\ parse_date_input (pretty a +:+ "-" +:+ pretty b) = Some (seqZ a (b - a + 1))
  /\ length (seqZ a (b - a + 1)) = Z.to_nat (b - a + 1).
Proof.
  intros Ha Hab Hb. pose proof canonical_day_texts as H.
  rewrite forallb_forall in H.
  assert (Hin : In a (seqZ 1 31)) by (apply list_elem_of_In, elem_of_seqZ; lia).
  specialize (H a Hin). apply andb_true_iff in H as [H1 H2].
  apply bool_decide_eq_true_1 in H1. split; [done|].
  rewrite forallb_forall in H2.
  assert (Hin' : In b (seqZ 1 31)) by (apply list_elem_of_In, elem_of_seqZ; lia).
  specialize (H2 b Hin'). apply orb_true_iff in H2 as [H2|H2].
  - apply negb_true_iff, Z.leb_gt in H2. lia.
  - apply bool_decide_eq_true_1 in H2. split; [done|]. by rewrite length_seqZ.
Qed.

Lemma parse_date_input_canonical_witness :
  parse_date_input "6-10" = Some [6; 7; 8; 9; 10].
Proof.
  apply (parse_date_input_canonical 6 10); lia.
Defined.


(** ** Escaping for MarkdownV2 *)

Lemma escape_each_replace_char c chars text :
  c ∉ chars -> "\"%char ∉ chars -> "\"%char <> c ->
  escape_each chars (replace_char c text) = escape_each (c :: chars) text.
Proof.
  intros Hc Hb Hbc. induction text as [|a rest IH]; [done|]. cbn.
  destruct (Ascii.eqb_spec a c) as [->|Hac].
  - cbn. rewrite (bool_decide_eq_false_2 _ Hb), (bool_decide_eq_false_2 _ Hc).
    rewrite bool_decide_eq_true_2 by by left. by rewrite IH.
  - cbn. rewrite IH.
    destruct (decide (a ∈ chars)) as [Ha|Ha].
    + rewrite (bool_decide_eq_true_2 _ Ha).
      by rewrite bool_decide_eq_true_2 by by right.
    + rewrite (bool_decide_eq_false_2 _ Ha).
      rewrite bool_decide_eq_false_2; [done|].
      by intros [->|?]%elem_of_cons.
Qed.

Lemma escape_each_nil text : escape_each [] text = text.
Proof.
  induction text as [|a rest IH]; [done|]. cbn.
  rewrite bool_decide_eq_false_2 by apply not_elem_of_nil. by rewrite IH.
Qed.

Lemma escape_each_perm chars chars' text :
  (forall a, a ∈ chars <-> a ∈ chars') ->
  escape_each chars text = escape_each chars' text.
Proof.
  intros H. induction text as [|a rest IH]; [done|]. cbn. rewrite IH.
  by rewrite (bool_decide_ext _ _ (H a)).
Qed.

Lemma foldl_replace_char chars seen text :
  NoDup (chars ++ seen) -> "\"%char ∉ chars ++ seen ->
  escape_each seen (foldl (fun text char => replace_char char text) text chars)
  = escape_each (chars ++ seen) text.
Proof.
  revert text seen. induction chars as [|c chars IH]; intros text seen Hnd Hb;
    [done|].
  cbn [foldl].
  assert (Hperm : forall a, a ∈ (c :: chars) ++ seen <-> a ∈ c :: chars ++ seen).
  { intros a. rewrite !elem_of_app, !elem_of_cons, !elem_of_app. tauto. }
  rewrite (escape_each_perm _ _ text Hperm).
  rewrite <- (escape_each_replace_char c (chars ++ seen)).
  - apply IH.
    + by apply NoDup_cons in Hnd as [_ Hnd].
    + intros H. apply Hb. by right.
  - by apply NoDup_cons in Hnd as [Hnd _].
  - intros H. apply Hb. by right.
  - intros <-. apply Hb. by left.
Qed.

Lemma escape_chars_facts : NoDup escape_chars /\ "\"%char ∉ escape_chars.
Proof.
  split; apply (bool_decide_unpack _); by vm_compute.
Qed.

Lemma escape_markdown_v2_eq text :
  escape_markdown_v2 (Some text) = Some (escape_each escape_chars text).
Proof.
  destruct escape_chars_facts as [Hnd Hb].
  destruct text as [|a rest]; [done|]. cbn [escape_markdown_v2]. f_equal.
  rewrite <- (escape_each_nil (foldl _ _ _)).
  rewrite (foldl_replace_char escape_chars []); rewrite ?app_nil_r; done.
Qed.

(** X5: the eighteen successive replacements of [escape_markdown_v2] amount
    to one pass over the text that puts a backslash before each of the
    characters [_*[]()~`>#+-=|{}.!] and leaves every other character,
    backslashes included, as it is: no character is escaped twice.  [None] and
    the empty text are returned unchanged. *)
Theorem escape_markdown_v2_one_pass text :
  escape_markdown_v2 (Some text) = Some (escape_each escape_chars text)
  /\ escape_markdown_v2 None = None
  /\ (String.length text <= String.length (escape_each escape_chars text)
      <= 2 * String.length text)%nat.
Proof.
  split; [apply escape_markdown_v2_eq|split; [done|]].
  induction text as [|a rest IH]; [cbn; lia|]. cbn [escape_each].
    destruct (bool_decide (a ∈ escape_chars)); cbn [String.length]; lia.
Qed.

Lemma escape_each_head chars text a rest :
  "\"%char ∉ chars ->
  escape_each chars text = String a rest -> a ∉ chars.
Proof.
  intros Hb. destruct text as [|b r]; [done|]. cbn.
  destruct (decide (b ∈ chars)) as [Hbc|Hbc].
  - rewrite (bool_decide_eq_true_2 _ Hbc). by intros [= <- _].
  - rewrite (bool_decide_eq_false_2 _ Hbc). by intros [= <- _].
Qed.

Lemma escape_each_inj chars text1 text2 :
  "\"%char ∉ chars ->
  escape_each chars text1 = escape_each chars text2 -> text1 = text2.
Proof.
  intros Hb. revert text2.
  induction text1 as [|a1 r1 IH]; intros [|a2 r2]; cbn; try done.
  - by destruct (bool_decide (a2 ∈ chars)).
  - by destruct (bool_decide (a1 ∈ chars)).
  - destruct (decide (a1 ∈ chars)) as [H1|H1], (decide (a2 ∈ chars)) as [H2|H2];
      rewrite ?(bool_decide_eq_true_2 _ H1), ?(bool_decide_eq_false_2 _ H1),
        ?(bool_decide_eq_true_2 _ H2), ?(bool_decide_eq_false_2 _ H2).
    + intros [= -> H]. f_equal. by apply IH.
    + intros [= <- H]. symmetry in H.
      by apply escape_each_head in H.
    + intros [= -> H]. by apply escape_each_head in H.
    + intros [= -> H]. f_equal. by apply IH.
Qed.

(** X6: [escape_markdown_v2] loses nothing: two different arguments ([None],
    the empty text, or any texts, with or without backslashes) are never
    escaped to the same result. *)
Theorem escape_markdown_v2_inj text1 text2 :
  text1 <> text2 -> escape_markdown_v2 text1 <> escape_markdown_v2 text2.
Proof.
  destruct escape_chars_facts as [_ Hb]. intros Hne Heq. apply Hne.
  destruct text1 as [t1|], text2 as [t2|];
    rewrite ?escape_markdown_v2_eq in Heq; try done.
  injection Heq as Heq. f_equal. by apply (escape_each_inj escape_chars).
Qed.

Lemma escape_markdown_v2_inj_witness :
  escape_markdown_v2 (Some "a.b"%string) <> escape_markdown_v2 (Some "a\.b"%string).
Proof.
  apply (escape_markdown_v2_inj (Some "a.b"%string) (Some "a\.b"%string)).
  discriminate.
Defined.

(** ** Editing and removing scores *)

Lemma same_date_eq a b : same_date a b = true <-> a = b.
Proof.
  destruct a as [y1 m1 d1], b as [y2 m2 d2]. unfold same_date. cbn.
  rewrite !andb_true_iff, !Z.eqb_eq. split; [by intros [[-> ->] ->]|].
  by intros [= -> -> ->].
Qed.

Lemma existsb_same_date x ds : existsb (same_date x) ds = true <-> x ∈ ds.
Proof.
  rewrite existsb_exists. split.
  - intros (d & Hd & ->%same_date_eq). by apply list_elem_of_In.
  - intros Hx. exists x. split; [by apply list_elem_of_In|by apply same_date_eq].
Qed.

Lemma sum_points_split (p : Score.t -> bool) l :
  sum_points l
  = sum_points (List.filter p l) + sum_points (List.filter (fun s => negb (p s)) l).
Proof.
  induction l as [|s l IH]; [done|]. cbn [List.filter].
  destruct (p s); cbn [negb]; rewrite !sum_points_cons; lia.
Qed.

Lemma sum_points_filter_or (p q r : Score.t -> bool) l :
  (forall s, p s = q s || r s) -> (forall s, q s && r s = false) ->
  sum_points (List.filter p l)
  = sum_points (List.filter q l) + sum_points (List.filter r l).
Proof.
  intros Hp Hqr. induction l as [|s l IH]; [done|]. cbn [List.filter].
  rewrite (Hp s). specialize (Hqr s).
  destruct (q s), (r s); try done; cbn [orb]; rewrite !sum_points_cons; lia.
Qed.

Lemma matches_cons user_id d ds cid l :
  d ∉ ds ->
  sum_points (List.filter (matches user_id (d :: ds) cid) l)
  = day_points user_id d cid l
    + sum_points (List.filter (matches user_id ds cid) l).
Proof.
  intros Hd. unfold day_points. apply sum_points_filter_or.
  - intros s. unfold matches. cbn [existsb].
    destruct (Score.user_id s =? user_id), (Score.challenge_id s =? cid),
      (same_date (Score.date s) d), (existsb (same_date (Score.date s)) ds);
      done.
  - intros s. unfold matches.
    destruct (same_date (Score.date s) d) eqn:Hsd;
      [|by rewrite !andb_false_r].
    apply same_date_eq in Hsd.
    assert (Hex : existsb (same_date (Score.date s)) ds = false).
    { apply not_true_iff_false. rewrite existsb_same_date. by rewrite Hsd. }
    by rewrite Hex, !andb_false_r.
Qed.

Lemma total_current_points_from acc user_id ds cid l :
  NoDup ds ->
  foldl (fun total d => total + day_points user_id d cid l) acc ds
  = acc + sum_points (List.filter (matches user_id ds cid) l).
Proof.
  revert acc. induction ds as [|d ds IH]; intros acc Hnd; cbn [foldl].
  - assert (Hnil : List.filter (matches user_id [] cid) l = []).
    { induction l as [|s l IHl]; [done|]. cbn [List.filter].
      unfold matches at 1. cbn [existsb]. by rewrite andb_false_r. }
    rewrite Hnil. cbn. lia.
  - apply NoDup_cons in Hnd as [Hd Hnd]. rewrite IH by done.
    rewrite matches_cons by done. lia.
Qed.

(** The points that [edit_score_date] shows are the points of the rows that
    the edit and the removal delete. *)
Lemma total_current_points_eq user_id ds cid l :
  NoDup ds ->
  total_current_points user_id ds cid l
  = sum_points (List.filter (matches user_id ds cid) l).
Proof. intros Hnd. unfold total_current_points. by rewrite total_current_points_from. Qed.

Lemma dates_of_days_NoDup now days ds :
  NoDup days -> dates_of_days now days = Some ds -> NoDup ds.
Proof.
  intros Hnd ->%dates_of_days_Some. apply NoDup_fmap_2; [|done].
  by intros a b [= ->].
Qed.

Lemma filter_matches_deleted user_id ds cid l :
  List.filter (matches user_id ds cid) (delete_scores user_id ds cid l) = [].
Proof.
  unfold delete_scores. induction l as [|s l IH]; [done|]. cbn [List.filter].
  destruct (matches user_id ds cid s) eqn:Hm; cbn [negb List.filter]; [done|].
  by rewrite Hm.
Qed.

Lemma filter_matches_inserted user_id ds ppd cid :
  List.filter (matches user_id ds cid)
    (map (fun d => Score.Row user_id d ppd cid) ds)
  = map (fun d => Score.Row user_id d ppd cid) ds.
Proof.
  assert (H : forall ds', (forall d, d ∈ ds' -> d ∈ ds) ->
            List.filter (matches user_id ds cid)
              (map (fun d => Score.Row user_id d ppd cid) ds')
            = map (fun d => Score.Row user_id d ppd cid) ds').
  { induction ds' as [|d ds' IH]; intros Hsub; [done|]. cbn [map List.filter].
    unfold matches at 1. cbn [Score.user_id Score.challenge_id Score.date].
    rewrite !Z.eqb_refl. cbn [andb].
    rewrite (proj2 (existsb_same_date d ds)) by (apply Hsub; by left).
    f_equal. apply IH. intros d' Hd'. apply Hsub. by right. }
  by apply H.
Qed.

Lemma filter_other_deleted (p : Score.t -> bool) user_id ds cid l :
  (forall s, matches user_id ds cid s = true -> p s = false) ->
  List.filter p (delete_scores user_id ds cid l) = List.filter p l.
Proof.
  intros Hp. unfold delete_scores. induction l as [|s l IH]; [done|].
  cbn [List.filter]. destruct (matches user_id ds cid s) eqn:Hm; cbn [negb].
  - by rewrite (Hp s Hm).
  - cbn [List.filter]. by rewrite IH.
Qed.

Lemma current_row_scores l db : current_row (with_scores l db) = current_row db.
Proof. done. Qed.

Lemma edit_score_date_Some now text user_id db days old :
  edit_score_date now text user_id db = Ok (EditDatePoints days old) ->
  exists cid c ds,
    add_score_date text = Some days
    /\ NoDup days
    /\ current_row db = Some (cid, c)
    /\ dates_of_days now days = Some ds
    /\ NoDup ds
    /\ length ds = length days
    /\ old = sum_points (List.filter (matches user_id ds cid) (scores db)).
Proof.
  unfold edit_score_date.
  destruct (add_score_date text) as [days'|] eqn:Hdays; [|done].
  rewrite get_current_challenge_eq.
  destruct (current_row db) as [[cid c]|] eqn:Hcur; [|done].
  cbn [fmap option_fmap option_map fst snd]. rewrite row_id_select_star.
  cbn [mbind result_bind].
  destruct (dates_of_days now days') as [ds|] eqn:Hds; [|done].
  cbn [of_option mbind result_bind]. intros [= <- <-].
  assert (Hnd : NoDup days').
  { unfold add_score_date in Hdays.
    destruct (parse_date_input (py_strip text)) as [[|d l]|] eqn:Hp; try done.
    injection Hdays as <-.
    apply parse_date_input_Some in Hp as (first & last & _ & _ & ->).
    apply NoDup_seqZ. }
  exists cid, c, ds. repeat split; try done.
  - by eapply dates_of_days_NoDup.
  - apply dates_of_days_Some in Hds as ->. by rewrite length_map.
  - apply total_current_points_eq. by eapply dates_of_days_NoDup.
Qed.

(** X7: the edit conversation reads back what it wrote.  When
    [edit_score_date] shows [old] points for the days of a text, confirming an
    edit to [ppd] points per day replaces exactly the sender's rows of these
    days in the current challenge: started again with the same text, the
    conversation shows [N * ppd] points for the [N] days (0 when [ppd] is not
    positive, in which case the rows are only deleted), the sum of all points
    changes by the difference to [old], and the rows of other users stay as
    they were, as do the challenges. *)
Theorem edit_score_round_trip now text user_id db days old ppd :
  edit_score_date now text user_id db = Ok (EditDatePoints days old) ->
  let shown := if 0 <? ppd then Z.of_nat (length days) * ppd else 0 in
  let '(db', r) := edit_score_confirm now "y" user_id days ppd db in
  r = Ok PointsUpdated
  /\ edit_score_date now text user_id db' = Ok (EditDatePoints days shown)
  /\ sum_points (scores db') = sum_points (scores db) - old + shown
  /\ List.filter (fun s => negb (Score.user_id s =? user_id)) (scores db')
     = List.filter (fun s => negb (Score.user_id s =? user_id)) (scores db)
  /\ challenges db' = challenges db.
Proof.
  intros H. cbn zeta.
  pose proof (edit_score_date_Some _ _ _ _ _ _ H)
    as (cid & c & ds & Hdays & Hnd & Hcur & Hds & Hndd & Hlen & ->).
  rewrite (edit_score_confirm_writes now user_id days ppd db cid c ds Hcur Hds).
  split; [done|].
  set (kept := delete_scores user_id ds cid (scores db)).
  set (new := if 0 <? ppd then insert_scores user_id ds ppd cid kept else kept).
  assert (Hshown : sum_points (List.filter (matches user_id ds cid) new)
                   = if 0 <? ppd then Z.of_nat (length days) * ppd else 0).
  { subst new. destruct (0 <? ppd).
    - unfold insert_scores. rewrite List.filter_app.
      subst kept. rewrite filter_matches_deleted, filter_matches_inserted.
      cbn [app]. by rewrite sum_points_inserted, Hlen.
    - subst kept. by rewrite filter_matches_deleted. }
  assert (Hrest : forall p : Score.t -> bool,
            (forall s, matches user_id ds cid s = true -> p s = false) ->
            List.filter p new = List.filter p (scores db)).
  { intros p Hp. subst new. destruct (0 <? ppd).
    - unfold insert_scores. rewrite List.filter_app.
      subst kept. rewrite filter_other_deleted by done.
      assert (Hnone : List.filter p (map (fun d => Score.Row user_id d ppd cid) ds)
                      = []).
      { rewrite <- (filter_matches_inserted user_id ds ppd cid).
        induction (map _ ds) as [|s l IH]; [done|]. cbn [List.filter].
        destruct (matches user_id ds cid s) eqn:Hm; [|done].
        cbn [List.filter]. by rewrite (Hp s Hm). }
      by rewrite Hnone, app_nil_r.
    - subst kept. by apply filter_other_deleted. }
  split; [|split; [|split; [|done]]].
  - unfold edit_score_date. rewrite Hdays, get_current_challenge_eq.
    rewrite current_row_scores, Hcur.
    cbn [fmap option_fmap option_map fst snd]. rewrite row_id_select_star.
    cbn [mbind result_bind]. rewrite Hds. cbn [of_option mbind result_bind].
    do 2 f_equal. cbn [scores with_scores].
    by rewrite total_current_points_eq.
  - cbn [scores with_scores].
    rewrite (sum_points_split (matches user_id ds cid) new).
    rewrite (sum_points_split (matches user_id ds cid) (scores db)).
    rewrite Hshown, (Hrest (fun s => negb (matches user_id ds cid s))); [lia|].
    by intros s ->.
  - cbn [scores with_scores]. apply Hrest. intros s Hm.
    unfold matches in Hm. apply andb_true_iff in Hm as [Hm _].
    apply andb_true_iff in Hm as [Hm _]. by rewrite Hm.
Qed.

Lemma edit_score_round_trip_witness :
  edit_score_date (noon (Date 2025 1 4)) "3" 42
    (fst (edit_score_confirm (noon (Date 2025 1 4)) "y" 42 [3] 50 scenario_db))
  = Ok (EditDatePoints [3] 50).
Proof.
  apply (edit_score_round_trip (noon (Date 2025 1 4)) "3" 42 scenario_db [3] 100 50).
  reflexivity.
Defined.


Lemma length_filter_split {A} (p : A -> bool) (l : list A) :
  length l
  = (length (List.filter p l) + length (List.filter (fun x => negb (p x)) l))%nat.
Proof.
  induction l as [|x l IH]; [done|]. cbn [List.filter].
  destruct (p x); cbn [negb length]; lia.
Qed.

(** X8: confirming the removal of the days of a text deletes exactly the
    sender's rows of these days in the current challenge.  The count in the
    reply is the number of these rows, the sum of all points drops by the
    points that [edit_score_date] showed for them, the edit conversation
    shows 0 points for the days afterwards, and the rows of other users stay
    as they were. *)
Theorem remove_score_round_trip now text user_id db days old :
  edit_score_date now text user_id db = Ok (EditDatePoints days old) ->
  let '(db', r) := remove_score_confirm now "y" user_id days db in
  (exists cid ds,
     row_id <$> get_current_challenge db = Some (Ok cid)
     /\ dates_of_days now days = Some ds
     /\ r = Ok (Removed (length (List.filter (matches user_id ds cid) (scores db))))
     /\ scores db'
        = List.filter (fun s => negb (matches user_id ds cid s)) (scores db))
  /\ edit_score_date now text user_id db' = Ok (EditDatePoints days 0)
  /\ sum_points (scores db') = sum_points (scores db) - old
  /\ List.filter (fun s => negb (Score.user_id s =? user_id)) (scores db')
     = List.filter (fun s => negb (Score.user_id s =? user_id)) (scores db).
Proof.
  intros H.
  pose proof (edit_score_date_Some _ _ _ _ _ _ H)
    as (cid & c & ds & Hdays & Hnd & Hcur & Hds & Hndd & Hlen & ->).
  unfold remove_score_confirm. cbn [String.eqb Ascii.eqb Bool.eqb].
  rewrite get_current_challenge_eq, Hcur.
  cbn [fmap option_fmap option_map fst snd]. rewrite row_id_select_star, Hds.
  split; [|split; [|split]].
  - exists cid, ds. repeat split; try done. do 2 f_equal.
    rewrite (length_filter_split (matches user_id ds cid) (scores db)).
    unfold delete_scores. lia.
  - unfold edit_score_date. rewrite Hdays, get_current_challenge_eq.
    rewrite current_row_scores, Hcur.
    cbn [fmap option_fmap option_map fst snd]. rewrite row_id_select_star.
    cbn [mbind result_bind]. rewrite Hds. cbn [of_option mbind result_bind].
    do 2 f_equal. cbn [scores with_scores].
    by rewrite total_current_points_eq, filter_matches_deleted.
  - cbn [scores with_scores].
    rewrite (sum_points_split (matches user_id ds cid) (scores db)).
    unfold delete_scores. lia.
  - cbn [scores with_scores]. apply filter_other_deleted. intros s Hm.
    unfold matches in Hm. apply andb_true_iff in Hm as [Hm _].
    apply andb_true_iff in Hm as [Hm _]. by rewrite Hm.
Qed.

Lemma remove_score_round_trip_witness :
  edit_score_date (noon (Date 2025 1 4)) "3" 42
    (fst (remove_score_confirm (noon (Date 2025 1 4)) "y" 42 [3] scenario_db))
  = Ok (EditDatePoints [3] 0).
Proof.
  apply (remove_score_round_trip (noon (Date 2025 1 4)) "3" 42 scenario_db [3] 100).
  reflexivity.
Defined.


(** ** The scheduler tick, phase by phase *)

Lemma current_status_is_no_date c :
  is_current c = true -> strptime (py_str (status c)) = None.
Proof.
  unfold is_current. intros H%bool_decide_eq_true_1.
  repeat (apply elem_of_cons in H as [->|H]; [done|]).
  by apply elem_of_nil in H.
Qed.

(** *** The final announcement *)

Lemma get_challenge_stats_status db cid v :
  get_challenge_stats (update_challenge_status cid v db) cid
  = get_challenge_stats db cid.
Proof.
  unfold get_challenge_stats. cbn [update_challenge_status with_challenges challenges].
  rewrite lookup_alter_eq. by destruct (challenges db !! cid).
Qed.

Lemma final_message_status db cid v d :
  final_message (update_challenge_status cid v db) cid d = final_message db cid d.
Proof.
  unfold final_message. rewrite get_challenge_stats_status.
  cbn [update_challenge_status with_challenges challenges].
  rewrite lookup_alter_eq. by destruct (challenges db !! cid).
Qed.

Lemma change_winners_spec (l : list (value * baseline_row)) :
  change_winners (map name_and_change l)
  = if forallb (fun jr => negb (is_null (pct jr))) l
    then Ok (omap (fun jr => (fun q => (fst jr, Change q)) <$> pct jr) l)
    else Raise TypeError.
Proof.
  induction l as [|jr l IH]; [done|].
  cbn [map forallb omap list_omap]. unfold name_and_change at 1. cbn [change_winners].
  destruct (pct jr) as [q|];
    cbn [is_null negb andb fmap option_fmap option_map]; [|done].
  rewrite IH. by destruct (forallb _ l); cbn.
Qed.

Lemma format_changes_ok (q : list (value * baseline_row)) :
  (forall jr, jr ∈ q -> is_Some (pct jr)) ->
  format_changes (default [] (nonempty (map name_and_change q))) = Ok ().
Proof.
  intros Hq. unfold format_changes.
  assert (Hf : forallb (fun e : value * option Q => negb (is_null (snd e)))
                 (default [] (nonempty (map name_and_change q))) = true);
    [|by rewrite Hf].
  apply forallb_forall. intros e He.
  assert (He' : e ∈ map name_and_change q).
  { destruct (map name_and_change q) eqn:Hm; [by cbn in He|].
    cbn in He. by apply list_elem_of_In. }
  apply list_elem_of_fmap in He' as (jr & -> & Hjr).
  destruct (Hq jr Hjr) as [x Hx]. cbn. by rewrite Hx.
Qed.

Lemma gains_have_change db cid n jr :
  jr ∈ gains_query db cid n -> is_Some (pct jr).
Proof.
  intros Hjr%elem_of_gains_query.
  apply elem_of_filter_bool in Hjr as [_ [Hnz Hl]%andb_true_iff].
  destruct (percent_change_sign (snd jr) Hnz) as [H _].
  destruct (H Hl) as (q & Hq & _). by exists q.
Qed.

Lemma losses_have_change db cid n jr :
  jr ∈ losses_query db cid n -> is_Some (pct jr).
Proof.
  intros Hjr%elem_of_losses_query.
  apply elem_of_filter_bool in Hjr as [_ [Hnz Hl]%andb_true_iff].
  destruct (percent_change_sign (snd jr) Hnz) as [_ H].
  destruct (H Hl) as (q & Hq & _). by exists q.
Qed.

(** When the loop over the winners has passed, the statistics block does not
    raise: the biggest change is the change of the first winner, and gains
    and losses have a percent change. *)
Lemma change_stats_block_ok db cid ch :
  challenges db !! cid = Some ch ->
  challenge_type ch = VText "change" ->
  forallb (fun jr => negb (is_null (pct jr))) (change_ranking db cid 3) = true ->
  change_stats_block (get_challenge_stats db cid) = Ok ().
Proof.
  intros Hch Hty Hall. unfold get_challenge_stats.
  rewrite Hch, Hty, bool_decide_eq_true_2 by done.
  unfold change_stats_block. cbn [top_gains top_losses biggest_change].
  destruct (_ || _); [|done].
  assert (Hbig : match change_ranking db cid 1 with
                 | jr :: _ => is_Some (abs_pct jr)
                 | [] => True
                 end).
  { unfold change_ranking in *.
    destruct (order_by_desc_nullable abs_pct (change_candidates db cid))
      as [|jr l]; [done|].
    cbn in Hall. cbn. apply andb_true_iff in Hall as [Hjr _].
    unfold abs_pct. by destruct (pct jr). }
  rewrite (format_changes_ok _ (gains_have_change db cid 3)).
  rewrite (format_changes_ok _ (losses_have_change db cid 3)).
  destruct (change_ranking db cid 1) as [|jr ?]; [done|].
  by destruct Hbig as [x ->].
Qed.

(** The final announcement of a challenge: it is built unless the challenge
    is a change challenge and one of its three biggest changes is NULL, in
    which case [TypeError] is raised. *)
Lemma final_message_spec db cid c d :
  challenges db !! cid = Some c ->
  if null_winner db cid c
  then final_message db cid d = Raise TypeError
  else exists m, final_message db cid d = Ok m.
Proof.
  intros Hc. unfold null_winner, final_message. rewrite Hc.
  destruct (decide (challenge_type c = VText "change")) as [Hty|Hty].
  - rewrite !(bool_decide_eq_true_2 _ Hty). cbn [andb].
    rewrite change_winners_spec.
    destruct (change_ranking db cid 3) as [|jr l] eqn:Hrank;
      [cbn; by eexists|].
    cbn [map]. destruct (forallb _ (jr :: l)) eqn:Hall; cbn [negb].
    + cbn [mbind result_bind].
      rewrite (change_stats_block_ok db cid c) by (by rewrite ?Hrank).
      cbn [mbind result_bind]. by eexists.
    + done.
  - rewrite !(bool_decide_eq_false_2 _ Hty). cbn [andb].
    destruct (map _ (points_ranking db cid 3)); by eexists.
Qed.

(** *** The tick on the two column orders *)

Lemma tick_when_resolver_raises now ts db cid c e :
  current_row db = Some (cid, c) ->
  get_challenge_status now (Some (select_star (corder db) cid c)) = Raise e ->
  check_and_send_notifications now ts db = (db, [], Raise e).
Proof.
  intros Hcur Hr. unfold check_and_send_notifications.
  rewrite get_current_challenge_eq, Hcur.
  cbn [fmap option_fmap option_map fst snd].
  rewrite row_id_select_star. cbn [mbind result_bind]. by rewrite Hr.
Qed.

(** The tick on a row in the migrated column order whose dates parse, the
    end date being before 9999-12-31. *)
Lemma tick_migrated now ts db cid c sd ed :
  corder db = Migrated ->
  current_row db = Some (cid, c) ->
  strptime (py_str (start_date c)) = Some sd ->
  strptime (py_str (end_date c)) = Some ed ->
  ed <> Date 9999 12 31 ->
  let st := fst (resolve now sd ed) in
  let db1 := if bool_decide (status c = VText st) then db
             else update_challenge_status cid (VText st) db in
  check_and_send_notifications now ts db
  = if bool_decide (Some st = Some "active"%string)
       && negb (has_notification_been_sent cid "start" db1)
    then (db1, [], Raise ValueError)
    else if bool_decide (Some st = Some "grace_period"%string)
            && negb (has_notification_been_sent cid "ending" db1)
    then (mark_notification_sent ts cid "ending" db1,
          [Outbound cid "ending" (ChallengeEndingSoon (description c))], Ok ())
    else if bool_decide (Some st = Some "ended"%string)
            && negb (has_notification_been_sent cid "final_results" db1)
    then match final_message db cid (description c) with
         | Ok m =>
             (update_challenge_status cid (VText "completed")
                (mark_notification_sent ts cid "final_results" db1),
              [Outbound cid "final_results" m], Ok ())
         | Raise e => (db1, [], Raise e)
         end
    else (db1, [], Ok ()).
Proof.
  intros Ho Hcur Hs He Hne st db1.
  pose proof (current_row_Some _ _ _ Hcur) as [Hc Hcurrent].
  assert (Hfinal : final_message db1 cid (description c)
                   = final_message db cid (description c)).
  { unfold db1. case_bool_decide; [done|apply final_message_status]. }
  unfold check_and_send_notifications.
  rewrite get_current_challenge_eq, Hcur, Ho.
  cbn [fmap option_fmap option_map fst snd].
  rewrite (get_challenge_status_dates now _ (start_date c) (end_date c) sd ed)
    by done.
  cbn [row_id py_index select_star lookup list_lookup of_option mbind
         result_bind fst snd status_cell].
  fold st. fold db1. rewrite Hfinal.
  rewrite (current_status_is_no_date c Hcurrent).
  cbn [of_option mbind result_bind]. done.
Qed.

Lemma tick_not_migrated now ts db cid c :
  current_row db = Some (cid, c) ->
  corder db = Declared ->
  strptime (py_str (challenge_type c)) = None ->
  check_and_send_notifications now ts db = (db, [], Raise ValueError).
Proof.
  intros Hcur Ho Hty. apply (tick_when_resolver_raises now ts db cid c); [done|].
  rewrite Ho.
  by apply (get_challenge_status_bad_start now _ (challenge_type c)
              (type_description c)).
Qed.

Lemma tick_raises_on_bad_dates now ts db cid c :
  current_row db = Some (cid, c) ->
  corder db = Migrated ->
  strptime (py_str (start_date c)) = None
  \/ strptime (py_str (end_date c)) = None ->
  check_and_send_notifications now ts db = (db, [], Raise ValueError).
Proof.
  intros Hcur Ho Hbad. apply (tick_when_resolver_raises now ts db cid c); [done|].
  rewrite Ho.
  unfold get_challenge_status. cbn [select_star unpack_dates mbind result_bind].
  destruct (strptime (py_str (start_date c))); cbn; [|done].
  destruct Hbad as [?| ->]; done.
Qed.

Lemma tick_overflows now ts db cid c sd :
  current_row db = Some (cid, c) ->
  corder db = Migrated ->
  strptime (py_str (start_date c)) = Some sd ->
  strptime (py_str (end_date c)) = Some (Date 9999 12 31) ->
  check_and_send_notifications now ts db = (db, [], Raise OverflowError).
Proof.
  intros Hcur Ho Hs He. apply (tick_when_resolver_raises now ts db cid c); [done|].
  rewrite Ho.
  by apply (get_challenge_status_overflow now _ (start_date c) (end_date c) sd).
Qed.

Lemma tick_never_starts now ts db :
  plain_types db ->
  let '(db', out, r) := check_and_send_notifications now ts db in
  plain_types db' /\ forall m, m ∈ out -> event_kind m <> "start"%string.
Proof.
  intros Hplain.
  destruct (check_and_send_notifications now ts db) as [[db' out] r] eqn:Htick.
  destruct (current_row db) as [[cid c]|] eqn:Hcur.
  2:{ apply tick_spec in Htick as [_ Htick]. rewrite Hcur in Htick.
      destruct Htick as (-> & -> & _). split; [done|].
      by intros m Hm%elem_of_nil. }
  pose proof (current_row_Some _ _ _ Hcur) as [Hc Hcurrent].
  destruct (corder db) eqn:Ho.
  { rewrite (tick_not_migrated now ts db cid c) in Htick by eauto.
    injection Htick as <- <- <-. split; [done|]. by intros m Hm%elem_of_nil. }
  assert (Hkeep : forall f, plain_types
            (with_challenges (alter (set_status f) cid (challenges db)) db)).
  { intros f id c' Hc'. cbn in Hc'.
    destruct (decide (id = cid)) as [->|Hne].
    - rewrite lookup_alter_eq, Hc in Hc'. injection Hc' as <-. cbn. eauto.
    - rewrite lookup_alter_ne in Hc' by done. eauto. }
  destruct (strptime (py_str (start_date c))) as [sd|] eqn:Hs.
  2:{ rewrite (tick_raises_on_bad_dates now ts db cid c) in Htick by eauto.
      injection Htick as <- <- <-. split; [done|]. by intros m Hm%elem_of_nil. }
  destruct (strptime (py_str (end_date c))) as [ed|] eqn:He.
  2:{ rewrite (tick_raises_on_bad_dates now ts db cid c) in Htick by eauto.
      injection Htick as <- <- <-. split; [done|]. by intros m Hm%elem_of_nil. }
  destruct (decide (ed = Date 9999 12 31)) as [->|Hne].
  { rewrite (tick_overflows now ts db cid c sd) in Htick by done.
    injection Htick as <- <- <-. split; [done|]. by intros m Hm%elem_of_nil. }
  rewrite (tick_migrated now ts db cid c sd ed Ho Hcur Hs He Hne) in Htick.
  cbv zeta in Htick.
  set (st := fst (resolve now sd ed)) in *.
  set (db1 := if bool_decide (status c = VText st) then db
              else update_challenge_status cid (VText st) db) in *.
  assert (Hdb1 : plain_types db1 /\ challenges db1 !! cid = Some (set_status (VText st) c)
                 /\ challenge_notifications db1 = challenge_notifications db).
  { unfold db1. destruct (decide (status c = VText st)) as [Hst|Hst].
    - rewrite (bool_decide_eq_true_2 _ Hst).
      split; [done|]. split; [|done]. rewrite Hc. f_equal.
      destruct c; cbn in *. by rewrite Hst.
    - rewrite (bool_decide_eq_false_2 _ Hst).
      split; [apply Hkeep|]. split; [|done]. cbn. by rewrite lookup_alter_eq, Hc. }
  clearbody db1. destruct Hdb1 as (Hp1 & Hc1 & Hn1).
  repeat case_match; injection Htick as <- <- <-.
  - split; [done|]. by intros m Hm%elem_of_nil.
  - split; [done|]. by intros m ->%list_elem_of_singleton.
  - split; [|by intros m ->%list_elem_of_singleton].
    intros id c' Hc'. cbn in Hc'.
    destruct (decide (id = cid)) as [->|Hne'].
    + rewrite lookup_alter_eq, Hc1 in Hc'. injection Hc' as <-. cbn. eauto.
    + rewrite lookup_alter_ne in Hc' by done. eauto.
  - split; [done|]. by intros m Hm%elem_of_nil.
  - split; [done|]. by intros m Hm%elem_of_nil.
Qed.

(** X9: the scheduler never sends the "challenge started" announcement.
    Whatever the database and the times of the ticks, as long as no type tag
    reads as a date (the code writes only "points" and "change"), no run of
    ticks sends an announcement of kind "start": on the migrated column order
    the start branch parses the persisted status and the creator as dates, on
    the declared order the resolver raises before. *)
Theorem start_is_never_announced ticks db :
  plain_types db ->
  Forall (fun m => event_kind m <> "start"%string) (snd (run_ticks ticks db)).
Proof.
  revert db. induction ticks as [|[now ts] rest IH]; intros db Hplain; cbn.
  - constructor.
  - pose proof (tick_never_starts now ts db Hplain) as Htick.
    destruct (check_and_send_notifications now ts db) as [[db1 out1] r1].
    destruct Htick as [Hplain1 Hout1]. specialize (IH db1 Hplain1).
    destruct (run_ticks rest db1) as [db2 out2]. cbn in *.
    apply Forall_app. split; [by apply Forall_forall|done].
Qed.

Lemma start_is_never_announced_witness :
  Forall (fun m => event_kind m <> "start"%string)
    (snd (run_ticks [(noon (Date 2025 1 3), "2025-01-03 10:00:00"%string);
                     (noon (Date 2025 1 6), "2025-01-06 10:00:00"%string)]
            (with_notifications ∅ scenario_db))).
Proof.
  apply (start_is_never_announced _ (with_notifications ∅ scenario_db)).
  apply (bool_decide_unpack _). vm_compute. exact I.
Defined.


Lemma resolve_status_cases now sd ed :
  fst (resolve now sd ed) = "upcoming"%string
  \/ fst (resolve now sd ed) = "active"%string
  \/ fst (resolve now sd ed) = "grace_period"%string
  \/ fst (resolve now sd ed) = "ended"%string.
Proof. rewrite resolve_status. repeat case_match; tauto. Qed.

(** X10: what one tick does to a current challenge whose row is in the
    migrated column order and whose dates parse, the end date being before
    9999-12-31 (for that end date the resolver, and with it the tick, raises
    [OverflowError] and nothing is written or sent).  The tick leaves the
    other challenges alone and persists the status to which the challenge
    resolves at that time.  While the challenge resolves to "upcoming" it
    sends nothing; while it resolves to "active" it sends nothing and, unless
    a "start" marker exists, raises; in the grace period it sends the
    "ending soon" announcement unless its marker exists.  After the grace
    period, if the "final_results" marker exists it sends nothing and the
    challenge is left persisted as "ended"; otherwise it sends the final
    announcement and persists "completed", unless the challenge is a change
    challenge and one of its three biggest changes is NULL: then building
    the announcement raises [TypeError], nothing is sent and the challenge
    stays "ended" without marker. *)
Theorem tick_by_phase now ts db cid c sd ed :
  corder db = Migrated ->
  current_row db = Some (cid, c) ->
  strptime (py_str (start_date c)) = Some sd ->
  strptime (py_str (end_date c)) = Some ed ->
  ed <> Date 9999 12 31 ->
  let st := fst (resolve now sd ed) in
  let sent kind := has_notification_been_sent cid kind db in
  let blocked := null_winner db cid c in
  let '(db', out, r) := check_and_send_notifications now ts db in
  status <$> challenges db' !! cid
  = Some (VText (if String.eqb st "ended" && negb (sent "final_results"%string)
                    && negb blocked
                 then "completed"%string else st))
  /\ (forall id, id <> cid -> challenges db' !! id = challenges db !! id)
  /\ (st = "upcoming"%string -> out = [] /\ r = Ok ())
  /\ (st = "active"%string ->
      out = [] /\ r = if sent "start"%string then Ok () else Raise ValueError)
  /\ (st = "grace_period"%string ->
      r = Ok ()
      /\ out = if sent "ending"%string then []
               else [Outbound cid "ending" (ChallengeEndingSoon (description c))])
  /\ (st = "ended"%string ->
      if sent "final_results"%string then out = [] /\ r = Ok ()
      else if blocked
      then out = [] /\ r = Raise TypeError
           /\ has_notification_been_sent cid "final_results" db' = false
      else r = Ok ()
           /\ has_notification_been_sent cid "final_results" db' = true
           /\ exists m, out = [Outbound cid "final_results" m]
                        /\ final_message db cid (description c) = Ok m).
Proof.
  intros Ho Hcur Hs He Hne st sent blocked.
  pose proof (current_row_Some _ _ _ Hcur) as [Hc Hcurrent].
  pose proof (final_message_spec db cid c (description c) Hc) as Hfinal.
  fold blocked in Hfinal.
  rewrite (tick_migrated now ts db cid c sd ed Ho Hcur Hs He Hne). cbv zeta. fold st.
  set (db1 := if bool_decide (status c = VText st) then db
              else update_challenge_status cid (VText st) db).
  assert (Hdb1 : challenges db1 !! cid = Some (set_status (VText st) c)
                 /\ (forall id, id <> cid ->
                       challenges db1 !! id = challenges db !! id)
                 /\ forall kind, has_notification_been_sent cid kind db1 = sent kind).
  { unfold db1. destruct (decide (status c = VText st)) as [Hst|Hst].
    - rewrite (bool_decide_eq_true_2 _ Hst). split; [|done].
      rewrite Hc. f_equal. destruct c; cbn in *. by rewrite Hst.
    - rewrite (bool_decide_eq_false_2 _ Hst). cbn.
      rewrite lookup_alter_eq, Hc. split; [done|]. split; [|done].
      intros id Hne'. by rewrite lookup_alter_ne. }
  clearbody db1. destruct Hdb1 as (Hc1 & Hother & Hsent). rewrite !Hsent.
  pose proof (resolve_status_cases now sd ed) as Hcases. fold st in Hcases.
  clearbody st.
  destruct Hcases as [->|[->|[->| ->]]];
    cbn [String.eqb Ascii.eqb Bool.eqb andb];
    repeat match goal with
      | |- context [bool_decide (Some ?a = Some ?b)] =>
          let H := fresh in
          destruct (decide (Some a = Some b)) as [H|H];
          [rewrite (bool_decide_eq_true_2 _ H); try discriminate H
          |rewrite (bool_decide_eq_false_2 _ H); try (by destruct H)]
      end; cbn [andb].
  - rewrite Hc1. by repeat split.
  - destruct (sent "start"%string); cbn [negb]; rewrite Hc1; by repeat split.
  - destruct (sent "ending"%string); cbn [negb]; cbn; rewrite ?Hc1;
      by repeat split.
  - destruct (sent "final_results"%string) eqn:Hsf; cbn [negb andb].
    + rewrite Hc1. by repeat split.
    + destruct blocked; cbn [negb].
      * rewrite Hfinal, Hc1. repeat split; try done. by rewrite Hsent.
      * destruct Hfinal as [m Hm]. rewrite Hm. cbn.
        rewrite lookup_alter_eq, Hc1. repeat split; try done.
        -- intros id Hne'. rewrite lookup_alter_ne by done. by apply Hother.
        -- unfold has_notification_been_sent. cbn.
           rewrite lookup_insert_eq. by apply bool_decide_eq_true_2.
        -- by eexists.
Qed.

Lemma tick_by_phase_witness :
  status <$> challenges (run (noon (Date 2025 1 7)) "2025-01-07 10:00:00"
                           scenario_db) !! 1
  = Some (VText "completed").
Proof.
  apply (tick_by_phase (noon (Date 2025 1 7)) "2025-01-07 10:00:00" scenario_db 1
           (sample_challenge "2025-01-01" "2025-01-05" "active")
           (Date 2025 1 1) (Date 2025 1 5));
    reflexivity || discriminate.
Defined.

(** With a NULL current value among the three biggest changes every tick
    after the grace period raises: the challenge stays "ended" and the final
    results are never announced. *)
Example final_results_blocked_by_null :
  let tick := check_and_send_notifications (noon (Date 2025 2 3))
                "2025-02-03 10:00:00" in
  let db1 := update_challenge_status 1 (VText "ended") null_current_db in
  tick null_current_db = (db1, [], Raise TypeError)
  /\ tick db1 = (db1, [], Ok ())
  /\ get_current_challenge db1 = None.
Proof. by vm_compute. Qed.


(** ** Users, registration and admins *)

Lemma find_user_None col name db :
  find_user col name db = None <->
  forall i u, users db !! i = Some u -> col u <> VText name.
Proof.
  unfold find_user. split.
  - intros H i u Hu Hcol.
    destruct (List.find _ _) as [r|] eqn:Hfind; [done|].
    pose proof (find_none _ _ Hfind (i, u)) as Hf. cbn [snd] in Hf.
    rewrite bool_decide_eq_true_2 in Hf by done.
    discriminate Hf. by apply list_elem_of_In, elem_of_map_to_list.
  - intros H. destruct (List.find _ _) as [[i u]|] eqn:Hfind; [|done].
    apply find_some in Hfind as [Hin Hcol].
    apply list_elem_of_In, elem_of_map_to_list in Hin.
    apply bool_decide_eq_true_1 in Hcol. by destruct (H i u Hin).
Qed.

Lemma find_user_Some col name db i :
  find_user col name db = Some i ->
  exists u, users db !! i = Some u /\ col u = VText name.
Proof.
  unfold find_user. destruct (List.find _ _) as [[j u]|] eqn:Hfind; [|done].
  intros [= <-]. apply find_some in Hfind as [Hin Hcol].
  apply list_elem_of_In, elem_of_map_to_list in Hin.
  apply bool_decide_eq_true_1 in Hcol. by exists u.
Qed.

Lemma rstrip_singleton t x : rstrip t = String x EmptyString -> is_space x = false.
Proof.
  induction t as [|c t IH]; [done|]. cbn.
  destruct (rstrip t) as [|y r] eqn:Hr.
  - destruct (is_space c) eqn:Hc; [done|]. by intros [= <-].
  - by intros [= <- ?].
Qed.

Lemma username_re_rstrip t :
  username_re (rstrip t) = true ->
  Forall (fun c => username_char c = true) (ascii_list (rstrip t)).
Proof.
  induction t as [|c t IH]; [done|]. cbn [rstrip].
  destruct (rstrip t) as [|y r] eqn:Hr.
  - destruct (is_space c); [done|]. cbn. rewrite andb_true_r.
    intros Hc. by repeat constructor.
  - cbn [username_re]. intros [Hc Hrest]%andb_true_iff.
    constructor; [done|]. apply IH.
    apply orb_true_iff in Hrest as [Hrest|Hrest]; [|done].
    apply orb_true_iff in Hrest as [Hrest|Hrest]; [done|].
    apply String.eqb_eq in Hrest. injection Hrest as -> ->.
    by pose proof (rstrip_singleton t _ Hr).
Qed.

(** X11: registration keeps the registered names unique, and stores only
    well-formed names.  Whatever the text, the sender and the users table,
    when no two users share a registered name beforehand none do afterwards;
    a successful registration stores the stripped text, which has 3 to 20
    characters, all of them letters, digits, dots, dashes or underscores, and
    which no user held before, as the sender's name without touching any
    other user; every other reply leaves the database as it was. *)
Theorem register_username_unique text user_id name db :
  unique_registered (users db) ->
  let '(db', r) := register_username text user_id name db in
  unique_registered (users db')
  /\ (r = Registered ->
      let registered := py_strip text in
      users db' !! user_id = Some (User name (VText registered))
      /\ (3 <= String.length registered <= 20)%nat
      /\ Forall (fun c => username_char c = true) (ascii_list registered)
      /\ find_user registered_username registered db = None
      /\ (forall j, j <> user_id -> users db' !! j = users db !! j))
  /\ (r <> Registered -> db' = db).
Proof.
  intros Huniq. unfold register_username.
  destruct text as [|a text']; [by repeat split|].
  set (registered := py_strip (String a text')).
  destruct (Nat.ltb_spec (String.length registered) 3); [by repeat split|].
  destruct (Nat.ltb_spec 20 (String.length registered)); [by repeat split|].
  cbn [orb].
  destruct (username_re registered) eqn:Hre; [|by repeat split]. cbn [negb].
  destruct (find_user registered_username registered db) as [i|] eqn:Hfind;
    [by repeat split|].
  pose proof (proj1 (find_user_None _ _ _) Hfind) as Hfree.
  split; [|split; [|done]].
  - intros i j ui uj n Hi Hj Hni Hnj. cbn in Hi, Hj.
    destruct (decide (i = user_id)) as [->|Hi'],
             (decide (j = user_id)) as [->|Hj']; [done| | |].
    + rewrite lookup_insert_eq in Hi. rewrite lookup_insert_ne in Hj by done.
      injection Hi as <-. cbn in Hni. injection Hni as <-.
      by destruct (Hfree j uj Hj).
    + rewrite lookup_insert_eq in Hj. rewrite lookup_insert_ne in Hi by done.
      injection Hj as <-. cbn in Hnj. injection Hnj as <-.
      by destruct (Hfree i ui Hi).
    + rewrite lookup_insert_ne in Hi, Hj by done. by eapply Huniq.
  - intros _. cbn. rewrite lookup_insert_eq. repeat split; try done; try lia.
    + by apply username_re_rstrip.
    + intros j Hne. by rewrite lookup_insert_ne.
Qed.

Lemma register_username_unique_witness :
  users (fst (register_username " carol " 44 (VText "carol_tg") scenario_db)) !! 44
  = Some (User (VText "carol_tg") (VText "carol")).
Proof.
  apply (register_username_unique " carol " 44 (VText "carol_tg") scenario_db).
  - intros i j ui uj n Hi Hj _ _.
    change (users scenario_db)
      with ({[ 42 := User (VText "alice_tg") (VText "alice") ]} : gmap Z user)
      in Hi, Hj.
    apply lookup_singleton_Some in Hi as [<- _].
    by apply lookup_singleton_Some in Hj as [<- _].
  - reflexivity.
Defined.



(** X13: the fixed admin.  After [start] by a user whose Telegram name is
    "lucaspuu" that user passes [is_admin], and no other user's rows change;
    [start] by any other name changes nothing.  If the user had no row in
    [users] before, or one with that name, then no removal of admins, by
    whatever name, takes the right away. *)
Theorem fixed_admin_stays_admin ts user_id db admins :
  let '(db1, admins1) := start ts user_id (Some "lucaspuu"%string) db admins in
  is_admin user_id db1 admins1 = true
  /\ (forall j, j <> user_id ->
        users db1 !! j = users db !! j /\ admins1 !! j = admins !! j)
  /\ (forall name, name <> "lucaspuu"%string ->
        start ts user_id (Some name) db admins = (db, admins))
  /\ (users db !! user_id = None
      \/ username <$> users db !! user_id = Some (VText "lucaspuu") ->
      forall response name,
        is_admin user_id db1
          (fst (remove_admin_confirm response name db1 admins1)) = true).
Proof.
  cbn [start ensure_fixed_admin String.eqb Ascii.eqb Bool.eqb].
  set (users1 := insert_or_ignore user_id _ (users db)).
  set (admins1 := insert_or_ignore user_id _ admins).
  assert (Hadm : is_Some (admins1 !! user_id)).
  { subst admins1. unfold insert_or_ignore.
    destruct (admins !! user_id) eqn:Ha; [by rewrite Ha|].
    by rewrite lookup_insert_eq. }
  split; [|split; [|split]].
  - unfold is_admin. cbn [users with_users].
    destruct (users1 !! user_id); [case_bool_decide; [done|]|];
      by apply bool_decide_eq_true_2.
  - intros j Hne. subst users1 admins1. unfold insert_or_ignore. cbn.
    destruct (users db !! user_id), (admins !! user_id);
      by rewrite ?lookup_insert_ne.
  - intros name Hname. destruct name as [|a name']; [done|].
    cbn [start]. unfold ensure_fixed_admin.
    by destruct (String.eqb_spec (String a name') "lucaspuu").
  - intros Hrow response name. unfold is_admin. cbn [users with_users].
    assert (Hu : exists u, users1 !! user_id = Some u
                           /\ username u = VText "lucaspuu").
    { subst users1. unfold insert_or_ignore.
      destruct (users db !! user_id) as [u|] eqn:Hu.
      - destruct Hrow as [?|[= Hn]]; [done|]. exists u. by rewrite Hu.
      - eexists. by rewrite lookup_insert_eq. }
    destruct Hu as (u & -> & ->). by rewrite bool_decide_eq_true_2.
Qed.

(** A user who met the bot under another name keeps the old row in [users]:
    [start] under the fixed name still makes them an admin, but only through
    the [admins] table, and removing the old name takes the right away. *)
Example fixed_admin_with_an_old_row :
  let db := with_users {[ 7 := User (VText "lucas_old") VNull ]} (empty_db Migrated) in
  let '(db1, admins1) := start "2025-01-01 09:00:00" 7 (Some "lucaspuu"%string) db ∅ in
  is_admin 7 db1 admins1 = true
  /\ is_admin 7 db1 (fst (remove_admin_confirm "y" "lucas_old" db1 admins1)) = false.
Proof. by vm_compute. Qed.


(** ** Removing a challenge *)

Lemma filter_none {A} (p : A -> bool) (l : list A) :
  (forall x, x ∈ l -> p x = false) -> List.filter p l = [].
Proof.
  induction l as [|x l IH]; intros H; [done|]. cbn [List.filter].
  rewrite (H x) by by left. apply IH. intros y Hy. apply H. by right.
Qed.

Lemma filter_filter_other {A} (p q : A -> bool) (l : list A) :
  (forall x, p x = true -> q x = true) ->
  List.filter p (List.filter q l) = List.filter p l.
Proof.
  intros H. induction l as [|x l IH]; [done|]. cbn [List.filter].
  destruct (q x) eqn:Hq; cbn [List.filter]; rewrite IH; [done|].
  destruct (p x) eqn:Hp; [|done]. by rewrite (H x Hp) in Hq.
Qed.

(** X14: confirming the removal of a challenge deletes the challenge, all its
    scores, all its baseline rows and all its notification markers, and
    nothing else: afterwards its statistics are empty, while the rows of
    every other challenge, the users and the id counter are as before, so
    that a challenge created later never gets the removed id.  If the removed
    challenge was the only current one, no current challenge is left. *)
Theorem remove_challenge_cascade challenge_id challenge_data db :
  let db' := fst (remove_challenge_confirm "y"
                    (Some (challenge_id, challenge_data)) db) in
  (challenges db' !! challenge_id = None
   /\ challenge_scores db' challenge_id = []
   /\ (forall u, baseline_values db' !! (u, challenge_id) = None)
   /\ (forall kind, has_notification_been_sent challenge_id kind db' = false)
   /\ get_challenge_stats db' challenge_id = empty_stats)
  /\ (forall j, j <> challenge_id ->
        challenges db' !! j = challenges db !! j
        /\ challenge_scores db' j = challenge_scores db j
        /\ (forall u, baseline_values db' !! (u, j) = baseline_values db !! (u, j))
        /\ (forall kind, has_notification_been_sent j kind db'
                         = has_notification_been_sent j kind db))
  /\ (users db' = users db /\ corder db' = corder db
      /\ challenge_seq db' = challenge_seq db)
  /\ (challenge_id <= challenge_seq db -> next_id db' <> challenge_id)
  /\ (unique_current (challenges db) ->
      unique_current (challenges db')
      /\ (forall c, current_row db = Some (challenge_id, c) ->
            get_current_challenge db' = None)).
Proof.
  cbn [remove_challenge_confirm String.eqb Ascii.eqb Bool.eqb fst].
  assert (Hch : challenges (delete_challenge challenge_id db)
                = delete challenge_id (challenges db)) by done.
  split; [|split; [|split; [|split]]].
  - split; [by rewrite Hch, lookup_delete_eq|]. split; [|split; [|split]].
    + unfold challenge_scores. cbn [scores delete_challenge].
      apply filter_none. intros s [_ Hs]%elem_of_filter_bool.
      by apply negb_true_iff in Hs.
    + intros u. cbn [baseline_values delete_challenge].
      apply map_lookup_filter_None_2. right. intros b _ H. by apply H.
    + intros kind. unfold has_notification_been_sent.
      apply bool_decide_eq_false_2. intros [x Hx].
      cbn [challenge_notifications delete_challenge] in Hx.
      apply map_lookup_filter_Some_1_2 in Hx. by apply Hx.
    + unfold get_challenge_stats. by rewrite Hch, lookup_delete_eq.
  - intros j Hne. split; [by rewrite Hch, lookup_delete_ne|]. split; [|split].
    + unfold challenge_scores. cbn [scores delete_challenge].
      apply filter_filter_other. intros s Hs%Z.eqb_eq.
      apply negb_true_iff, Z.eqb_neq. by rewrite Hs.
    + intros u. cbn [baseline_values delete_challenge].
      destruct (baseline_values db !! (u, j)) as [b|] eqn:Hb.
      * by apply map_lookup_filter_Some_2.
      * apply map_lookup_filter_None_2. by left.
    + intros kind. unfold has_notification_been_sent.
      cbn [challenge_notifications delete_challenge].
      destruct (challenge_notifications db !! (j, kind)) as [t|] eqn:Ht.
      * by rewrite (map_lookup_filter_Some_2 _ _ _ _ Ht).
      * rewrite (map_lookup_filter_None_2 _ (challenge_notifications db) (j, kind));
          [done|by left].
  - done.
  - intros Hle. unfold next_id. cbn [challenge_seq delete_challenge]. lia.
  - intros Huniq.
    assert (Huniq' : unique_current (delete challenge_id (challenges db))).
    { intros i j ci cj Hi Hj. apply lookup_delete_Some in Hi as [_ Hi].
      apply lookup_delete_Some in Hj as [_ Hj]. by eapply Huniq. }
    split; [done|]. intros c Hcur. rewrite get_current_challenge_eq.
    apply current_row_Some in Hcur as [Hc Hcurrent].
    assert (Hnone : current_row (delete_challenge challenge_id db) = None);
      [|by rewrite Hnone].
    apply current_row_None. intros id c' Hc'. rewrite Hch in Hc'.
    apply lookup_delete_Some in Hc' as [Hne Hc'].
    destruct (is_current c') eqn:Hcurrent'; [|done].
    by destruct Hne; apply (Huniq challenge_id id c c').
Qed.


(** ** The points leaderboard *)

Lemma elem_of_group_by_user l u t :
  (u, t) ∈ group_by_user l
  <-> u ∈ map Score.user_id l
      /\ t = sum_points (List.filter (fun s => Score.user_id s =? u) l).
Proof.
  unfold group_by_user. rewrite list_elem_of_fmap. split.
  - intros (u' & Heq & Hu). rewrite elem_of_remove_dups in Hu.
    injection Heq as -> ->. by split.
  - intros [Hu ->]. exists u. split; [done|]. by rewrite elem_of_remove_dups.
Qed.

Lemma filter_user_joined db u usr l :
  users db !! u = Some usr ->
  List.filter (fun s => Score.user_id s =? u) (List.filter (has_user_row db) l)
  = List.filter (fun s => Score.user_id s =? u) l.
Proof.
  intros Hu. apply filter_filter_other. intros s Hs%Z.eqb_eq.
  apply bool_decide_eq_true_2. by rewrite Hs, Hu.
Qed.

(** The rows that the leaderboard query ranks: one per participant with a
    user row, with the registered name and the total. *)
Lemma elem_of_ranked_groups db cid v t :
  (v, t) ∈ omap (fun g => (fun u => (registered_username u, snd g))
                            <$> users db !! fst g)
             (by_user_id (group_by_user (List.filter (has_user_row db)
                                           (challenge_scores db cid))))
  <-> exists u usr,
        users db !! u = Some usr /\ v = registered_username usr
        /\ u ∈ participants db cid /\ t = participant_total db cid u.
Proof.
  rewrite list_elem_of_omap. split.
  - intros ([u t'] & Hg & H). cbn [fst snd] in H.
    destruct (users db !! u) as [usr|] eqn:Hu; [|done].
    cbn in H. injection H as <- <-.
    apply elem_of_order_by_desc in Hg.
    apply elem_of_group_by_user in Hg as [Hin ->].
    exists u, usr. repeat split; try done.
    + unfold participants. rewrite elem_of_remove_dups.
      apply list_elem_of_fmap in Hin as (s & -> & Hs).
      apply list_elem_of_fmap. exists s. split; [done|].
      by apply elem_of_filter_bool in Hs as [Hs _].
    + unfold participant_total. by rewrite (filter_user_joined db u usr).
  - intros (u & usr & Hu & -> & Hp & ->).
    exists (u, participant_total db cid u). cbn [fst snd]. rewrite Hu.
    split; [|done]. apply elem_of_order_by_desc.
    apply elem_of_group_by_user. split.
    + unfold participants in Hp. rewrite elem_of_remove_dups in Hp.
      apply list_elem_of_fmap in Hp as (s & -> & Hs).
      apply list_elem_of_fmap. exists s. split; [done|].
      apply elem_of_filter_bool. split; [done|].
      apply bool_decide_eq_true_2. by rewrite Hu.
    + unfold participant_total. by rewrite (filter_user_joined db _ usr).
Qed.

(** X15: the points leaderboard ([stats], the final ranking, the results of a
    past challenge).  It has at most [n] rows, in descending order of the
    total; every row is the registered name and the total of a participant
    who has a user row; and every such participant is on it, unless it is
    full and each of its totals is at least theirs.  Participants without a
    user row are not ranked. *)
Theorem points_ranking_spec db cid n :
  let board := points_ranking db cid n in
  (length board <= n)%nat
  /\ StronglySorted (fun a b => snd b <= snd a) board
  /\ (forall v t, (v, t) ∈ board ->
        exists u usr,
          users db !! u = Some usr /\ v = registered_username usr
          /\ u ∈ participants db cid /\ t = participant_total db cid u)
  /\ (forall u usr,
        users db !! u = Some usr -> u ∈ participants db cid ->
        (registered_username usr, participant_total db cid u) ∈ board
        \/ (length board = n
            /\ forall e, e ∈ board -> participant_total db cid u <= snd e)).
Proof.
  unfold points_ranking. cbv zeta. fold (has_user_row db).
  set (groups := omap _ _).
  destruct (limit_order_spec (fun r : value * Z => inject_Z (snd r)) groups n)
    as (Hlen & Hsorted & Htop).
  split; [done|]. split; [|split].
  - eapply StronglySorted_weaken; [|done]. intros a b H. by rewrite Zle_Qle.
  - intros v t H%elem_of_limit_order. by apply elem_of_ranked_groups.
  - intros u usr Hu Hp.
    destruct (Htop (registered_username usr, participant_total db cid u))
      as [H|[H1 H2]].
    + apply elem_of_ranked_groups. by exists u, usr.
    + by left.
    + right. split; [done|]. intros e He. rewrite Zle_Qle. by apply (H2 e).
Qed.


(** ** Removing the entries of a participant *)

Lemma filter_all {A} (p : A -> bool) (l : list A) :
  (forall x, x ∈ l -> p x = true) -> List.filter p l = l.
Proof.
  induction l as [|x l IH]; intros H; [done|]. cbn [List.filter].
  rewrite (H x) by by left. f_equal. apply IH. intros y Hy. apply H. by right.
Qed.

(** X16: [remove_entry_confirm] removes the entries of the participant who
    holds a registered name, in the current challenge only.  With registered
    names unique and a current challenge [cid]: if no user holds the name,
    no score is deleted and the reply says that nothing was found; otherwise
    exactly the scores of that user in [cid] are deleted and counted in the
    reply, the user is no participant of [cid] any more, the name is on no
    leaderboard of [cid], and the scores of other challenges and of other
    users are as before. *)
Theorem remove_entry_clears_user name db cid c :
  unique_registered (users db) ->
  current_row db = Some (cid, c) ->
  let '(db', r) := remove_entry_confirm "y" name db in
  match find_user registered_username name db with
  | None => scores db' = scores db /\ r = Ok NoEntriesFound
  | Some u =>
      let removed :=
        List.filter (fun s => (Score.challenge_id s =? cid)
                              && (Score.user_id s =? u)) (scores db) in
      (registered_username <$> users db !! u) = Some (VText name)
      /\ scores db'
         = List.filter (fun s => negb ((Score.challenge_id s =? cid)
                                       && (Score.user_id s =? u))) (scores db)
      /\ r = Ok (if (0 <? length removed)%nat
                 then EntriesRemoved (length removed) else NoEntriesFound)
      /\ (u ∉ participants db' cid)
      /\ (forall n t, ((VText name, t) ∉ points_ranking db' cid n))
      /\ (forall j, j <> cid -> challenge_scores db' j = challenge_scores db j)
      /\ (forall v, v <> u ->
            List.filter (fun s => Score.user_id s =? v) (scores db')
            = List.filter (fun s => Score.user_id s =? v) (scores db))
  end.
Proof.
  intros Huniq Hcur. unfold remove_entry_confirm.
  cbn [String.eqb Ascii.eqb Bool.eqb].
  rewrite get_current_challenge_eq, Hcur.
  cbn [fmap option_fmap option_map fst snd]. rewrite row_id_select_star.
  destruct (find_user registered_username name db) as [u|] eqn:Hfind.
  2:{ cbn [entry_of negb]. rewrite filter_all by done.
      cbn [scores with_scores]. by rewrite Nat.sub_diag. }
  pose proof (find_user_Some _ _ _ _ Hfind) as (usr & Hu & Hname).
  cbn [entry_of scores with_scores].
  set (kept := List.filter _ (scores db)).
  assert (Hpart : u ∉ participants (with_scores kept db) cid).
  { unfold participants, challenge_scores. cbn [scores with_scores].
    rewrite elem_of_remove_dups. intros (s & -> & Hs)%list_elem_of_fmap.
    apply elem_of_filter_bool in Hs as [Hs Hc].
    apply elem_of_filter_bool in Hs as [_ Hs].
    by rewrite Hc, Z.eqb_refl in Hs. }
  split; [by rewrite Hu; cbn; rewrite Hname|]. split; [done|]. split; [|split].
  - pose proof (length_filter_split
                  (fun s => (Score.challenge_id s =? cid) && (Score.user_id s =? u))
                  (scores db)) as Hlen.
    cbn beta in Hlen. fold kept in Hlen.
    by replace (length (scores db) - length kept)%nat
      with (length (List.filter
                      (fun s => (Score.challenge_id s =? cid)
                                && (Score.user_id s =? u)) (scores db))) by lia.
  - done.
  - split; [|split].
    + intros n t H. unfold points_ranking in H. cbv zeta in H.
      fold (has_user_row (with_scores kept db)) in H.
      apply elem_of_limit_order, elem_of_ranked_groups in H
        as (u' & usr' & Hu' & Hn' & Hp' & _).
      cbn [users with_scores] in Hu'.
      assert (u' = u) as -> by by apply (Huniq u' u usr' usr name).
      by apply Hpart.
    + intros j Hne. unfold challenge_scores. cbn [scores with_scores].
      apply filter_filter_other. intros s Hs%Z.eqb_eq.
      apply negb_true_iff, andb_false_iff. left. apply Z.eqb_neq. by rewrite Hs.
    + intros v Hne. apply filter_filter_other. intros s Hs%Z.eqb_eq.
      apply negb_true_iff, andb_false_iff. right. apply Z.eqb_neq. by rewrite Hs.
Qed.

Lemma remove_entry_clears_user_witness :
  scores (fst (remove_entry_confirm "y" "alice" scenario_db)) = [].
Proof.
  pose proof (remove_entry_clears_user "alice" scenario_db 1
                (sample_challenge "2025-01-01" "2025-01-05" "active")) as H.
  cbv zeta in H.
  destruct (remove_entry_confirm "y" "alice" scenario_db) as [db' r] eqn:Hrun.
  assert (Hfind : find_user registered_username "alice" scenario_db = Some 42)
    by reflexivity.
  rewrite Hfind in H.
  destruct H as (_ & H & _).
  - intros i j ui uj n Hi Hj _ _.
    change (users scenario_db)
      with ({[ 42 := User (VText "alice_tg") (VText "alice") ]} : gmap Z user)
      in Hi, Hj.
    apply lookup_singleton_Some in Hi as [<- _].
    by apply lookup_singleton_Some in Hj as [<- _].
  - reflexivity.
  - exact H.
Defined.


(** ** The baseline conversations *)

(** X18: the baseline conversations and the status resolver read the same
    position of the fetched row, position 3, as different columns, and no
    column order serves both: [setbaseline_start] and [updatevalue_start]
    compare it with the type tag "change", the status resolver binds the
    start date from it (and the end date from position 4).  For a current
    challenge with one of the type tags that the code writes and a start
    date that is a date: in the migrated column order, where position 3 is
    the start date, [setbaseline_start] and [updatevalue_start] answer that
    the command is for change challenges only, whatever the type of the
    challenge; in the declared order, where position 3 is the type tag, they
    start for a change challenge (and only for one), but there the status
    resolver raises at every time. *)
Theorem baseline_conversations_and_column_order db cid c user_id sd :
  current_row db = Some (cid, c) ->
  is_variant_tag (challenge_type c) ->
  strptime (py_str (start_date c)) = Some sd ->
  match corder db with
  | Migrated =>
      setbaseline_start db = Ok (OnlyForChangeChallenges, None)
      /\ updatevalue_start user_id db = Ok (OnlyForChangeChallenges, None)
  | Declared =>
      (forall now,
         get_challenge_status now (get_current_challenge db) = Raise ValueError)
      /\ (setbaseline_start db = Ok (Prompt, Some cid)
          <-> challenge_type c = VText "change")
      /\ (challenge_type c = VText "points" ->
          setbaseline_start db = Ok (OnlyForChangeChallenges, None)
          /\ updatevalue_start user_id db = Ok (OnlyForChangeChallenges, None))
  end.
Proof.
  intros Hcur Hty Hsd. unfold setbaseline_start, updatevalue_start.
  rewrite get_current_challenge_eq, Hcur.
  cbn [fmap option_fmap option_map fst snd].
  destruct (corder db) eqn:Ho.
  - split; [|split].
    + intros now. eapply get_challenge_status_bad_start; [reflexivity|].
      by apply variant_tag_is_no_date.
    + cbn. destruct Hty as [Hp | Hp]; rewrite Hp; by cbn.
    + intros Hp. cbn. rewrite Hp. by cbn.
  - cbn. assert (Hne : start_date c <> VText "change") by (by intros Heq; rewrite Heq in Hsd).
    by rewrite bool_decide_eq_false_2 by (by intros [= ?]).
Qed.

Lemma baseline_conversations_and_column_order_witness :
  setbaseline_start scenario_db = Ok (OnlyForChangeChallenges, None)
  /\ updatevalue_start 42 scenario_db = Ok (OnlyForChangeChallenges, None).
Proof.
  apply (baseline_conversations_and_column_order scenario_db 1
           (sample_challenge "2025-01-01" "2025-01-05" "active") 42 (Date 2025 1 1));
    [reflexivity | by left | reflexivity].
Defined.



(** The bounds check lets NaN through: the current value becomes NULL and the
    reply shows a change of NaN percent. *)
Example updatevalue_nan :
  updatevalue_value "2025-01-12 08:00:00" (Some NaN) 42 (Some 1) (Some (80 # 1))
    change_db
  = (with_baselines
       (<[(42, 1) := Baseline (Some (80 # 1)) None "2025-01-12 08:00:00"]>
          (baseline_values change_db)) change_db,
     Ok (ValueUpdated NaN)).
Proof. by vm_compute. Qed.

(** ** The weeks of the weekly leaderboards *)

(** X20: [get_week_dates] returns a Monday and the Sunday six days later; the
    week for offset 0 contains today, the week for offset [k] contains the
    day [7 k] days before today, and the week for offset [k + 1] ends on the
    day before the week for offset [k] starts: the weeks of [stats_week] and
    [stats_last_week] are adjacent and do not overlap. *)
Theorem get_week_dates_spec today offset :
  let '(monday, sunday) := get_week_dates today offset in
  weekday monday = 0 /\ weekday sunday = 6 /\ sunday = monday + 6
  /\ monday <= toordinal today - 7 * offset <= sunday
  /\ get_week_dates today (offset + 1) = (monday - 7, monday - 1).
Proof.
  unfold get_week_dates, weekday. cbv zeta.
  set (t := toordinal today).
  pose proof (Z.mod_pos_bound (t + 6) 7 ltac:(lia)) as Hb.
  pose proof (Z.div_mod (t + 6) 7 ltac:(lia)) as Hdm.
  split; [|split; [|split; [|split]]].
  - replace (t - ((t + 6) mod 7 + 7 * offset) + 6)
      with (((t + 6) / 7 - offset) * 7) by lia.
    apply Z.mod_mul. lia.
  - replace (t - ((t + 6) mod 7 + 7 * offset) + 6 + 6)
      with (6 + ((t + 6) / 7 - offset) * 7) by lia.
    by rewrite Z.mod_add by lia.
  - done.
  - lia.
  - f_equal; lia.
Qed.

(** ** The administrative edit: from the value to the row *)

Lemma years_of_four_digits :
  forallb (fun y => bool_decide (pretty y = zero_pad 4 y)) (seqZ 1000 9000) = true.
Proof. by vm_compute. Qed.

Lemma years_of_fewer_digits :
  forallb (fun y => (String.length (pretty y) <? 4)%nat) (seqZ 1 999) = true.
Proof. by vm_compute. Qed.

Lemma strftime_Ymd_isoformat d :
  1000 <= year d <= 9999 -> strftime_Ymd d = isoformat d.
Proof.
  intros Hy. unfold strftime_Ymd, isoformat.
  pose proof years_of_four_digits as H. rewrite forallb_forall in H.
  assert (Hin : In (year d) (seqZ 1000 9000))
    by (apply list_elem_of_In, elem_of_seqZ; lia).
  apply H, bool_decide_eq_true_1 in Hin. by rewrite Hin.
Qed.

(** A text that starts with fewer than four characters and a dash is no
    date for [strptime(_, '%Y-%m-%d')]. *)
Lemma strptime_short_year p rest :
  (String.length p < 4)%nat -> strptime (p +:+ "-" +:+ rest) = None.
Proof.
  intros Hp.
  assert (Hdash : is_digit "-" = false) by done.
  destruct p as [|a [|b [|c [|e p]]]]; cbn in Hp; [| | | |lia];
    unfold String.app; cbn [String.append].
  - by destruct rest as [|r1 [|r2 [|r3 [|r4 rest]]]]; try done;
      unfold strptime, four_digits; rewrite Hdash.
  - by destruct rest as [|r1 [|r2 [|r3 rest]]]; try done;
      unfold strptime, four_digits; rewrite Hdash; destruct (is_digit a).
  - by destruct rest as [|r1 [|r2 rest]]; try done;
      unfold strptime, four_digits; rewrite Hdash;
      destruct (is_digit a), (is_digit b).
  - by destruct rest as [|r1 rest]; try done;
      unfold strptime, four_digits; rewrite Hdash;
      destruct (is_digit a), (is_digit b), (is_digit c).
Qed.

Lemma strptime_strftime_short_year d :
  1 <= year d < 1000 -> strptime (strftime_Ymd d) = None.
Proof.
  intros Hy. unfold strftime_Ymd. apply strptime_short_year.
  pose proof years_of_fewer_digits as H. rewrite forallb_forall in H.
  assert (Hin : In (year d) (seqZ 1 999))
    by (apply list_elem_of_In, elem_of_seqZ; lia).
  by apply H, Nat.ltb_lt in Hin.
Qed.

(** What [edit_challenge_confirm] writes for a date entered as
    day/month/year. *)
Lemma strptime_dmY_strftime v d :
  strptime_dmY v = Some d ->
  (1000 <= year d ->
   strftime_Ymd d = isoformat d /\ strptime (strftime_Ymd d) = Some d)
  /\ (year d < 1000 -> strptime (strftime_Ymd d) = None).
Proof.
  intros H%strptime_dmY_valid.
  pose proof (valid_date_bounds _ _ _ H) as (Hy & _). split.
  - intros Hge. rewrite strftime_Ymd_isoformat by lia.
    split; [done|]. by apply strptime_isoformat.
  - intros Hlt. apply strptime_strftime_short_year. lia.
Qed.

(** X21: what an administrative edit can store.  A value that
    [edit_challenge_value] accepts is never refused by
    [edit_challenge_confirm].  For the start or the end date the stored text
    is what [strftime('%Y-%m-%d')] gives for the date entered as
    day/month/year, with the year written without padding.  From the year
    1000 on this is the ISO form of the date, and the status resolver's
    parser reads that date back from it; for a year below 1000 the stored
    text has fewer than four year digits, and the resolver's parser refuses
    it.  For the status the stored text is one of "active", "upcoming",
    "completed" and "cancelled", in lower case, so that an edit never stores
    "grace_period" or "ended". *)
Theorem edit_challenge_value_then_confirm text field_num v id c db :
  edit_challenge_value text field_num = Ok (Some v) ->
  challenges db !! id = Some c ->
  let '(db', r) := edit_challenge_confirm "y" (Some id) field_num v db in
  r = Ok ChallengeUpdated
  /\ (forall j, j <> id -> challenges db' !! j = challenges db !! j)
  /\ (field_num = 3 \/ field_num = 4 ->
      exists d,
        strptime_dmY v = Some d
        /\ (if field_num =? 3 then start_date else end_date)
             <$> challenges db' !! id = Some (VText (strftime_Ymd d))
        /\ (1000 <= year d ->
            strftime_Ymd d = isoformat d /\ strptime (strftime_Ymd d) = Some d)
        /\ (year d < 1000 -> strptime (strftime_Ymd d) = None))
  /\ (field_num = 5 ->
      status <$> challenges db' !! id = Some (VText v)
      /\ v ∈ valid_statuses
      /\ v = py_lower (py_strip text)).
Proof.
  intros Hval Hc. unfold edit_challenge_value in Hval.
  destruct (py_strip text) as [|a t] eqn:Htext; [done|].
  unfold edit_challenge_confirm. cbn [String.eqb Ascii.eqb Bool.eqb].
  assert (Hother : forall w, forall j, j <> id ->
            challenges (update_column field_num w (Some id) db) !! j
            = challenges db !! j).
  { intros w j Hne. cbn. by rewrite lookup_alter_ne. }
  destruct (Z.eqb_spec field_num 3) as [->|H3].
  { cbn [orb] in Hval. cbn.
    destruct (strptime_dmY (String a t)) as [d|] eqn:Hd; [|done].
    injection Hval as <-. rewrite Hd. cbn. rewrite lookup_alter_eq, Hc.
    split; [done|]. split; [intros j Hne; by rewrite lookup_alter_ne|].
    split; [|intros; lia].
    intros _. exists d. split; [done|].
    split; [done|by eapply strptime_dmY_strftime]. }
  destruct (Z.eqb_spec field_num 4) as [->|H4].
  { cbn [orb] in Hval. cbn.
    destruct (strptime_dmY (String a t)) as [d|] eqn:Hd; [|done].
    injection Hval as <-. rewrite Hd. cbn. rewrite lookup_alter_eq, Hc.
    split; [done|]. split; [intros j Hne; by rewrite lookup_alter_ne|].
    split; [|intros; lia].
    intros _. exists d. split; [done|].
    split; [done|by eapply strptime_dmY_strftime]. }
  cbn [orb] in Hval. cbn [orb].
  destruct (Z.eqb_spec field_num 5) as [->|H5].
  { case_bool_decide as Hin; [|done]. injection Hval as <-. cbn.
    rewrite lookup_alter_eq, Hc.
    split; [done|]. split; [intros j Hne; by rewrite lookup_alter_ne|].
    split; [intros; lia|]. by intros _. }
  destruct (is_field field_num) eqn:Hf; [|done]. injection Hval as <-.
  cbn [negb]. split; [done|]. split; [by apply Hother|].
  split; intros; lia.
Qed.

Lemma edit_challenge_value_then_confirm_witness :
  start_date <$> challenges
    (fst (edit_challenge_confirm "y" (Some 1) 3 "10/01/2025" scenario_db)) !! 1
  = Some (VText "2025-01-10").
Proof.
  destruct (edit_challenge_value_then_confirm " 10/01/2025 " 3 "10/01/2025" 1
              (sample_challenge "2025-01-01" "2025-01-05" "active") scenario_db)
    as (_ & _ & H & _); [reflexivity | reflexivity |].
  destruct H as (d & Hd & H & _); [by left|].
  injection Hd as <-. exact H.
Defined.

(** An edit to a start date in the year 999 is accepted and stores a text
    with a three-digit year; from then on the status resolver raises on the
    row. *)
Example edit_to_a_year_below_1000 :
  edit_challenge_value "01/01/0999" 3 = Ok (Some "01/01/0999"%string)
  /\ let db' := fst (edit_challenge_confirm "y" (Some 1) 3 "01/01/0999"
                       scenario_db) in
     start_date <$> challenges db' !! 1 = Some (VText "999-01-01")
     /\ get_challenge_status (noon (Date 2025 1 3)) (get_current_challenge db')
        = Raise ValueError.
Proof. by vm_compute. Qed.


(** ** Suggestions and votes *)

Lemma map_fold_max_ge {A} (m : gmap Z A) k x :
  m !! k = Some x -> k <= map_fold (fun k _ acc => Z.max k acc) 0 m.
Proof.
  revert k x.
  apply (map_fold_weak_ind
           (fun r (m : gmap Z A) => forall k x, m !! k = Some x -> k <= r)).
  - intros k x Hk. by rewrite lookup_empty in Hk.
  - intros i y m' r _ IH k x Hk.
    apply lookup_insert_Some in Hk as [[<- _]|[_ Hk]]; [lia|].
    specialize (IH k x Hk). lia.
Qed.

Lemma next_suggestion_id_fresh p :
  challenge_suggestions p !! next_suggestion_id p = None.
Proof.
  destruct (challenge_suggestions p !! next_suggestion_id p) as [s|] eqn:Hs;
    [|done].
  apply map_fold_max_ge in Hs. unfold next_suggestion_id in Hs. lia.
Qed.




Lemma length_filter_perm {A} (f : A -> bool) (l l' : list A) :
  l ≡ₚ l' -> length (List.filter f l) = length (List.filter f l').
Proof.
  induction 1 as [|x l l' _ IH|x y l|l l' l'' _ IH1 _ IH2]; cbn [List.filter].
  - done.
  - destruct (f x); cbn [length]; by rewrite IH.
  - by destruct (f x), (f y).
  - by rewrite IH1.
Qed.

Lemma suggestions_of_alter user_id f id (m : gmap Z Suggestion.t) seq v :
  (forall s, Suggestion.suggested_by (f s) = Suggestion.suggested_by s) ->
  length (suggestions_of user_id (MkPoll (alter f id m) seq v))
  = length (suggestions_of user_id (MkPoll m seq v)).
Proof.
  intros Hf. unfold suggestions_of. cbn [challenge_suggestions].
  destruct (m !! id) as [s|] eqn:Hs; [|by rewrite alter_id' by done].
  assert (Ha : alter f id m = <[id := f s]> (delete id m)).
  { apply map_eq. intros j. destruct (decide (j = id)) as [->|Hne].
    - by rewrite lookup_alter_eq, lookup_insert_eq, Hs.
    - by rewrite lookup_alter_ne, lookup_insert_ne, lookup_delete_ne. }
  assert (Hm : m = <[id := s]> (delete id m)) by by rewrite insert_delete_id.
  rewrite Ha. rewrite Hm at 2.
  rewrite (length_filter_perm _ _ _
             (map_to_list_insert (delete id m) id (f s) (lookup_delete_eq m id))).
  rewrite (length_filter_perm _ _ _
             (map_to_list_insert (delete id m) id s (lookup_delete_eq m id))).
  cbn [List.filter snd]. rewrite Hf.
  by destruct (Suggestion.suggested_by s =? user_id).
Qed.






(** X23: nobody gets a fourth suggestion.  If no user has more than three
    suggestions, none has afterwards, whatever is confirmed or voted: a
    confirmed suggestion is stored, with a fresh id and no votes, only while
    its author has fewer than three, and is refused otherwise; votes do not
    change who suggested what. *)
Theorem suggestions_at_most_three p :
  at_most_three p ->
  (forall ts response user_id desc scoring,
     let '(p', r) := new_challenge_confirm ts response user_id desc scoring p in
     at_most_three p'
     /\ (r = SuggestionSubmitted ->
         (length (suggestions_of user_id p) < 3)%nat
         /\ length (suggestions_of user_id p')
            = S (length (suggestions_of user_id p))
         /\ challenge_suggestions p !! suggestion_seq p' = None
         /\ challenge_suggestions p' !! suggestion_seq p'
            = Some (Suggestion.Row user_id desc scoring 0 ts))
     /\ (r <> SuggestionSubmitted -> p' = p)
     /\ (response = "y"%string -> (3 <= length (suggestions_of user_id p))%nat ->
         r = MaxSuggestions))
  /\ (forall user_id vote_num,
        at_most_three (fst (handle_challenge_vote user_id vote_num p))).
Proof.
  intros Hthree. split.
  - intros ts response user_id desc scoring. unfold new_challenge_confirm.
    destruct (String.eqb_spec response "y") as [->|Hy].
    2:{ destruct (String.eqb response "n"); by repeat split. }
    destruct (Nat.leb_spec 3 (length (suggestions_of user_id p))) as [Hfull|Hroom].
    { by repeat split. }
    pose proof (next_suggestion_id_fresh p) as Hfresh.
    set (id := next_suggestion_id p) in *.
    assert (Hlen : forall u,
              length (suggestions_of u
                        (MkPoll (<[id := Suggestion.Row user_id desc scoring 0 ts]>
                                   (challenge_suggestions p)) id (votes p)))
              = ((if (u =? user_id)%Z then 1 else 0)
                 + length (suggestions_of u p))%nat).
    { intros u. unfold suggestions_of. cbn [challenge_suggestions].
      rewrite (length_filter_perm _ _ _
                 (map_to_list_insert (challenge_suggestions p) id _ Hfresh)).
      cbn [List.filter snd Suggestion.suggested_by]. rewrite (Z.eqb_sym user_id u).
      by destruct (u =? user_id). }
    split; [|split; [|split]].
    + intros u. rewrite Hlen. specialize (Hthree u).
      destruct (Z.eqb_spec u user_id) as [->|Hne]; lia.
    + intros _. split; [done|]. split.
      * rewrite Hlen, Z.eqb_refl. lia.
      * cbn [suggestion_seq challenge_suggestions].
        by rewrite lookup_insert_eq.
    + done.
    + intros _ Hfull. lia.
  - intros user_id vote_num. unfold handle_challenge_vote.
    destruct (_ || _); [done|].
    destruct (ranked_suggestions p !! Z.to_nat (vote_num - 1)) as [sid|]; [|done].
    case_bool_decide; [done|]. cbn [fst]. intros u.
    rewrite suggestions_of_alter by done.
    specialize (Hthree u). by destruct p.
Qed.

Lemma suggestions_at_most_three_witness :
  at_most_three (fst (new_challenge_confirm "2025-01-03 09:00:00" "y" 42
                        "Daily stretching" "1 point per session" sample_poll)).
Proof.
  pose proof (suggestions_at_most_three sample_poll) as [H _].
  - intros u. unfold suggestions_of.
    change (challenge_suggestions sample_poll)
      with ({[ 1 := Suggestion.Row 42 "Cold showers" "1 point per shower" 0
                      "2025-01-02 09:00:00" ]} : gmap Z Suggestion.t).
    rewrite map_to_list_singleton.
    cbn [List.filter snd Suggestion.suggested_by].
    destruct (42 =? u); cbn [length]; lia.
  - specialize (H "2025-01-03 09:00:00"%string "y"%string 42
                  "Daily stretching"%string "1 point per session"%string).
    destruct (new_challenge_confirm _ _ _ _ _ _) as [p' r]. apply H.
Defined.


(** ** Which challenge is the current one *)

Lemma ascii_compare_refl x : Ascii.compare x x = Eq.
Proof. unfold Ascii.compare. apply N.compare_refl. Qed.

Lemma string_compare_refl s : String.compare s s = Eq.
Proof. induction s as [|x s IH]; [done|]. cbn. by rewrite ascii_compare_refl. Qed.

Lemma string_compare_trans a b c :
  String.compare a b = Lt -> String.compare b c = Lt -> String.compare a c = Lt.
Proof.
  revert b c. induction a as [|x a IH]; intros [|y b] [|z c]; cbn; try done.
  destruct (Ascii.compare x y) eqn:Hxy, (Ascii.compare y z) eqn:Hyz; try done.
  - apply Ascii.compare_eq_iff in Hxy as ->. apply Ascii.compare_eq_iff in Hyz as ->.
    rewrite ascii_compare_refl. apply IH.
  - apply Ascii.compare_eq_iff in Hxy as ->. by rewrite Hyz.
  - apply Ascii.compare_eq_iff in Hyz as <-. by rewrite Hxy.
  - intros _ _. unfold Ascii.compare in *.
    assert (H : (N_of_ascii x ?= N_of_ascii z)%N = Lt).
    { apply N.compare_lt_iff.
      eapply N.lt_trans; by apply N.compare_lt_iff. }
    by rewrite H.
Qed.

Lemma string_ltb_cotrans a b c :
  String.ltb a c = true -> String.ltb a b = true \/ String.ltb b c = true.
Proof.
  unfold String.ltb. destruct (String.compare a c) eqn:Hac; try done. intros _.
  destruct (String.compare a b) eqn:Hab; [|by left|].
  - apply String.compare_eq_iff in Hab as ->. right. by rewrite Hac.
  - right. rewrite String.compare_antisym in Hab.
    destruct (String.compare b a) eqn:Hba; try done.
    by rewrite (string_compare_trans b a c Hba Hac).
Qed.

Lemma value_ltb_irrefl v : value_ltb v v = false.
Proof.
  destruct v as [|n|s]; cbn; [done|apply Z.ltb_irrefl|].
  unfold String.ltb. by rewrite string_compare_refl.
Qed.

Lemma value_ltb_cotrans a b c :
  value_ltb a c = true -> value_ltb a b = true \/ value_ltb b c = true.
Proof.
  destruct a as [|x|s], b as [|y|t], c as [|z|u]; cbn; try done; try tauto.
  - rewrite !Z.ltb_lt. lia.
  - apply string_ltb_cotrans.
Qed.

Lemma value_ltb_asym a b : value_ltb a b = true -> value_ltb b a = false.
Proof.
  destruct a as [|x|s], b as [|y|t]; cbn; try done.
  - rewrite Z.ltb_lt, Z.ltb_ge. lia.
  - unfold String.ltb. rewrite (String.compare_antisym s t).
    by destruct (String.compare t s).
Qed.

Lemma keep_latest_ge b y :
  exists w, keep_latest (Some b) y = Some w
    /\ value_ltb (created_at (snd w)) (created_at (snd b)) = false
    /\ value_ltb (created_at (snd w)) (created_at (snd y)) = false.
Proof.
  unfold keep_latest.
  destruct (value_ltb (created_at (snd b)) (created_at (snd y))) eqn:Hby.
  { exists y. split; [done|]. split; [by apply value_ltb_asym|].
    apply value_ltb_irrefl. }
  destruct (value_ltb (created_at (snd y)) (created_at (snd b))) eqn:Hyb.
  { exists b. split; [done|]. split; [apply value_ltb_irrefl|done]. }
  destruct (fst y <? fst b).
  - exists y. split; [done|]. split; [done|apply value_ltb_irrefl].
  - exists b. split; [done|]. split; [apply value_ltb_irrefl|done].
Qed.

Lemma latest_max best rows r :
  foldl keep_latest best rows = Some r ->
  forall x, best = Some x \/ x ∈ rows ->
    value_ltb (created_at (snd r)) (created_at (snd x)) = false.
Proof.
  revert best. induction rows as [|y rows IH]; intros best Hr x Hx; cbn in Hr.
  - destruct Hx as [Hx|Hx]; [|by apply elem_of_nil in Hx].
    rewrite Hx in Hr. injection Hr as ->. apply value_ltb_irrefl.
  - destruct Hx as [Hx|[->|Hx]%elem_of_cons];
      [| |by apply (IH _ Hr); right].
    + subst best.
      destruct (keep_latest_ge x y) as (w & Hw & Hwx & _).
      rewrite Hw in Hr.
      pose proof (IH _ Hr w (or_introl eq_refl)) as Hrw.
      destruct (value_ltb (created_at (snd r)) (created_at (snd x))) eqn:Hrx;
        [|done].
      destruct (value_ltb_cotrans _ (created_at (snd w)) _ Hrx); congruence.
    + destruct best as [b|]; [|by apply (IH _ Hr); left].
      destruct (keep_latest_ge b y) as (w & Hw & _ & Hwy).
      rewrite Hw in Hr.
      pose proof (IH _ Hr w (or_introl eq_refl)) as Hrw.
      destruct (value_ltb (created_at (snd r)) (created_at (snd y))) eqn:Hry;
        [|done].
      destruct (value_ltb_cotrans _ (created_at (snd w)) _ Hry); congruence.
Qed.

(** X26: [get_current_challenge] returns a challenge whose persisted status
    is "active", "upcoming" or "grace_period" and whose creation time is not
    earlier than that of any other such challenge; it returns nothing exactly
    when no challenge has one of these statuses.  The fetched row starts with
    the id of that challenge. *)
Theorem get_current_challenge_is_latest db :
  match get_current_challenge db with
  | None =>
      forall id c, challenges db !! id = Some c -> is_current c = false
  | Some row =>
      exists id c,
        row = select_star (corder db) id c
        /\ row_id row = Ok id
        /\ challenges db !! id = Some c
        /\ is_current c = true
        /\ forall id' c',
             challenges db !! id' = Some c' -> is_current c' = true ->
             value_ltb (created_at c) (created_at c') = false
  end.
Proof.
  rewrite get_current_challenge_eq.
  destruct (current_row db) as [[id c]|] eqn:Hcur;
    cbn [fmap option_fmap option_map fst snd].
  - pose proof (current_row_Some _ _ _ Hcur) as [Hc Hcurrent].
    exists id, c. split; [done|]. split; [apply row_id_select_star|].
    split; [done|]. split; [done|]. intros id' c' Hc' Hcurrent'.
    apply (latest_max None _ (id, c) Hcur (id', c')). right.
    apply elem_of_filter_bool. split; [|done]. by apply elem_of_map_to_list.
  - by apply current_row_None.
Qed.

(** ** Points are never negative *)

Lemma edit_score_new_points_accepted T dates T' ppd :
  edit_score_new_points (Some T) dates = PointsAccepted T' ppd ->
  T' = T /\ 0 <= T <= 1000000 /\ dates <> []
  /\ ppd = T / Z.of_nat (length dates) /\ 0 <= ppd <= 100000.
Proof.
  unfold edit_score_new_points.
  destruct (Z.ltb_spec T 0); [done|]. destruct (Z.ltb_spec 1000000 T); [done|].
  destruct dates as [|d dates]; [done|].
  destruct (Z.ltb_spec 100000 (T / Z.of_nat (length (d :: dates)))); [done|].
  intros [= <- <-]. repeat split; try done; try lia.
  apply Z.div_pos; [lia|]. cbn [length]. lia.
Qed.

Lemma nonneg_insert user_id ds ppd cid l :
  0 <= ppd -> Forall (fun s => 0 <= Score.points s) l ->
  Forall (fun s => 0 <= Score.points s) (insert_scores user_id ds ppd cid l).
Proof.
  intros Hppd Hl. unfold insert_scores. apply Forall_app. split; [done|].
  apply Forall_fmap, Forall_forall. by intros d _.
Qed.

Lemma nonneg_filter (p : Score.t -> bool) l :
  Forall (fun s => 0 <= Score.points s) l ->
  Forall (fun s => 0 <= Score.points s) (List.filter p l).
Proof.
  intros Hl. apply Forall_forall. intros s [Hs _]%elem_of_filter_bool.
  by apply (proj1 (Forall_forall _ _) Hl).
Qed.

Lemma sum_points_nonneg l :
  Forall (fun s => 0 <= Score.points s) l -> 0 <= sum_points l.
Proof.
  induction 1 as [|s l Hs _ IH]; [done|]. rewrite sum_points_cons. lia.
Qed.

(** X27: points are never negative.  If no stored measurement has negative
    points, none has after any of the score conversations (adding or editing
    with points per day that the points step accepted, removing), the removal
    of a participant's entries or of a challenge; hence every participant's
    total is at least 0, and a challenge total that is shown is positive. *)
Theorem scores_stay_nonnegative db :
  nonneg_scores db ->
  (forall now response user_id T dates T' ppd,
     add_score_points (Some T) dates = PointsAccepted T' ppd ->
     nonneg_scores (fst (add_score_confirm now response user_id dates ppd db)))
  /\ (forall now response user_id T dates T' ppd,
        edit_score_new_points (Some T) dates = PointsAccepted T' ppd ->
        nonneg_scores (fst (edit_score_confirm now response user_id dates ppd db)))
  /\ (forall now response user_id dates,
        nonneg_scores (fst (remove_score_confirm now response user_id dates db)))
  /\ (forall response name,
        nonneg_scores (fst (remove_entry_confirm response name db)))
  /\ (forall response session,
        nonneg_scores (fst (remove_challenge_confirm response session db)))
  /\ (forall cid u, 0 <= participant_total db cid u)
  /\ (forall cid T, total_points_of db cid = Some T -> 0 < T).
Proof.
  intros Hdb. unfold nonneg_scores in *.
  split; [|split; [|split; [|split; [|split; [|split]]]]].
  - intros now response user_id T dates T' ppd Hacc.
    assert (Hppd : 0 <= ppd).
    { unfold add_score_points in Hacc.
      destruct (Z.leb_spec T 0); [done|]. destruct (Z.ltb_spec 1000000 T); [done|].
      destruct dates as [|d dates]; [done|].
      destruct (Z.ltb_spec 100000 (T / Z.of_nat (length (d :: dates)))); [done|].
      injection Hacc as <- <-. apply Z.div_pos; [lia|]. cbn [length]. lia. }
    unfold add_score_confirm. repeat case_match; try done. cbn.
    by apply nonneg_insert.
  - intros now response user_id T dates T' ppd Hacc.
    apply edit_score_new_points_accepted in Hacc as (_ & _ & _ & _ & Hppd & _).
    unfold edit_score_confirm. repeat case_match; try done; cbn.
    + apply nonneg_insert; [done|]. by apply nonneg_filter.
    + by apply nonneg_filter.
  - intros now response user_id dates. unfold remove_score_confirm.
    repeat case_match; try done. cbn. by apply nonneg_filter.
  - intros response name. unfold remove_entry_confirm.
    repeat case_match; try done; cbn; by apply nonneg_filter.
  - intros response session. unfold remove_challenge_confirm.
    repeat case_match; try done; cbn; by apply nonneg_filter.
  - intros cid u. unfold participant_total, challenge_scores.
    by apply sum_points_nonneg, nonneg_filter, nonneg_filter.
  - intros cid T. unfold total_points_of.
    pose proof (sum_points_nonneg (challenge_scores db cid)
                  (nonneg_filter _ _ Hdb)) as Hsum.
    destruct (challenge_scores db cid) as [|s l]; [done|].
    destruct (Z.eqb_spec (sum_points (s :: l)) 0); [done|].
    intros [= <-]. rewrite sum_points_cons in Hsum, n. lia.
Qed.

Lemma scores_stay_nonnegative_witness :
  nonneg_scores (fst (add_score_confirm (noon (Date 2025 1 4)) "y" 42 [1; 2; 3] 3
                        scenario_db)).
Proof.
  apply (scores_stay_nonnegative scenario_db) with (T := 10) (T' := 10).
  - apply (bool_decide_unpack _). vm_compute. exact I.
  - reflexivity.
Defined.


(** ** Feedback pages *)

Lemma feedback_pages_from fuel offset ordered :
  (length ordered - offset < 10 * fuel)%nat ->
  concat (feedback_pages fuel offset ordered) = drop offset ordered
  /\ Forall (fun page => (1 <= length page <= 10)%nat)
       (feedback_pages fuel offset ordered).
Proof.
  revert offset. induction fuel as [|fuel IH]; intros offset Hfuel; [lia|].
  cbn [feedback_pages]. unfold show_feedback_page. cbv zeta.
  set (rest := drop offset ordered).
  assert (Hlen : length rest = (length ordered - offset)%nat)
    by (subst rest; by rewrite length_drop).
  destruct (take 11 rest) as [|x results] eqn:Htake.
  { apply (f_equal length) in Htake. rewrite length_take in Htake.
    destruct rest; [done|]. cbn in Htake. lia. }
  rewrite <- Htake. rewrite take_take. change (10 `min` 11)%nat with 10%nat.
  assert (Hpos : (1 <= length rest)%nat).
  { destruct rest; [done|]. cbn. lia. }
  destruct (Nat.ltb_spec 10 (length (take 11 rest))) as [Hmore|Hlast];
    rewrite length_take in *.
  - destruct (IH (offset + 10)%nat ltac:(lia)) as [Hcat Hall].
    cbn [concat]. rewrite Hcat. split.
    + rewrite <- drop_drop. fold rest. apply take_drop.
    + constructor; [rewrite length_take; lia|done].
  - cbn [concat]. rewrite app_nil_r. split.
    + apply take_ge. lia.
    + constructor; [rewrite length_take; lia|constructor].
Qed.

(** X28: the feedback pages show every entry exactly once.  An admin who
    starts the feedback view and answers "next" as long as the view goes on
    sees, page after page, the whole feedback table in its order, as long as
    the table is the same for every page: every page has between 1 and 10
    entries, and the pages put together are the table (no page at all when
    the table is empty). *)
Theorem feedback_pages_cover fuel ordered :
  (length ordered < 10 * fuel)%nat ->
  concat (feedback_pages fuel 0 ordered) = ordered
  /\ Forall (fun page => (1 <= length page <= 10)%nat)
       (feedback_pages fuel 0 ordered)
  /\ (ordered = [] -> feedback_pages fuel 0 ordered = []).
Proof.
  intros Hfuel.
  destruct (feedback_pages_from fuel 0 ordered ltac:(lia)) as [Hcat Hall].
  split; [done|]. split; [done|]. intros ->. by destruct fuel.
Qed.

Lemma feedback_pages_cover_witness :
  concat (feedback_pages 2 0
            (map (fun i => Feedback.Row i 42 "alice_tg" "More challenges"
                             "2025-01-02 09:00:00") (seqZ 1 12)))
  = map (fun i => Feedback.Row i 42 "alice_tg" "More challenges"
                    "2025-01-02 09:00:00") (seqZ 1 12).
Proof.
  apply (feedback_pages_cover 2). vm_compute. lia.
Defined.

Lemma add_score_confirm_checks_status_witness :
  exists row st msg,
    get_current_challenge scenario_db = Some row
    /\ get_challenge_status (noon (Date 2025 1 4)) (Some row)
       = Ok (Some st, msg)
    /\ (st = "active"%string \/ st = "grace_period"%string).
Proof.
  apply (add_score_confirm_checks_status (noon (Date 2025 1 4)) "y" 42
           [1; 2; 3] 3).
  intros H. apply (f_equal scores) in H. vm_compute in H. discriminate H.
Defined.
